(** * source-deploy-retrieve: component sets, tree containers and the
      path resolver

    A shallow embedding of
      - [src/collections/componentSet.ts]            (class ComponentSet),
      - [src/metadata-registry/fileContainers.ts]    (BaseFileContainer,
        GithubFileContainer),
      - the registry access module                   (class RegistryAccess:
        getTypeFromName, determineTypeId, fetchComponent,
        getComponentsFromPathRecursive, getComponentsFromPath),
    followed by the properties of the design document that concern them.

    Conventions.
      - A JavaScript call either returns or throws: [Completion].
      - A [Map] keeps insertion order, which iteration exposes: it is an
        association list ([OMap]).
      - A source path is kept in split form, the list of segments that
        [fsPath.split(sep)] yields; [join], [dirname] and [basename] of
        node's path module act on the segment list, see [Path] for the
        paths on which they are node's functions.
      - The registry tables are plain objects: a read by key finds the
        properties of [Object.prototype] too, see [JsObject]. *)

From Stdlib Require Import String Ascii List Bool Arith Lia.
From stdpp Require Import base strings list gmap.
Import ListNotations.

Local Open Scope string_scope.
Local Open Scope list_scope.

(* ================================================================== *)
(** * Completions *)
(* ================================================================== *)

(** The error keys the sources pass to [TypeInferenceError]. *)
Inductive ErrorKey :=
| error_path_not_found
| error_missing_type_definition
| error_could_not_infer_type.

(** What a [throw] carries: one of the library's own errors, with the
    argument it was built from, the runtime's [TypeError] raised by a
    property access on [undefined], or a plain [Error]. *)
Inductive Exception :=
| TypeInferenceError (key : ErrorKey) (arg : list string)
| TypeError
| JsError (message : string).

(** [OutOfFuel] is not a JavaScript outcome: it marks a recursion budget
    that ended before the call did. *)
Inductive Completion (A : Type) :=
| Returns (a : A)
| Throws (e : Exception)
| OutOfFuel.
Arguments Returns {A} a.
Arguments Throws {A} e.
Arguments OutOfFuel {A}.

Definition bind {A B} (m : Completion A) (k : A -> Completion B) : Completion B :=
  match m with
  | Returns a => k a
  | Throws e => Throws e
  | OutOfFuel => OutOfFuel
  end.

#[global] Instance Completion_bind : MBind Completion :=
  fun A B k m => bind m k.
#[global] Instance Completion_ret : MRet Completion := @Returns.

(** A [for ... of] loop whose body may throw, with the loop state threaded
    through. *)
Fixpoint forEach {A S} (body : S -> A -> Completion S) (xs : list A) (s : S)
  : Completion S :=
  match xs with
  | [] => Returns s
  | x :: xs' => s' ← body s x; forEach body xs' s'
  end.

(* ================================================================== *)
(** * JavaScript strings *)
(* ================================================================== *)

Module JsString.

Definition lowerChar (c : ascii) : ascii :=
  let n := nat_of_ascii c in
  if (Nat.leb 65 n && Nat.leb n 90)%bool then ascii_of_nat (n + 32)%nat else c.

(** [s.toLowerCase()], on the ASCII range. *)
Fixpoint toLowerCase (s : string) : string :=
  match s with
  | EmptyString => EmptyString
  | String c s' => String (lowerChar c) (toLowerCase s')
  end.

Fixpoint trimStart (s : string) : string :=
  match s with
  | EmptyString => EmptyString
  | String c s' => if Ascii.is_space c then trimStart s' else s
  end.

Fixpoint rev_string (s acc : string) : string :=
  match s with
  | EmptyString => acc
  | String c s' => rev_string s' (String c acc)
  end.

(** [s.trim()]. *)
Definition trim (s : string) : string :=
  rev_string (trimStart (rev_string (trimStart s) "")) "".

(** [s.replace(/ /g, '')]. *)
Fixpoint removeSpaces (s : string) : string :=
  match s with
  | EmptyString => EmptyString
  | String c s' =>
      if Ascii.eqb c " " then removeSpaces s' else String c (removeSpaces s')
  end.

(** [s.split(d)] for a one-character delimiter: never empty. *)
Fixpoint split (d : ascii) (s : string) : list string :=
  match s with
  | EmptyString => [EmptyString]
  | String c s' =>
      if Ascii.eqb c d then EmptyString :: split d s'
      else match split d s' with
           | [] => [String c EmptyString]
           | h :: t => String c h :: t
           end
  end.

(** [s.includes(d)] for a one-character needle. *)
Fixpoint includes (d : ascii) (s : string) : bool :=
  match s with
  | EmptyString => false
  | String c s' => Ascii.eqb c d || includes d s'
  end.

(** [s.startsWith(p)]. *)
Definition startsWith (s p : string) : bool := String.prefix p s.

(** Truthiness of [string | undefined]: the empty string is falsy too. *)
Definition truthy (o : option string) : bool :=
  match o with
  | Some s => negb (String.eqb s "")
  | None => false
  end.

(** [o ?? ''] *)
Definition orEmpty (o : option string) : string :=
  match o with Some s => s | None => "" end.

End JsString.

(* ================================================================== *)
(** * Reading a plain object by key *)
(* ================================================================== *)

Module JsObject.

(** The property names that every plain object inherits from
    [Object.prototype]. Reading one of them off an object that has no
    own property of that name gives the inherited function (for
    [__proto__], the prototype itself): a value that is truthy and is
    not a string. *)
Definition prototypeKeys : list string :=
  [ "constructor"; "hasOwnProperty"; "isPrototypeOf"; "propertyIsEnumerable";
    "toLocaleString"; "toString"; "valueOf"; "__proto__";
    "__defineGetter__"; "__defineSetter__"; "__lookupGetter__";
    "__lookupSetter__" ].

Definition inherited (key : string) : bool :=
  existsb (String.eqb key) prototypeKeys.

(** What [table[key]] evaluates to, for a table of strings. *)
Inductive Value :=
| undefined
| own (value : string)
| fromPrototype (key : string).

Definition ofOption (o : option string) : Value :=
  match o with
  | Some value => own value
  | None => undefined
  end.

(** The read of a key that the table does not hold. *)
Definition absent (key : string) : Value :=
  if inherited key then fromPrototype key else undefined.

Definition get (table : gmap string string) (key : string) : Value :=
  match table !! key with
  | Some value => own value
  | None => absent key
  end.

Definition truthy (v : Value) : bool :=
  match v with
  | undefined => false
  | own value => negb (String.eqb value "")
  | fromPrototype _ => true
  end.

End JsObject.

(* ================================================================== *)
(** * Insertion-ordered maps with string keys (JavaScript [Map]) *)
(* ================================================================== *)

Module OMap.
Section Defs.
Context {V : Type}.

Definition t := list (string * V).

Definition empty : t := [].

Fixpoint get (k : string) (m : t) : option V :=
  match m with
  | [] => None
  | (k', v) :: m' => if String.eqb k' k then Some v else get k m'
  end.

Definition has (k : string) (m : t) : bool :=
  match get k m with Some _ => true | None => false end.

(** [m.set(k, v)]: an existing key keeps its place, a new one goes
    last. *)
Fixpoint set (k : string) (v : V) (m : t) : t :=
  match m with
  | [] => [(k, v)]
  | (k', v') :: m' =>
      if String.eqb k' k then (k', v) :: m' else (k', v') :: set k v m'
  end.

Definition keys (m : t) : list string := map fst m.
Definition values (m : t) : list V := map snd m.
Definition entries (m : t) : list (string * V) := m.
Definition size (m : t) : nat := length m.
End Defs.
Arguments t V : clear implicits.
End OMap.

(* ================================================================== *)
(** * Data model *)
(* ================================================================== *)

(** A source path, split at [sep]. *)
Definition SourcePath := list string.

(** Registry entry. [inFolder] is an optional boolean in the registry
    data; an absent flag is falsy. *)
Record MetadataType := {
  id : string;
  name : string;
  directoryName : string;
  suffix : option string;
  inFolder : bool;
  folderType : option string;
  folderContentType : option string
}.

#[global] Instance MetadataType_eq_dec : EqDecision MetadataType.
Proof. solve_decision. Defined.

(** The registry data. [types], [suffixes] and [adapters] are only ever
    read by key; [mixedContent] is also enumerated with [Object.keys]: it
    is kept as the list of its entries in the order of that enumeration.
    The tables hold the own properties; what a read by key gives for a
    key that a table does not hold is in [JsObject]. *)
Record MetadataRegistry := {
  types : gmap string MetadataType;
  suffixes : gmap string string;
  mixedContent : list (string * string);
  adapters : gmap string string;
  apiVersion : string
}.

(** Modelled from the spec: class SourceComponent is not among the
    sources. It is a MetadataComponent (full name, type) with an optional
    xml descriptor path, an optional content path and an optional parent;
    its children are computed on demand from the tree, see [getChildren]
    below. *)
#[warnings="-register-all"]
Inductive SourceComponent := {
  sc_fullName : string;
  sc_type : MetadataType;
  sc_xml : option SourcePath;
  sc_content : option SourcePath;
  sc_parent : option SourceComponent
}.

(** [ComponentLike.type] is either a type name or a registry entry. *)
Inductive TypeRef :=
| TypeName (s : string)
| TypeEntry (t : MetadataType).

(** [ComponentLike]: a plain [{ fullName, type }] object or a
    SourceComponent instance. *)
Inductive ComponentLike :=
| Member (fullName : string) (type : TypeRef)
| Source (component : SourceComponent).

(** What iteration yields: a plain object with a registry type, or a
    stored SourceComponent. *)
Inductive MetadataComponent :=
| Abstract (fullName : string) (type : MetadataType)
| Concrete (component : SourceComponent).

Definition likeFullName (c : ComponentLike) : string :=
  match c with
  | Member fullName _ => fullName
  | Source sc => sc_fullName sc
  end.

Definition likeType (c : ComponentLike) : TypeRef :=
  match c with
  | Member _ type => type
  | Source sc => TypeEntry (sc_type sc)
  end.

(** The text of a path: its segments joined with [sep]. *)
Definition pathText (p : SourcePath) : string := String.concat "/" p.

(* ================================================================== *)
(** * Registry lookups *)
(* ================================================================== *)

Module Registry.

(** [RegistryAccess.getTypeFromName]. The entry is looked up among the
    own properties of [types]: a name whose lower-case form is a property
    name of [Object.prototype] ([JsObject.inherited]) and not a key of
    the table is outside what this definition covers (the source then
    returns the inherited value instead of throwing). *)
Definition getTypeFromName (data : MetadataRegistry) (name : string)
  : Completion MetadataType :=
  let lower := JsString.removeSpaces (JsString.toLowerCase name) in
  match types data !! lower with
  | Some t => Returns t
  | None => Throws (TypeInferenceError error_missing_type_definition [lower])
  end.

(** Modelled from the spec: the component set calls this lookup
    [getTypeByName]; the class that declares it under that name is not
    among the sources. It is the type lookup by name, which fails with
    missing-type-definition when the registry has no entry. *)
Definition getTypeByName (data : MetadataRegistry) (name : string)
  : Completion MetadataType :=
  getTypeFromName data name.

(** [RegistryAccess.getApiVersion] *)
Definition getApiVersion (data : MetadataRegistry) : string :=
  apiVersion data.

End Registry.

(* ================================================================== *)
(** * ComponentSet *)
(* ================================================================== *)

(** [PackageTypeMembers] and [PackageManifestObject]. The xml parser hands
    back a single element where the document has one and an array where
    it has several, hence [OneOrMany]; [getObject] always builds arrays. *)
Inductive OneOrMany (A : Type) :=
| One (a : A)
| Many (l : list A).
Arguments One {A} a.
Arguments Many {A} l.

(** [Array.isArray(x) ? x : [x]] *)
Definition toArray {A} (x : OneOrMany A) : list A :=
  match x with
  | One a => [a]
  | Many l => l
  end.

Record PackageTypeMembers := {
  members : OneOrMany string;
  ptm_name : string
}.

(** [pkg_attributes] holds what is set on [Package] besides [types] and
    [version]: the namespace declaration. *)
Record PackageManifestObject := {
  pkg_types : OneOrMany PackageTypeMembers;
  pkg_version : string;
  pkg_attributes : list (string * string)
}.

Module ComponentSet.

Definition WILDCARD : string := "*".
Definition KEY_DELIMITER : string := "#".

Record t := {
  apiVersion : string;
  registry : MetadataRegistry;
  components : OMap.t (OMap.t SourceComponent)
}.

(** [new ComponentSet(undefined, registry)], before any [add]. *)
Definition create (registry : MetadataRegistry) : t :=
  {| apiVersion := Registry.getApiVersion registry;
     registry := registry;
     components := OMap.empty |}.

Definition simpleKey (component : ComponentLike) : string :=
  let typeName :=
    match likeType component with
    | TypeName s => JsString.trim (JsString.toLowerCase s)
    | TypeEntry ty => id ty
    end in
  typeName +:+ KEY_DELIMITER +:+ likeFullName component.

Definition sourceKey (component : SourceComponent) : string :=
  name (sc_type component) +:+ sc_fullName component
    +:+ JsString.orEmpty (pathText <$> sc_xml component)
    +:+ JsString.orEmpty (pathText <$> sc_content component).

Definition withComponents (s : t) (m : OMap.t (OMap.t SourceComponent)) : t :=
  {| apiVersion := apiVersion s; registry := registry s; components := m |}.

(** [add]. After the first step the key is present, so the inner map
    read by [this.components.get(key)] exists. *)
Definition add (component : ComponentLike) (s : t) : t :=
  let key := simpleKey component in
  let m1 :=
    if OMap.has key (components s) then components s
    else OMap.set key OMap.empty (components s) in
  match component with
  | Source sc =>
      match OMap.get key m1 with
      | Some inner =>
          withComponents s (OMap.set key (OMap.set (sourceKey sc) sc inner) m1)
      | None => withComponents s m1
      end
  | Member _ _ => withComponents s m1
  end.

Definition has (component : ComponentLike) (s : t) : bool :=
  OMap.has (simpleKey component) (components s).

(** The constructor's loop, and any later run of [add] calls. *)
Definition addAll (cs : list ComponentLike) (s : t) : t :=
  fold_left (fun acc c => add c acc) cs s.

Definition new (cs : list ComponentLike) (registry : MetadataRegistry) : t :=
  addAll cs (create registry).

(** [const [a, b] = key.split(KEY_DELIMITER)]: the first two parts; every
    key of a set holds the delimiter, so the second part is defined. *)
Definition splitKey (key : string) : string * string :=
  match JsString.split "#" key with
  | a :: b :: _ => (a, b)
  | [a] => (a, "")
  | [] => ("", "")
  end.

(** One round of the outer loop of [[Symbol.iterator]]. *)
Definition iterEntry (s : t) (entry : string * OMap.t SourceComponent)
  : Completion (list MetadataComponent) :=
  let '(key, sourceComponents) := entry in
  if Nat.eqb (OMap.size sourceComponents) 0 then
    let '(typeName, fullName) := splitKey key in
    ty ← Registry.getTypeByName (registry s) typeName;
    Returns [Abstract fullName ty]
  else Returns (map Concrete (OMap.values sourceComponents)).

(** [[Symbol.iterator]], run to the end: the items in the order they are
    yielded. *)
Definition iterate (s : t) : Completion (list MetadataComponent) :=
  forEach (fun acc entry => items ← iterEntry s entry; Returns (acc ++ items))
          (OMap.entries (components s)) [].

(** [get size()] *)
Definition size (s : t) : nat :=
  fold_left
    (fun size collection =>
       size + (if Nat.eqb (OMap.size collection) 0 then 1 else OMap.size collection))
    (OMap.values (components s)) 0.

(** One round of the first loop of [getObject]: file the key's full
    name under its type's name, a folder type counting as the type of
    its content. *)
Definition getObjectStep (s : t) (typeMap : OMap.t (list string)) (key : string)
  : Completion (OMap.t (list string)) :=
  let '(typeId, fullName) := splitKey key in
  ty ← Registry.getTypeByName (registry s) typeId;
  ty ← (if JsString.truthy (folderContentType ty)
        then Registry.getTypeByName (registry s)
               (JsString.orEmpty (folderContentType ty))
        else Returns ty);
  let typeMap1 :=
    if OMap.has (name ty) typeMap then typeMap
    else OMap.set (name ty) [] typeMap in
  Returns (OMap.set (name ty)
             (default [] (OMap.get (name ty) typeMap1) ++ [fullName]) typeMap1).

Definition typeMembersOf (entry : string * list string) : PackageTypeMembers :=
  let '(typeName, members) := entry in
  {| members := Many members; ptm_name := typeName |}.

Definition getObject (s : t) : Completion PackageManifestObject :=
  typeMap ← forEach (getObjectStep s) (OMap.keys (components s)) OMap.empty;
  Returns {| pkg_types := Many (map typeMembersOf (OMap.entries typeMap));
             pkg_version := apiVersion s;
             pkg_attributes := [] |}.

Section PackageXml.
(** The constants of the common module and the serializer of the xml
    library, built for an indentation. *)
Variables XML_DECL XML_NS_KEY XML_NS_URL : string.
Variable j2xParse : nat -> PackageManifestObject -> string.

Definition getPackageXml (indentation : nat) (s : t) : Completion string :=
  toParse ← getObject s;
  let toParse :=
    {| pkg_types := pkg_types toParse;
       pkg_version := pkg_version toParse;
       pkg_attributes := pkg_attributes toParse ++ [(XML_NS_KEY, XML_NS_URL)] |} in
  Returns (XML_DECL +:+ j2xParse indentation toParse).
End PackageXml.

(** The body of the inner loop of [getComponentsFromManifestObject]. *)
Definition manifestMember (registry : MetadataRegistry)
           (typeName fullName : string) : Completion MetadataComponent :=
  ty ← Registry.getTypeByName registry typeName;
  ty ← (if JsString.truthy (folderType ty) && negb (JsString.includes "/" fullName)
        then Registry.getTypeByName registry (JsString.orEmpty (folderType ty))
        else Returns ty);
  Returns (Abstract fullName ty).

(** [getComponentsFromManifestObject], run to the end. *)
Definition getComponentsFromManifestObject
           (obj : PackageManifestObject) (registry : MetadataRegistry)
  : Completion (list MetadataComponent) :=
  forEach
    (fun acc typeMembers =>
       forEach
         (fun acc fullName =>
            c ← manifestMember registry (ptm_name typeMembers) fullName;
            Returns (acc ++ [c]))
         (toArray (members typeMembers)) acc)
    (toArray (pkg_types obj)) [].

(** What the xml parser returns is declared a [PackageManifestObject]
    and is not checked against it: for a document without a [types]
    element, [Package.types] is [undefined]. *)
Definition ParsedTypes := option (OneOrMany PackageTypeMembers).

(** [Array.isArray(x) ? x : [x]] for an [x] that may be [undefined]. *)
Definition toArrayOrUndefined {A} (x : option (OneOrMany A)) : list (option A) :=
  match x with
  | Some x => map Some (toArray x)
  | None => [None]
  end.

(** [getComponentsFromManifestObject] on what the parser returned, run
    to the end. The head of the outer loop destructures each element of
    [typeMembers], which is a TypeError on [undefined]. *)
Definition getComponentsFromParsedManifest
           (types : ParsedTypes) (registry : MetadataRegistry)
  : Completion (list MetadataComponent) :=
  forEach
    (fun acc typeMembers =>
       match typeMembers with
       | None => Throws TypeError
       | Some typeMembers =>
           forEach
             (fun acc fullName =>
                c ← manifestMember registry (ptm_name typeMembers) fullName;
                Returns (acc ++ [c]))
             (toArray (members typeMembers)) acc
       end)
    (toArrayOrUndefined types) [].

(** [options.filter]: a set already, or anything iterable. *)
Inductive FilterOption :=
| FilterSet (s : t)
| FilterComponents (cs : list ComponentLike).

Section Resolve.
(** The registry data that [new RegistryAccess()] wraps when a set is
    built without one. *)
Variable registryData : MetadataRegistry.
(** [component.getChildren()], computed from the tree a component was
    resolved against. *)
Variable getChildren : SourceComponent -> list SourceComponent.

Definition wildcardFor (ty : MetadataType) : ComponentLike :=
  Member WILDCARD (TypeEntry ty).

Definition toFilterSet (filter : FilterOption) : t :=
  match filter with
  | FilterSet s => s
  | FilterComponents cs => new cs registryData
  end.

Definition addBoth (c : SourceComponent) (st : t * t) : t * t :=
  (add (Source c) (fst st), add (Source c) (snd st)).

(** The body of the loop over the resolved components; the state is
    [this] and the [sourceComponents] set under construction. *)
Definition resolveStep (filterSet : option t) (st : t * t)
           (component : SourceComponent) : t * t :=
  match filterSet with
  | Some filterSet =>
      let includedInWildcard := has (wildcardFor (sc_type component)) filterSet in
      let parentInFilter :=
        match sc_parent component with
        | Some parent =>
            has (Source parent) filterSet
            || has (wildcardFor (sc_type parent)) filterSet
        | None => false
        end in
      if has (Source component) filterSet || includedInWildcard || parentInFilter
      then addBoth component st
      else
        fold_left
          (fun st childComponent =>
             if has (Source childComponent) filterSet
             then addBoth childComponent st
             else st)
          (getChildren component) st
  | None => addBoth component st
  end.

(** [resolveSourceComponents], from the list the resolver returned for
    [fsPath]: the updated [this] and the returned set. *)
Definition resolveSourceComponents (resolved : list SourceComponent)
           (filter : option FilterOption) (this : t) : t * t :=
  fold_left (resolveStep (toFilterSet <$> filter)) resolved
            (this, new [] registryData).
End Resolve.

(** The keys [ComponentSetError] is thrown with. *)
Inductive ComponentSetError :=
| error_no_source_to_deploy
| error_no_components_to_retrieve.

(** What [new MetadataApiDeploy(operationOptions)] and
    [new MetadataApiRetrieve(operationOptions)] are built from: the
    caller's options, with this set and its registry added. *)
Record OperationOptions (Options : Type) := {
  op_options : Options;
  op_components : t;
  op_registry : MetadataRegistry
}.
Arguments op_options {Options} _.
Arguments op_components {Options} _.
Arguments op_registry {Options} _.

(** [options.resolve] is a string or an iterable of strings; the other
    options of [fromManifestFile] that the method reads. *)
Record FromManifestOptions := {
  fm_registry : option MetadataRegistry;
  fm_resolve : option (OneOrMany SourcePath);
  fm_literalWildcard : bool
}.

(** A yielded [MetadataComponent] handed to [add]. *)
Definition asComponentLike (c : MetadataComponent) : ComponentLike :=
  match c with
  | Abstract fullName ty => Member fullName (TypeEntry ty)
  | Concrete sc => Source sc
  end.

Definition componentFullName (c : MetadataComponent) : string :=
  match c with
  | Abstract fullName _ => fullName
  | Concrete sc => sc_fullName sc
  end.

(** The items that pass [component instanceof SourceComponent]. *)
Definition sourceBacked (items : list MetadataComponent) : list SourceComponent :=
  flat_map (fun c => match c with Concrete sc => [sc] | Abstract _ _ => [] end) items.

Section Operations.
Variable registryData : MetadataRegistry.
Variable getChildren : SourceComponent -> list SourceComponent.
(** [registry.getParentType], whose class is not among the sources. *)
Variable getParentType : MetadataRegistry -> TypeRef -> option MetadataType.
(** [new MetadataResolver(registry, tree).getComponentsFromPath]: the
    resolver bound to a registry and the tree of the options. *)
Variable getComponentsFromPath :
  MetadataRegistry -> SourcePath -> Completion (list SourceComponent).

Definition findChildrenThroughParent (parentType : MetadataType)
           (childFullName : string) (s : t) : list SourceComponent :=
  let parentKey :=
    simpleKey (Member (List.hd "" (JsString.split "." childFullName))
                      (TypeEntry parentType)) in
  match OMap.get parentKey (components s) with
  | Some parentCollection =>
      flat_map
        (fun parentComponent =>
           match List.find (fun child => String.eqb (sc_fullName child) childFullName)
                           (getChildren parentComponent) with
           | Some childComponent => [childComponent]
           | None => []
           end)
        (OMap.values parentCollection)
  | None => []
  end.

(** [getSourceComponents], run to the end. *)
Definition getSourceComponents (forMember : option ComponentLike) (s : t)
  : Completion (list SourceComponent) :=
  match forMember with
  | Some forMember =>
      let throughParent :=
        match getParentType (registry s) (likeType forMember) with
        | Some parentType =>
            findChildrenThroughParent parentType (likeFullName forMember) s
        | None => []
        end in
      let iter :=
        match OMap.get (simpleKey forMember) (components s) with
        | Some memberCollection =>
            if Nat.ltb 0 (OMap.size memberCollection)
            then OMap.values memberCollection else []
        | None => []
        end in
      Returns (throughParent ++ iter)
  | None =>
      items ← iterate s;
      Returns (sourceBacked items)
  end.

(** [deploy]; [inl key] stands for [throw new ComponentSetError(key)]. *)
Definition deploy {Options : Type} (options : Options) (s : t)
  : Completion (ComponentSetError + OperationOptions Options) :=
  toDeploy ← getSourceComponents None s;
  if Nat.eqb (length toDeploy) 0 then Returns (inl error_no_source_to_deploy)
  else Returns (inr {| op_options := options;
                       op_components := s;
                       op_registry := registry s |}).

(** [retrieve]; [inl key] stands for [throw new ComponentSetError(key)]. *)
Definition retrieve {Options : Type} (options : Options) (s : t)
  : ComponentSetError + OperationOptions Options :=
  if Nat.eqb (size s) 0 then inl error_no_components_to_retrieve
  else inr {| op_options := options;
              op_components := s;
              op_registry := registry s |}.

(** The whole of [resolveSourceComponents]: the resolver is run on
    [fsPath], and its list goes through the loop above. *)
Definition resolveSourceComponentsAt (fsPath : SourcePath)
           (filter : option FilterOption) (this : t) : Completion (t * t) :=
  resolved ← getComponentsFromPath (registry this) fsPath;
  Returns (resolveSourceComponents registryData getChildren resolved filter this).

Definition fromSource (fsPath : SourcePath) (registry : option MetadataRegistry)
           (filter : option FilterOption) : Completion t :=
  let ws := new [] (default registryData registry) in
  r ← resolveSourceComponentsAt fsPath filter ws;
  Returns (fst r).

(** [!!options.resolve]: an empty string is falsy, any array is truthy. *)
Definition shouldResolve (options : FromManifestOptions) : bool :=
  match fm_resolve options with
  | None => false
  | Some (One fsPath) => negb (String.eqb (pathText fsPath) "")
  | Some (Many _) => true
  end.

(** The body of the loop of [fromManifestFile] over the manifest's
    components; the state is [ws] and [filterSet]. *)
Definition manifestStep (options : FromManifestOptions) (st : t * t)
           (component : MetadataComponent) : t * t :=
  let '(ws, filterSet) := st in
  let filterSet :=
    if shouldResolve options then add (asComponentLike component) filterSet
    else filterSet in
  let memberIsWildcard := String.eqb (componentFullName component) WILDCARD in
  let ws :=
    if negb memberIsWildcard || fm_literalWildcard options
       || negb (shouldResolve options)
    then add (asComponentLike component) ws
    else ws in
  (ws, filterSet).

(** [fromManifestFile], from the object that [parseXml] made of the
    file's text. *)
Definition fromManifestFile (manifestObj : PackageManifestObject)
           (options : FromManifestOptions) : Completion t :=
  let registry := default registryData (fm_registry options) in
  let ws := new [] registry in
  let filterSet := new [] registry in
  let ws := {| apiVersion := pkg_version manifestObj;
               registry := ComponentSet.registry ws;
               components := components ws |} in
  cs ← getComponentsFromManifestObject manifestObj registry;
  let '(ws, filterSet) := fold_left (manifestStep options) cs (ws, filterSet) in
  if shouldResolve options then
    let toResolve :=
      match fm_resolve options with
      | Some resolve => toArray resolve
      | None => []
      end in
    forEach
      (fun ws fsPath =>
         r ← resolveSourceComponentsAt fsPath (Some (FilterSet filterSet)) ws;
         Returns (fst r))
      toResolve ws
  else Returns ws.
End Operations.

End ComponentSet.

(* ================================================================== *)
(** * Paths *)
(* ================================================================== *)

(** node's [path] module on split paths. The empty list stands for the
    current directory, which node writes ['.'], and the list of the one
    empty segment for the root. [join], [dirname] and [basename] are
    node's functions on normalized paths ([normalized]) and plain names
    ([plain]): there [join(dir, file)] appends the name, [dirname] drops
    the last segment and [basename] is the last segment. Elsewhere node's
    [join] normalizes its result, and [dirname] and [basename] skip
    trailing separators, which the definitions below do not do. *)
Module Path.
(** A file or directory name: not empty, not ['.'] or ['..'], without a
    separator. *)
Definition plain (segment : string) : bool :=
  negb (String.eqb segment "") && negb (String.eqb segment ".")
  && negb (String.eqb segment "..") && negb (JsString.includes "/" segment).

(** A path as [path.normalize] returns it, without a trailing separator:
    plain names only, after an empty first segment when it is absolute. *)
Definition normalized (p : SourcePath) : bool :=
  match p with
  | [] => false
  | first :: rest =>
      if String.eqb first "" then negb (Nat.eqb (length rest) 0) && forallb plain rest
      else forallb plain p
  end.

Definition join (dir : SourcePath) (file : string) : SourcePath := dir ++ [file].
Definition dirname (p : SourcePath) : SourcePath := removelast p.
Definition basename (p : SourcePath) : string := List.last p "".

(** [parts.findIndex(part => part === x)], [-1] when there is none. *)
Fixpoint findIndex (x : string) (parts : list string) : Z :=
  match parts with
  | [] => (-1)%Z
  | part :: rest =>
      if String.eqb part x then 0%Z
      else let i := findIndex x rest in
           if (i <? 0)%Z then (-1)%Z else (i + 1)%Z
  end.

(** [parts.slice(0, n)] for [n >= 0]. *)
Definition slice0 (n : Z) (parts : list string) : list string :=
  firstn (Z.to_nat n) parts.

Definition setHas (x : string) (parts : list string) : bool :=
  existsb (String.eqb x) parts.
End Path.

(** Modelled from the spec: [parseMetadataXml], [baseName], [extName] and
    [parentName] live in the utility modules, which are not among the
    sources. A path parses as a metadata descriptor file when it is named
    like [<base>.<suffix>-meta.xml]; the parse gives the base name and the
    embedded suffix. The utilities are taken as parameters below. *)
Record MetadataXml := {
  mx_fullName : string;
  mx_suffix : string
}.

Record PathUtils := {
  parseMetadataXml : SourcePath -> option MetadataXml;
  baseName : SourcePath -> string;
  extName : SourcePath -> string;
  parentName : SourcePath -> string
}.

(* ================================================================== *)
(** * File containers *)
(* ================================================================== *)

(** The three abstract methods of [BaseFileContainer]. *)
Record FileContainer := {
  isDirectory : SourcePath -> Completion bool;
  exists_ : SourcePath -> Completion bool;
  readDir : SourcePath -> Completion (list string)
}.

Module BaseFileContainer.
Section Methods.
Variable utils : PathUtils.
Variable this : FileContainer.

(** The predicate handed to [Array.prototype.find] in [find]. *)
Definition findPredicate (dir : SourcePath) (fullName : string)
           (findMetadataXml : bool) (f : string) : bool :=
  let parsed := parseMetadataXml utils (Path.join dir f) in
  let metaXmlCondition :=
    if findMetadataXml then bool_decide (is_Some parsed)
    else negb (bool_decide (is_Some parsed)) in
  JsString.startsWith f fullName && metaXmlCondition.

Definition find (dir : SourcePath) (fullName : string) (findMetadataXml : bool)
  : Completion (option SourcePath) :=
  files ← readDir this dir;
  let fileName := List.find (findPredicate dir fullName findMetadataXml) files in
  if JsString.truthy fileName
  then Returns (Path.join dir <$> fileName)
  else Returns None.

Definition findContent (dir : SourcePath) (fullName : string) :=
  find dir fullName false.

Definition findMetadataXml (dir : SourcePath) (fullName : string) :=
  find dir fullName true.

Definition findXmlFromContentPath (contentPath : SourcePath) (type : MetadataType)
  : Completion (option SourcePath) :=
  let pathParts := contentPath in
  let typeFolderIndex := Path.findIndex (directoryName type) pathParts in
  let offset := if inFolder type then 3%Z else 2%Z in
  let rootContentPath := Path.slice0 (typeFolderIndex + offset) pathParts in
  let rootTypeDirectory := Path.dirname rootContentPath in
  let contentFullName := baseName utils rootContentPath in
  findMetadataXml rootTypeDirectory contentFullName.

End Methods.
End BaseFileContainer.

(** [LocalFileContainer], over what the file system answers to
    [lstatSync], [existsSync] and [readdirSync]. *)
Record FileSystem := {
  lstatSync_isDirectory : SourcePath -> Completion bool;
  existsSync : SourcePath -> bool;
  readdirSync : SourcePath -> Completion (list string)
}.

Definition LocalFileContainer (fs : FileSystem) : FileContainer :=
  {| isDirectory := lstatSync_isDirectory fs;
     exists_ := fun path => Returns (existsSync fs path);
     readDir := readdirSync fs |}.

Module GithubFileContainer.

(** [private tree = new Map<SourcePath, Set<SourcePath>>()] *)
Definition Tree := gmap SourcePath (list SourcePath).

Inductive EntryType := blob | tree.

Definition setAdd (p : SourcePath) (s : list SourcePath) : list SourcePath :=
  if bool_decide (p ∈ s) then s else s ++ [p].

(** The body of the loop of [fetch] over the listing's entries. *)
Definition indexEntry (t : Tree) (entry : SourcePath * EntryType) : Tree :=
  let '(path, type) := entry in
  let parent := Path.dirname path in
  let t1 := if bool_decide (is_Some (t !! parent)) then t else <[parent := []]> t in
  let t2 := <[parent := setAdd path (default [] (t1 !! parent))]> t1 in
  match type with
  | tree => if bool_decide (is_Some (t2 !! path)) then t2 else <[path := []]> t2
  | blob => t2
  end.

Definition fetch (entries : list (SourcePath * EntryType)) : Tree :=
  fold_left indexEntry entries ∅.

(** [this.tree.get(dirname(path)).has(path) || this.tree.has(path)]:
    reading [has] off an absent entry is a TypeError. *)
Definition exists_ (t : Tree) (path : SourcePath) : Completion bool :=
  match t !! Path.dirname path with
  | None => Throws TypeError
  | Some siblings =>
      Returns (bool_decide (path ∈ siblings) || bool_decide (is_Some (t !! path)))
  end.

Definition isDirectory (t : Tree) (path : SourcePath) : Completion bool :=
  e ← exists_ t path;
  if e : bool then Returns (bool_decide (is_Some (t !! path)))
  else Throws (JsError (pathText path +:+ " does not exist")).

Definition readDir (t : Tree) (path : SourcePath) : Completion (list string) :=
  match t !! path with
  | None => Throws TypeError
  | Some children => Returns (map Path.basename children)
  end.

Definition container (t : Tree) : FileContainer :=
  Build_FileContainer (isDirectory t) (exists_ t) (readDir t).

End GithubFileContainer.

(* ================================================================== *)
(** * RegistryAccess: type inference and the directory walk *)
(* ================================================================== *)

Module RegistryAccess.

(** [MetadataComponent] as this module's [types] declare it: what an
    adapter builds. *)
Record MetadataComponent := {
  fullName : string;
  type : MetadataType;
  xml : SourcePath;
  sources : list SourcePath
}.

Record ForceIgnore := {
  denies : SourcePath -> bool
}.

(** The adapters are not among the sources: an adapter is whatever
    [getAdapter] returns, and all that is used of it is [getComponent],
    whose result the callers test for [undefined]. *)
Record SourceAdapter := {
  getComponent : SourcePath -> Completion (option MetadataComponent)
}.

(** The own property of the mixed-content table under a key. *)
Fixpoint mixedContentGet (table : list (string * string)) (key : string)
  : option string :=
  match table with
  | [] => None
  | (k, v) :: rest => if String.eqb k key then Some v else mixedContentGet rest key
  end.

(** [this.data.mixedContent[key]] for any key. *)
Definition mixedContentRead (table : list (string * string)) (key : string)
  : JsObject.Value :=
  match mixedContentGet table key with
  | Some typeId => JsObject.own typeId
  | None => JsObject.absent key
  end.

Section Methods.
Variable utils : PathUtils.
Variable data : MetadataRegistry.
Variable fileContainer : FileContainer.
(** [ForceIgnore.findAndCreate] *)
Variable findAndCreate : SourcePath -> ForceIgnore.
Variable getAdapter :
  MetadataType -> JsObject.Value -> FileContainer -> ForceIgnore ->
  Completion SourceAdapter.

Definition getTypeFromName := Registry.getTypeFromName data.

(** Attempt 1 of [determineTypeId]: the loop over
    [Object.keys(this.data.mixedContent)], left at the first directory
    name that is a part of the path. *)
Fixpoint mixedContentAttempt (directoryNames : list string) (fsPath : SourcePath)
  : Completion JsObject.Value :=
  match directoryNames with
  | [] => Returns JsObject.undefined
  | directoryName :: rest =>
      if Path.setHas directoryName fsPath then
        match mixedContentGet (mixedContent data) directoryName with
        | None => Throws TypeError
        | Some typeId =>
            ty ← getTypeFromName typeId;
            let isFolderType := inFolder ty in
            if isFolderType && String.eqb (parentName utils fsPath) directoryName
            then Returns JsObject.undefined
            else Returns (JsObject.own typeId)
        end
      else mixedContentAttempt rest fsPath
  end.

(** [determineTypeId]. What it returns is declared [string | undefined];
    the two reads of [this.data.suffixes] are reads of a plain object by
    key. *)
Definition determineTypeId (fsPath : SourcePath) : Completion JsObject.Value :=
  (* attempt 1 - check if the file is part of a mixed content type *)
  typeId ← mixedContentAttempt (map fst (mixedContent data)) fsPath;
  (* attempt 2 - check if it's a metadata xml file *)
  let typeId :=
    if negb (JsObject.truthy typeId) then
      match parseMetadataXml utils fsPath with
      | Some parsedMetaXml => JsObject.get (suffixes data) (mx_suffix parsedMetaXml)
      | None => typeId
      end
    else typeId in
  (* attempt 3 - try treating the file extension name as a suffix *)
  let typeId :=
    if negb (JsObject.truthy typeId)
    then JsObject.get (suffixes data) (extName utils fsPath)
    else typeId in
  Returns typeId.

(** [this.getTypeFromName(typeId)] for what [determineTypeId] returned:
    [name.toLowerCase()] is a TypeError on a value that is not a
    string. *)
Definition getTypeFromId (typeId : JsObject.Value) : Completion MetadataType :=
  match typeId with
  | JsObject.own name => getTypeFromName name
  | _ => Throws TypeError
  end.

(** [this.data.adapters[typeId]], which is handed to [getAdapter] as it
    is. The type id is a string wherever the adapter is reached. *)
Definition adapterIdOf (typeId : JsObject.Value) : JsObject.Value :=
  match typeId with
  | JsObject.own name => JsObject.get (adapters data) name
  | _ => JsObject.undefined
  end.

Definition fetchComponent (forceIgnore : ForceIgnore) (fsPath : SourcePath)
  : Completion (option MetadataComponent) :=
  if bool_decide (is_Some (parseMetadataXml utils fsPath)) && denies forceIgnore fsPath
  then Returns None
  else
    typeId ← determineTypeId fsPath;
    if JsObject.truthy typeId then
      let adapterId := adapterIdOf typeId in
      ty ← getTypeFromId typeId;
      adapter ← getAdapter ty adapterId fileContainer forceIgnore;
      getComponent adapter fsPath
    else Throws (TypeInferenceError error_could_not_infer_type fsPath).

(** How the first loop of [getComponentsFromPathRecursive] ends: with a
    [return] from inside it, or by running out of files. *)
Inductive ScanResult :=
| Return (components : list MetadataComponent)
| Done (dirQueue : list SourcePath) (components : list MetadataComponent).

(** The test that follows [components.push(component)]. *)
Definition stopsScan (path : SourcePath) (component : MetadataComponent) : bool :=
  let isMixedContent :=
    JsObject.truthy
      (mixedContentRead (mixedContent data) (directoryName (type component))) in
  let typeDir :=
    Path.basename
      (Path.dirname
         (if inFolder (type component) then Path.dirname path else path)) in
  isMixedContent && negb (String.eqb typeDir (directoryName (type component))).

(** The loop over [readDir(directory)]. *)
Fixpoint scanFiles (forceIgnore : ForceIgnore) (directory : SourcePath)
         (files : list string)
         (dirQueue : list SourcePath) (components : list MetadataComponent)
  : Completion ScanResult :=
  match files with
  | [] => Returns (Done dirQueue components)
  | file :: rest =>
      let path := Path.join directory file in
      d ← isDirectory fileContainer path;
      if d : bool then
        scanFiles forceIgnore directory rest (dirQueue ++ [path]) components
      else if bool_decide (is_Some (parseMetadataXml utils path)) then
        component ← fetchComponent forceIgnore path;
        match component with
        | Some component =>
            let components := components ++ [component] in
            if stopsScan path component then Returns (Return components)
            else scanFiles forceIgnore directory rest dirQueue components
        | None => scanFiles forceIgnore directory rest dirQueue components
        end
      else scanFiles forceIgnore directory rest dirQueue components
  end.

Fixpoint getComponentsFromPathRecursive (fuel : nat) (forceIgnore : ForceIgnore)
         (directory : SourcePath) : Completion (list MetadataComponent) :=
  match fuel with
  | O => OutOfFuel
  | S fuel' =>
      if denies forceIgnore directory then Returns []
      else
        files ← readDir fileContainer directory;
        scanned ← scanFiles forceIgnore directory files [] [];
        match scanned with
        | Return components => Returns components
        | Done dirQueue components =>
            forEach
              (fun components dir =>
                 sub ← getComponentsFromPathRecursive fuel' forceIgnore dir;
                 Returns (components ++ sub))
              dirQueue components
        end
  end.

(** The directory branch of [getComponentsFromPath] up to the choice of
    [pathForFetch]. *)
Definition pathForFetch (fsPath : SourcePath) : Completion SourcePath :=
  typeId ← determineTypeId fsPath;
  if JsObject.truthy typeId then
    ty ← getTypeFromId typeId;
    let parts := fsPath in
    let folderOffset := if inFolder ty then 2 else 1 in
    let part :=
      if Nat.ltb (length parts) folderOffset then None
      else parts !! (length parts - folderOffset) in
    if bool_decide (part ≠ Some (directoryName ty)) then
      found ← BaseFileContainer.findXmlFromContentPath utils fileContainer fsPath ty;
      Returns (if JsString.truthy (pathText <$> found)
               then default fsPath found else fsPath)
    else Returns fsPath
  else Returns fsPath.

Definition getComponentsFromPath (fuel : nat) (fsPath : SourcePath)
  : Completion (list MetadataComponent) :=
  e ← exists_ fileContainer fsPath;
  if negb e then Throws (TypeInferenceError error_path_not_found fsPath)
  else
    let forceIgnore := findAndCreate fsPath in
    let fetchOne (p : SourcePath) :=
      component ← fetchComponent forceIgnore p;
      Returns (match component with Some c => [c] | None => [] end) in
    d ← isDirectory fileContainer fsPath;
    if d : bool then
      p ← pathForFetch fsPath;
      if bool_decide (p = fsPath)
      then getComponentsFromPathRecursive fuel forceIgnore fsPath
      else fetchOne p
    else fetchOne fsPath.
End Methods.

End RegistryAccess.

(* ================================================================== *)
(** * Notions used to state the properties *)
(* ================================================================== *)

(** The distinct elements of a list, in order of first occurrence. *)
Module Distinct.
Definition snocNew (acc : list string) (x : string) : list string :=
  if existsb (String.eqb x) acc then acc else acc ++ [x].

Definition distinct (l : list string) : list string :=
  fold_left snocNew l [].
End Distinct.

Module SetSpec.
Import ComponentSet.

(** The name under which a component's type enters its outer key. *)
Definition typeNameOf (c : ComponentLike) : string :=
  match likeType c with
  | TypeName s => JsString.trim (JsString.toLowerCase s)
  | TypeEntry ty => id ty
  end.

(** The (type, fullName) pair of a component. *)
Definition identityPair (c : ComponentLike) : string * string :=
  (typeNameOf c, likeFullName c).

(** The number of distinct (type, fullName) pairs among the components
    added. *)
Definition distinctPairs (cs : list ComponentLike) : nat :=
  length (remove_dups (map identityPair cs)).

(** The inner map an outer key holds, empty when the key is absent. *)
Definition innerOf (k : string) (s : t) : OMap.t SourceComponent :=
  default OMap.empty (OMap.get k (components s)).

(** The outer keys a run of [add] calls creates. *)
Definition keysAdded (cs : list ComponentLike) : list string :=
  Distinct.distinct (map simpleKey cs).

(** The source keys of the source-backed components added under the
    outer key [k]. *)
Definition sourceKeysUnder (k : string) (cs : list ComponentLike) : list string :=
  flat_map
    (fun c =>
       match c with
       | Source sc => if String.eqb (simpleKey c) k then [sourceKey sc] else []
       | Member _ _ => []
       end) cs.

Definition variantCount (k : string) (cs : list ComponentLike) : nat :=
  length (Distinct.distinct (sourceKeysUnder k cs)).

(** One per outer key without source-backed variants, one per variant
    otherwise. *)
Definition expectedSize (cs : list ComponentLike) : nat :=
  sum_list (map (fun k => Nat.max 1 (variantCount k cs)) (keysAdded cs)).
End SetSpec.

(** Which components a filtered resolution adds. *)
Module FilterSpec.
Import ComponentSet.
Section Selection.
Variable getChildren : SourceComponent -> list SourceComponent.
Variable filterSet : ComponentSet.t.

(** The three conditions: the filter has the component, or a wildcard
    member for its type, or the component has a parent and the filter
    has that parent or a wildcard member for the parent's type. *)
Definition admits (c : SourceComponent) : bool :=
  has (Source c) filterSet
  || has (wildcardFor (sc_type c)) filterSet
  || match sc_parent c with
     | Some parent =>
         has (Source parent) filterSet
         || has (wildcardFor (sc_type parent)) filterSet
     | None => false
     end.

(** A component that the filter admits is added; of one that it does
    not admit, the children that the filter holds themselves are. *)
Definition selected (c : SourceComponent) : list SourceComponent :=
  if admits c then [c]
  else List.filter (fun child => has (Source child) filterSet) (getChildren c).

(** The reading under which the children are put to the same three
    conditions as the component. *)
Definition selectedByThreeConditions (c : SourceComponent)
  : list SourceComponent :=
  if admits c then [c] else List.filter admits (getChildren c).

Definition added (resolved : list SourceComponent) : list SourceComponent :=
  flat_map selected resolved.
End Selection.
End FilterSpec.

(** Type inference, strategy by strategy. *)
Module InferenceSpec.
Section Strategies.
Variable utils : PathUtils.
Variable data : MetadataRegistry.

Definition folderScoped (typeId : string) : bool :=
  match Registry.getTypeFromName data typeId with
  | Returns ty => inFolder ty
  | _ => false
  end.

(** Strategy 1: the first registered mixed-content directory name that
    is a segment of the path gives its type id, unless that type is
    folder-scoped and the path's parent is that very directory. *)
Definition mixedContentMatch (fsPath : SourcePath) : option string :=
  match List.find (fun entry => Path.setHas (fst entry) fsPath) (mixedContent data) with
  | Some (directoryName, typeId) =>
      if folderScoped typeId && String.eqb (parentName utils fsPath) directoryName
      then None
      else Some typeId
  | None => None
  end.

(** Strategy 2: the suffix embedded in a metadata descriptor's name. *)
Definition descriptorSuffixMatch (fsPath : SourcePath) : option string :=
  match parseMetadataXml utils fsPath with
  | Some parsed => suffixes data !! mx_suffix parsed
  | None => None
  end.

(** Strategy 3: the raw file extension. *)
Definition extensionMatch (fsPath : SourcePath) : option string :=
  suffixes data !! extName utils fsPath.

Definition firstMatch (fsPath : SourcePath) : option string :=
  match mixedContentMatch fsPath with
  | Some typeId => Some typeId
  | None =>
      match descriptorSuffixMatch fsPath with
      | Some typeId => Some typeId
      | None => extensionMatch fsPath
      end
  end.

(** What the registry is validated for before it is used: the type
    ids of the two tables are not empty, and those of the
    mixed-content table have a type definition. *)
Definition validTablesb : bool :=
  forallb
    (fun entry =>
       negb (String.eqb (snd entry) "")
       && match Registry.getTypeFromName data (snd entry) with
          | Returns _ => true
          | _ => false
          end)
    (mixedContent data)
  && forallb (fun entry => negb (String.eqb (snd entry) ""))
             (map_to_list (suffixes data)).
End Strategies.
End InferenceSpec.

(** Which denied directories the resolver walks itself, and which it
    replaces by a descriptor. *)
Module RedirectSpec.
Section Redirection.
Variable utils : PathUtils.
Variable data : MetadataRegistry.
Variable fileContainer : FileContainer.

(** The segment at the type's position: the last segment of the path,
    the one before it for a folder-scoped type. *)
Definition segmentAtTypePosition (ty : MetadataType) (fsPath : SourcePath)
  : option string :=
  let folderOffset := if inFolder ty then 2 else 1 in
  if Nat.ltb (length fsPath) folderOffset then None
  else fsPath !! (length fsPath - folderOffset).

(** The path to fetch remains the directory: no type id is inferred for
    it, or the segment at the type's position is the type's directory
    name, or [findXmlFromContentPath] finds no descriptor. *)
Definition walked (fsPath : SourcePath) : Prop :=
  (exists typeId,
      RegistryAccess.determineTypeId utils data fsPath = Returns typeId
      /\ JsObject.truthy typeId = false)
  \/ (exists typeId ty,
         RegistryAccess.determineTypeId utils data fsPath
         = Returns (JsObject.own typeId)
         /\ typeId <> ""
         /\ Registry.getTypeFromName data typeId = Returns ty
         /\ (segmentAtTypePosition ty fsPath = Some (directoryName ty)
             \/ BaseFileContainer.findXmlFromContentPath utils fileContainer fsPath ty
                = Returns None)).

(** The directory lies inside a component of the inferred type, and
    [findXmlFromContentPath] finds that component's descriptor. *)
Definition redirectedTo (fsPath descriptor : SourcePath) : Prop :=
  exists typeId ty,
    RegistryAccess.determineTypeId utils data fsPath = Returns (JsObject.own typeId)
    /\ typeId <> ""
    /\ Registry.getTypeFromName data typeId = Returns ty
    /\ segmentAtTypePosition ty fsPath <> Some (directoryName ty)
    /\ BaseFileContainer.findXmlFromContentPath utils fileContainer fsPath ty
       = Returns (Some descriptor)
    /\ pathText descriptor <> ""
    /\ descriptor <> fsPath.
End Redirection.
End RedirectSpec.

(** The groupings of a manifest. *)
Module ManifestSpec.

(** The type blocks of a manifest object: type name and member names. *)
Definition blocksOf (obj : PackageManifestObject) : list (string * list string) :=
  map (fun tm => (ptm_name tm, toArray (members tm))) (toArray (pkg_types obj)).

(** File a member under a type name: a new name opens a block at the
    end, a known one gets the member at the end of its block. *)
Definition pushMember (blocks : OMap.t (list string)) (pair : string * string)
  : OMap.t (list string) :=
  let '(typeName, fullName) := pair in
  OMap.set typeName (default [] (OMap.get typeName blocks) ++ [fullName]) blocks.

(** Group (type name, member) pairs: blocks in the order their names
    first appear, members in the order they appear. *)
Definition groupPairs (pairs : list (string * string)) : list (string * list string) :=
  fold_left pushMember pairs [].

(** The pairs of a list of blocks, block after block. *)
Definition ungroup (blocks : list (string * list string)) : list (string * string) :=
  flat_map (fun block => map (fun m => (fst block, m)) (snd block)) blocks.

Fixpoint mapC {A B} (f : A -> Completion B) (l : list A) : Completion (list B) :=
  match l with
  | [] => Returns []
  | x :: l' => y ← f x; ys ← mapC f l'; Returns (y :: ys)
  end.

Section Groupings.
Variable registry : MetadataRegistry.

(** The type a component is listed under: for a folder type, the type
    of its content. *)
Definition listedType (ty : MetadataType) : Completion MetadataType :=
  if JsString.truthy (folderContentType ty)
  then Registry.getTypeByName registry (JsString.orEmpty (folderContentType ty))
  else Returns ty.

Definition typeNameAndMember (c : MetadataComponent) : Completion (string * string) :=
  match c with
  | Abstract fullName ty => ty' ← listedType ty; Returns (name ty', fullName)
  | Concrete sc => ty' ← listedType (sc_type sc); Returns (name ty', sc_fullName sc)
  end.

(** The (type name, member names) groupings of a list of components. *)
Definition groupings (cs : list MetadataComponent)
  : Completion (list (string * list string)) :=
  pairs ← mapC typeNameAndMember cs;
  Returns (groupPairs pairs).

Definition returnsType (c : Completion MetadataType) (ty : MetadataType) : bool :=
  match c with
  | Returns ty' => bool_decide (ty' = ty)
  | _ => false
  end.

(** What the registry is validated for, as far as manifests go: a type
    is found under its own name; the folder type of a type has that
    type for content; the content type of a folder type is not itself
    a folder type. *)
Definition coherentType (ty : MetadataType) : bool :=
  returnsType (Registry.getTypeByName registry (name ty)) ty
  && (if JsString.truthy (folderType ty) then
        match Registry.getTypeByName registry (JsString.orEmpty (folderType ty)) with
        | Returns folder =>
            JsString.truthy (folderContentType folder)
            && returnsType
                 (Registry.getTypeByName registry
                    (JsString.orEmpty (folderContentType folder))) ty
        | _ => false
        end
      else true)
  && (if JsString.truthy (folderContentType ty) then
        match Registry.getTypeByName registry
                (JsString.orEmpty (folderContentType ty)) with
        | Returns content => negb (JsString.truthy (folderContentType content))
        | _ => false
        end
      else true).

Definition coherentb : bool :=
  forallb (fun entry => coherentType (snd entry)) (map_to_list (types registry)).

Definition registered (ty : MetadataType) : Prop :=
  exists k, types registry !! k = Some ty.

(** The (type name, member) pair that [getObject] files an outer key
    under. *)
Definition keyPair (key : string) : Completion (string * string) :=
  let '(typeId, fullName) := ComponentSet.splitKey key in
  ty ← Registry.getTypeByName registry typeId;
  ty' ← listedType ty;
  Returns (name ty', fullName).
End Groupings.

(** Blocks as [groupPairs] builds them: no type name twice, no block
    without a member. *)
Definition wellGrouped (blocks : list (string * list string)) : Prop :=
  NoDup (map fst blocks) /\ forall b, b ∈ blocks -> snd b <> [].
End ManifestSpec.

(** What resolution and manifests add to a set. *)
Module OperationSpec.
Import ComponentSet.

(** The components a resolution adds, for the filter it is given. *)
Definition addedBy (registryData : MetadataRegistry)
           (getChildren : SourceComponent -> list SourceComponent)
           (filter : option FilterOption) (resolved : list SourceComponent)
  : list SourceComponent :=
  match filter with
  | Some f => FilterSpec.added getChildren (toFilterSet registryData f) resolved
  | None => resolved
  end.

(** The manifest members that are not the wildcard. *)
Definition namedMembers (cs : list MetadataComponent) : list MetadataComponent :=
  List.filter (fun c => negb (String.eqb (componentFullName c) WILDCARD)) cs.

(** A set with another api version. *)
Definition withApiVersion (version : string) (s : t) : t :=
  {| apiVersion := version; registry := registry s; components := components s |}.

(** All member names of a manifest object, block after block. *)
Definition memberNames (obj : PackageManifestObject) : list string :=
  flat_map snd (ManifestSpec.blocksOf obj).
End OperationSpec.

(* ================================================================== *)
(** * A small registry and tree to evaluate the definitions on *)
(* ================================================================== *)

Module Sample.

Definition mkType (id name directoryName : string) (suffix : option string)
           (inFolder : bool) (folderType folderContentType : option string)
  : MetadataType :=
  Build_MetadataType id name directoryName suffix inFolder folderType
                     folderContentType.

Definition apexclass : MetadataType :=
  mkType "apexclass" "ApexClass" "classes" (Some "cls") false None None.
Definition customobject : MetadataType :=
  mkType "customobject" "CustomObject" "objects" (Some "object") false None None.
Definition customfield : MetadataType :=
  mkType "customfield" "CustomField" "fields" (Some "field") false None None.
Definition staticresource : MetadataType :=
  mkType "staticresource" "StaticResource" "staticresources" (Some "resource")
         false None None.
Definition document : MetadataType :=
  mkType "document" "Document" "documents" None true (Some "documentfolder") None.
Definition documentfolder : MetadataType :=
  mkType "documentfolder" "DocumentFolder" "documents" (Some "documentFolder")
         false None (Some "document").

Definition registryData : MetadataRegistry :=
  {| types :=
       list_to_map
         [("apexclass", apexclass); ("customobject", customobject);
          ("customfield", customfield); ("staticresource", staticresource);
          ("document", document); ("documentfolder", documentfolder)];
     suffixes :=
       list_to_map
         [("cls", "apexclass"); ("object", "customobject");
          ("field", "customfield"); ("resource", "staticresource");
          ("documentFolder", "documentfolder")];
     mixedContent :=
       [("staticresources", "staticresource"); ("documents", "document")];
     adapters :=
       list_to_map
         [("staticresource", "mixedContent"); ("document", "mixedContent")];
     apiVersion := "50.0" |}.

Definition source (fullName : string) (ty : MetadataType)
           (xml content : option SourcePath) (parent : option SourceComponent)
  : SourceComponent :=
  Build_SourceComponent fullName ty xml content parent.

(** One class, resolved once from its descriptor together with its
    content file and once from the descriptor alone. *)
Definition fooWithContent : SourceComponent :=
  source "Foo" apexclass (Some ["classes"; "Foo.cls-meta.xml"])
         (Some ["classes"; "Foo.cls"]) None.
Definition fooXmlOnly : SourceComponent :=
  source "Foo" apexclass (Some ["classes"; "Foo.cls-meta.xml"]) None None.

(** Two components of one type and name, the first with the path [p] as
    its content and no descriptor, the second with [p] as its descriptor
    and no content. *)
Definition barContentOnly : SourceComponent :=
  source "Bar" apexclass None (Some ["p"]) None.
Definition barXmlOnly : SourceComponent :=
  source "Bar" apexclass (Some ["p"]) None None.

(** An object and its one field. *)
Definition account : SourceComponent :=
  source "Account" customobject
         (Some ["objects"; "Account"; "Account.object-meta.xml"])
         (Some ["objects"; "Account"]) None.
Definition accountName : SourceComponent :=
  source "Account.Name" customfield
         (Some ["objects"; "Account"; "fields"; "Name.field-meta.xml"])
         None (Some account).
Definition getChildren (c : SourceComponent) : list SourceComponent :=
  if String.eqb (sc_fullName c) "Account" then [accountName] else [].

End Sample.

(** A stand-in for the xml library: one line per type block, the type
    name, a colon and the members separated by commas. *)
Module SampleXml.
Definition XML_DECL : string := "<?xml?>".

Definition line (tm : PackageTypeMembers) : string :=
  ptm_name tm +:+ ":" +:+ String.concat "," (toArray (members tm)).

Definition j2xParse (indentation : nat) (obj : PackageManifestObject) : string :=
  String.concat ";" (map line (toArray (pkg_types obj))).

Definition parseLine (l : string) : PackageTypeMembers :=
  match JsString.split ":" l with
  | typeName :: ms :: _ =>
      {| members :=
           match JsString.split "," ms with
           | [m] => One m
           | l => Many l
           end;
         ptm_name := typeName |}
  | _ => {| members := Many []; ptm_name := l |}
  end.

Definition parseXml (doc : string) : PackageManifestObject :=
  let body := String.substring 7 (String.length doc - 7) doc in
  {| pkg_types :=
       match JsString.split ";" body with
       | [l] => One (parseLine l)
       | ls => Many (map parseLine ls)
       end;
     pkg_version := "";
     pkg_attributes := [] |}.

Definition manifestSet : ComponentSet.t :=
  ComponentSet.new
    [ Member "Foo" (TypeName "ApexClass");
      Member "reports/summary" (TypeEntry Sample.document);
      Member "reports" (TypeEntry Sample.documentfolder);
      Member "Bar" (TypeName "apexclass") ]
    Sample.registryData.
End SampleXml.

(** Path utilities, a remote tree listing, an ignore list and an adapter
    to go with the registry above. *)
Module SampleTree.

Definition endsWith (s suffix : string) : bool :=
  String.prefix (JsString.rev_string suffix "") (JsString.rev_string s "").

(** [<base>.<suffix>-meta.xml] *)
Definition parseMetadataXml (p : SourcePath) : option MetadataXml :=
  let b := Path.basename p in
  if endsWith b "-meta.xml" then
    let stem := String.substring 0 (String.length b - 9) b in
    match rev (JsString.split "." stem) with
    | suffix :: ((_ :: _) as baseRev) =>
        Some {| mx_fullName := String.concat "." (rev baseRev);
                mx_suffix := suffix |}
    | _ => None
    end
  else None.

Definition baseName (p : SourcePath) : string :=
  List.hd "" (JsString.split "." (Path.basename p)).

Definition extName (p : SourcePath) : string :=
  match JsString.split "." (Path.basename p) with
  | _ :: ((_ :: _) as parts) => List.last parts ""
  | _ => ""
  end.

Definition parentName (p : SourcePath) : string :=
  Path.basename (Path.dirname p).

Definition utils : PathUtils :=
  Build_PathUtils parseMetadataXml baseName extName parentName.

Definition listing : list (SourcePath * GithubFileContainer.EntryType) :=
  [ (["staticresources"], GithubFileContainer.tree);
    (["staticresources"; "foo.resource-meta.xml"], GithubFileContainer.blob);
    (["staticresources"; "foo"], GithubFileContainer.tree);
    (["staticresources"; "foo"; "b.resource-meta.xml"], GithubFileContainer.blob);
    (["staticresources"; "foo"; "c.resource-meta.xml"], GithubFileContainer.blob);
    (["staticresources"; "foo"; "sub"], GithubFileContainer.tree);
    (["staticresources"; "foo"; "sub"; "a.js"], GithubFileContainer.blob);
    (["classes"], GithubFileContainer.tree);
    (["classes"; "Foo.cls"], GithubFileContainer.blob);
    (["classes"; "Foo.cls-meta.xml"], GithubFileContainer.blob);
    (["documents"], GithubFileContainer.tree);
    (["documents"; "reports"], GithubFileContainer.tree);
    (["documents"; "reports"; "summary.document-meta.xml"], GithubFileContainer.blob);
    (["documents"; "reports"; "summary"], GithubFileContainer.tree);
    (["documents"; "reports"; "summary"; "one.txt"], GithubFileContainer.blob) ].

Definition tree : GithubFileContainer.Tree := GithubFileContainer.fetch listing.

Definition container : FileContainer := GithubFileContainer.container tree.

Definition denying (denied : list SourcePath) : RegistryAccess.ForceIgnore :=
  {| RegistryAccess.denies := fun p => bool_decide (p ∈ denied) |}.

(** An adapter that builds, for whatever path it is given, a component
    of its type named after the path's base name. *)
Definition getAdapter (ty : MetadataType) (adapterId : JsObject.Value)
           (c : FileContainer) (forceIgnore : RegistryAccess.ForceIgnore)
  : Completion RegistryAccess.SourceAdapter :=
  Returns
    {| RegistryAccess.getComponent := fun p =>
         Returns (Some {| RegistryAccess.fullName := baseName p;
                          RegistryAccess.type := ty;
                          RegistryAccess.xml := p;
                          RegistryAccess.sources := [] |}) |}.

End SampleTree.

(** A parent-type table and a resolver to go with the sample registry. *)
Module SampleOps.

Definition getParentType (registry : MetadataRegistry) (ty : TypeRef)
  : option MetadataType :=
  let typeId :=
    match ty with
    | TypeName n => JsString.removeSpaces (JsString.toLowerCase n)
    | TypeEntry t => id t
    end in
  if String.eqb typeId "customfield" then Some Sample.customobject else None.

(** A resolver that finds the object under [objects] and the class under
    [classes], and fails elsewhere. *)
Definition getComponentsFromPath (registry : MetadataRegistry) (fsPath : SourcePath)
  : Completion (list SourceComponent) :=
  if bool_decide (fsPath = ["objects"]) then Returns [Sample.account]
  else if bool_decide (fsPath = ["classes"]) then Returns [Sample.fooWithContent]
  else Throws (TypeInferenceError error_path_not_found fsPath).

Definition manifest : PackageManifestObject :=
  {| pkg_types :=
       Many [ {| members := Many ["Foo"; "*"]; ptm_name := "ApexClass" |};
              {| members := One "Account.Name"; ptm_name := "CustomField" |} ];
     pkg_version := "49.0";
     pkg_attributes := [] |}.

(** A local file system with one directory [classes] holding one class. *)
Definition fileSystem : FileSystem :=
  {| lstatSync_isDirectory := fun p =>
       if bool_decide (p = ["classes"]) then Returns true
       else if bool_decide (p ∈ [["classes"; "Foo.cls"]; ["classes"; "Foo.cls-meta.xml"]])
            then Returns false
            else Throws (JsError "ENOENT");
     existsSync := fun p =>
       bool_decide (p ∈ [["classes"]; ["classes"; "Foo.cls"];
                          ["classes"; "Foo.cls-meta.xml"]]);
     readdirSync := fun p =>
       if bool_decide (p = ["classes"]) then Returns ["Foo.cls"; "Foo.cls-meta.xml"]
       else Throws (JsError "ENOTDIR") |}.

(** The two components that the sample adapter builds for the static
    resource [foo] and for the descriptor found inside its content. *)
Definition resource (fullName : string) (xml : SourcePath)
  : RegistryAccess.MetadataComponent :=
  {| RegistryAccess.fullName := fullName;
     RegistryAccess.type := Sample.staticresource;
     RegistryAccess.xml := xml;
     RegistryAccess.sources := [] |}.

(** A remote tree with one file of no registered type. *)
Definition misc : FileContainer :=
  GithubFileContainer.container
    (GithubFileContainer.fetch
       [ (["misc"], GithubFileContainer.tree);
         (["misc"; "notes.txt"], GithubFileContainer.blob) ]).

(** A remote tree with the content directory of a static resource that
    has no descriptor. *)
Definition bare : FileContainer :=
  GithubFileContainer.container
    (GithubFileContainer.fetch
       [ (["staticresources"], GithubFileContainer.tree);
         (["staticresources"; "foo"], GithubFileContainer.tree);
         (["staticresources"; "foo"; "a.js"], GithubFileContainer.blob) ]).

(** A registry whose mixed-content table names a type that it does not
    define. *)
Definition brokenRegistry : MetadataRegistry :=
  {| types := list_to_map [("apexclass", Sample.apexclass)];
     suffixes := list_to_map [("cls", "apexclass"); ("resource", "staticresource")];
     mixedContent := [("documents", "document"); ("staticresources", "staticresource")];
     adapters := ∅;
     apiVersion := "50.0" |}.

End SampleOps.

(* ================================================================== *)
(** * Properties *)
(* ================================================================== *)

(** ** Distinct elements *)

Lemma existsb_eqb_elem_of (x : string) (l : list string) :
  existsb (String.eqb x) l = true <-> x ∈ l.
Proof.
  rewrite existsb_exists. split.
  - intros (y & Hy & E). apply String.eqb_eq in E. subst.
    now apply list_elem_of_In.
  - intros H. exists x. split; [now apply list_elem_of_In | apply String.eqb_refl].
Qed.

Lemma existsb_eqb_not_elem_of (x : string) (l : list string) :
  existsb (String.eqb x) l = false <-> x ∉ l.
Proof.
  rewrite <- existsb_eqb_elem_of. destruct (existsb _ l); split; congruence.
Qed.

Lemma distinct_snoc l x :
  Distinct.distinct (l ++ [x]) = Distinct.snocNew (Distinct.distinct l) x.
Proof. unfold Distinct.distinct. now rewrite fold_left_app. Qed.

Lemma elem_of_snocNew acc x y :
  y ∈ Distinct.snocNew acc x <-> y ∈ acc \/ y = x.
Proof.
  unfold Distinct.snocNew. destruct (existsb _ acc) eqn:E.
  - apply existsb_eqb_elem_of in E. split; [tauto |]. intros [H | ->]; assumption.
  - rewrite elem_of_app, list_elem_of_singleton. reflexivity.
Qed.

Lemma elem_of_distinct l x : x ∈ Distinct.distinct l <-> x ∈ l.
Proof.
  induction l as [| y l IH] using rev_ind.
  - reflexivity.
  - rewrite distinct_snoc, elem_of_snocNew, IH, elem_of_app, list_elem_of_singleton.
    reflexivity.
Qed.

Lemma NoDup_distinct l : NoDup (Distinct.distinct l).
Proof.
  induction l as [| y l IH] using rev_ind.
  - constructor.
  - rewrite distinct_snoc. unfold Distinct.snocNew.
    destruct (existsb _ _) eqn:E; [assumption |].
    apply existsb_eqb_not_elem_of in E.
    apply NoDup_app. repeat split; try assumption.
    + intros a Ha Hy. apply list_elem_of_singleton in Hy. now subst.
    + apply NoDup_singleton.
Qed.

(** ** Insertion-ordered maps *)

Section OMapFacts.
Context {V : Type}.
Implicit Types (m : OMap.t V) (k : string) (v : V).

Lemma OMap_get_set k k' v m :
  OMap.get k' (OMap.set k v m) = if String.eqb k k' then Some v else OMap.get k' m.
Proof.
  induction m as [| [a va] m IH]; simpl.
  - reflexivity.
  - destruct (String.eqb_spec a k) as [-> | Hak]; simpl.
    + destruct (String.eqb k k'); reflexivity.
    + rewrite IH. destruct (String.eqb_spec a k') as [-> | Hak'].
      * destruct (String.eqb_spec k k'); [congruence | reflexivity].
      * reflexivity.
Qed.

Lemma OMap_get_set_eq k v m : OMap.get k (OMap.set k v m) = Some v.
Proof. now rewrite OMap_get_set, String.eqb_refl. Qed.

Lemma OMap_has_keys k m : OMap.has k m = existsb (String.eqb k) (OMap.keys m).
Proof.
  unfold OMap.has. induction m as [| [a va] m IH]; simpl.
  - reflexivity.
  - rewrite (String.eqb_sym k a). destruct (String.eqb a k); simpl; [reflexivity | apply IH].
Qed.

Lemma OMap_keys_set k v m :
  OMap.keys (OMap.set k v m) = Distinct.snocNew (OMap.keys m) k.
Proof.
  unfold Distinct.snocNew. induction m as [| [a va] m IH]; simpl.
  - reflexivity.
  - rewrite (String.eqb_sym k a). destruct (String.eqb a k); simpl.
    + reflexivity.
    + rewrite IH. fold (OMap.keys m). destruct (existsb _ (OMap.keys m)); reflexivity.
Qed.

Lemma OMap_get_None_keys k m : OMap.get k m = None <-> k ∉ OMap.keys m.
Proof.
  rewrite <- existsb_eqb_not_elem_of, <- OMap_has_keys. unfold OMap.has.
  destruct (OMap.get k m); split; congruence.
Qed.

Lemma OMap_values_by_keys (d : V) m :
  NoDup (OMap.keys m) ->
  OMap.values m = map (fun k => default d (OMap.get k m)) (OMap.keys m).
Proof.
  induction m as [| [a va] m IH]; simpl; intros Hnd.
  - reflexivity.
  - apply NoDup_cons in Hnd as [Ha Hnd]. rewrite String.eqb_refl. simpl. f_equal.
    rewrite (IH Hnd). apply map_ext_in. intros k Hk.
    destruct (String.eqb_spec a k) as [-> | _]; [| reflexivity].
    exfalso. apply Ha. now apply list_elem_of_In.
Qed.
End OMapFacts.

(** ** ComponentSet: the state after a run of [add] calls *)

Section SetFacts.
Import ComponentSet SetSpec.

Lemma keys_add c s :
  OMap.keys (components (add c s))
  = Distinct.snocNew (OMap.keys (components s)) (simpleKey c).
Proof.
  unfold add. set (key := simpleKey c).
  assert (Hm1 : OMap.keys (if OMap.has key (components s) then components s
                           else OMap.set key OMap.empty (components s))
                = Distinct.snocNew (OMap.keys (components s)) key).
  { unfold Distinct.snocNew. rewrite <- OMap_has_keys.
    destruct (OMap.has key (components s)) eqn:E; [reflexivity |].
    rewrite OMap_keys_set. unfold Distinct.snocNew.
    now rewrite <- OMap_has_keys, E. }
  destruct c as [fn ty | sc]; simpl; [exact Hm1 |].
  destruct (OMap.get key _) eqn:G; simpl; [| exact Hm1].
  rewrite OMap_keys_set, Hm1. unfold Distinct.snocNew at 1.
  assert (H : existsb (String.eqb key)
                (Distinct.snocNew (OMap.keys (components s)) key) = true).
  { apply existsb_eqb_elem_of, elem_of_snocNew. now right. }
  now rewrite H.
Qed.

Lemma innerOf_add c s k :
  innerOf k (add c s)
  = if String.eqb (simpleKey c) k
    then match c with
         | Source sc => OMap.set (sourceKey sc) sc (innerOf k s)
         | Member _ _ => innerOf k s
         end
    else innerOf k s.
Proof.
  unfold innerOf, add. set (key := simpleKey c).
  set (m1 := if OMap.has key (components s) then components s
             else OMap.set key OMap.empty (components s)).
  assert (Hm1 : forall k', OMap.get k' m1
                  = if String.eqb key k'
                    then Some (default OMap.empty (OMap.get key (components s)))
                    else OMap.get k' (components s)).
  { intros k'. unfold m1, OMap.has.
    destruct (OMap.get key (components s)) eqn:G.
    - destruct (String.eqb_spec key k') as [<- |]; [now rewrite G | reflexivity].
    - now rewrite OMap_get_set. }
  destruct c as [fn ty | sc]; simpl.
  - rewrite Hm1. destruct (String.eqb_spec key k) as [<- |]; reflexivity.
  - rewrite (Hm1 key), String.eqb_refl. simpl.
    rewrite OMap_get_set. destruct (String.eqb_spec key k) as [<- |]; [reflexivity |].
    rewrite Hm1. destruct (String.eqb_spec key k); [congruence | reflexivity].
Qed.

Lemma new_snoc cs c reg : new (cs ++ [c]) reg = add c (new cs reg).
Proof. unfold new, addAll. now rewrite fold_left_app. Qed.

Lemma sourceKeysUnder_snoc k cs c :
  sourceKeysUnder k (cs ++ [c])
  = sourceKeysUnder k cs
    ++ match c with
       | Source sc => if String.eqb (simpleKey c) k then [sourceKey sc] else []
       | Member _ _ => []
       end.
Proof. unfold sourceKeysUnder. rewrite flat_map_app. simpl. now rewrite app_nil_r. Qed.

Lemma distinct_app_nil l : Distinct.distinct (l ++ []) = Distinct.distinct l.
Proof. now rewrite app_nil_r. Qed.

(** The outer keys are the distinct simple keys added, and each holds
    the distinct source keys added under it, both in order of first
    occurrence. *)
Lemma components_new cs reg :
  OMap.keys (components (new cs reg)) = keysAdded cs
  /\ forall k, OMap.keys (innerOf k (new cs reg))
               = Distinct.distinct (sourceKeysUnder k cs).
Proof.
  induction cs as [| c cs [IHk IHi]] using rev_ind.
  - split; [reflexivity | intros k; reflexivity].
  - rewrite new_snoc. split.
    + rewrite keys_add, IHk. unfold keysAdded.
      rewrite map_app. simpl. now rewrite distinct_snoc.
    + intros k. rewrite innerOf_add, sourceKeysUnder_snoc.
      destruct c as [fn ty | sc].
      * rewrite distinct_app_nil. destruct (String.eqb _ k); apply IHi.
      * destruct (String.eqb _ k).
        -- now rewrite OMap_keys_set, IHi, distinct_snoc.
        -- rewrite distinct_app_nil. apply IHi.
Qed.

Lemma fold_left_add_sum {A} (f : A -> nat) (l : list A) (a : nat) :
  fold_left (fun acc x => acc + f x) l a = a + sum_list (map f l).
Proof.
  revert a. induction l as [| x l IH]; simpl; intros a; [lia |].
  rewrite IH. lia.
Qed.

Lemma size_sum s :
  size s = sum_list (map (fun inner => Nat.max 1 (OMap.size inner))
                         (OMap.values (components s))).
Proof.
  unfold size. rewrite fold_left_add_sum. simpl. f_equal.
  apply map_ext. intros inner. destruct (OMap.size inner); simpl; lia.
Qed.
End SetFacts.

(** ** ComponentSet: size *)

(** C1 (as the code has it). For every sequence of [add] calls on a new
    set, [size] is the sum, over the distinct outer keys added, of the
    number of distinct source keys added under that key, an outer key
    without a source-backed variant counting one: every stored variant
    counts. *)
Theorem size_counts_every_variant (cs : list ComponentLike) (reg : MetadataRegistry) :
  ComponentSet.size (ComponentSet.new cs reg) = SetSpec.expectedSize cs.
Proof.
  destruct (components_new cs reg) as [Hk Hi].
  rewrite size_sum. unfold SetSpec.expectedSize.
  rewrite (OMap_values_by_keys OMap.empty).
  - rewrite map_map, Hk. f_equal. apply map_ext. intros k.
    fold (SetSpec.innerOf k (ComponentSet.new cs reg)).
    unfold SetSpec.variantCount. rewrite <- Hi.
    unfold OMap.size, OMap.keys. now rewrite length_map.
  - rewrite Hk. apply NoDup_distinct.
Qed.

(** C1, refuted as stated: a class added in two source-backed variants is
    one (type, fullName) pair, and the set's size is two. *)
Lemma size_is_not_the_number_of_pairs :
  let cs := [Source Sample.fooWithContent; Source Sample.fooXmlOnly] in
  SetSpec.distinctPairs cs = 1
  /\ ComponentSet.size (ComponentSet.new cs Sample.registryData) = 2
  /\ ComponentSet.size (ComponentSet.new cs Sample.registryData)
     <> SetSpec.distinctPairs cs.
Proof. vm_compute. repeat split; congruence. Qed.

(** ** ComponentSet: iteration *)

(** C2, at a full name that holds the key delimiter. The set holds one
    abstract member, ApexClass [a#b]; iteration yields a member named [a]:
    the key [apexclass#a#b] is split at every delimiter and the second
    part is taken for the full name. *)
Lemma iterate_cuts_full_name_at_delimiter :
  let s := ComponentSet.new [Member "a#b" (TypeName "ApexClass")] Sample.registryData in
  OMap.keys (ComponentSet.components s) = ["apexclass#a#b"]
  /\ ComponentSet.iterate s = Returns [Abstract "a" Sample.apexclass].
Proof. vm_compute. split; reflexivity. Qed.

(** Away from the delimiter the abstract member is the key's. *)
Lemma split_no_delimiter (d : ascii) (s : string) :
  JsString.includes d s = false -> JsString.split d s = [s].
Proof.
  induction s as [| c s IH]; simpl; [reflexivity |].
  destruct (Ascii.eqb c d); simpl; [discriminate |].
  intros H. now rewrite (IH H).
Qed.

Lemma split_at_first_delimiter (d : ascii) (s1 s2 : string) :
  JsString.includes d s1 = false ->
  JsString.split d (s1 +:+ String d s2) = s1 :: JsString.split d s2.
Proof.
  induction s1 as [| c s1 IH]; intros H.
  - change ("" +:+ String d s2) with (String d s2). simpl.
    now rewrite Ascii.eqb_refl.
  - change (String c s1 +:+ String d s2) with (String c (s1 +:+ String d s2)).
    simpl in *. destruct (Ascii.eqb c d); simpl in *; [discriminate |].
    now rewrite (IH H).
Qed.

Lemma splitKey_simple (typeName fullName : string) :
  JsString.includes "#" typeName = false ->
  JsString.includes "#" fullName = false ->
  ComponentSet.splitKey (typeName +:+ "#" +:+ fullName) = (typeName, fullName).
Proof.
  intros Ht Hf. unfold ComponentSet.splitKey.
  change ("#" +:+ fullName) with (String "#" fullName).
  now rewrite (split_at_first_delimiter _ _ _ Ht), (split_no_delimiter _ _ Hf).
Qed.

(** An outer key with stored variants yields them, in the order they were
    first stored. *)
Lemma iterEntry_variants (s : ComponentSet.t) (key : string)
      (inner : OMap.t SourceComponent) :
  inner <> [] ->
  ComponentSet.iterEntry s (key, inner) = Returns (map Concrete (OMap.values inner)).
Proof. intros H. unfold ComponentSet.iterEntry. now destruct inner. Qed.

(** An outer key without variants, built from a type name and a full name
    that do not hold the delimiter, yields the abstract member of that
    name, with the registry's type. *)
Lemma iterEntry_abstract (s : ComponentSet.t) (typeName fullName : string)
      (ty : MetadataType) :
  JsString.includes "#" typeName = false ->
  JsString.includes "#" fullName = false ->
  Registry.getTypeByName (ComponentSet.registry s) typeName = Returns ty ->
  ComponentSet.iterEntry s (typeName +:+ "#" +:+ fullName, OMap.empty)
  = Returns [Abstract fullName ty].
Proof.
  intros Ht Hf Hty. unfold ComponentSet.iterEntry. simpl.
  rewrite (splitKey_simple _ _ Ht Hf). now rewrite Hty.
Qed.

Lemma iterEntry_length (s : ComponentSet.t) (entry : string * OMap.t SourceComponent)
      (items : list MetadataComponent) :
  ComponentSet.iterEntry s entry = Returns items ->
  length items = Nat.max 1 (OMap.size (snd entry)).
Proof.
  destruct entry as [key inner]. unfold ComponentSet.iterEntry. simpl.
  destruct inner as [| v inner]; simpl.
  - destruct (ComponentSet.splitKey key) as [typeName fullName].
    destruct (Registry.getTypeByName _ typeName); simpl; try discriminate.
    now intros [= <-].
  - intros [= <-]. simpl. unfold OMap.values, OMap.size. now rewrite !length_map.
Qed.

(** X4. A full iteration that ends yields as many items as [size] counts. *)
Lemma iterate_length (s : ComponentSet.t) (items : list MetadataComponent) :
  ComponentSet.iterate s = Returns items -> length items = ComponentSet.size s.
Proof.
  rewrite size_sum. unfold ComponentSet.iterate, OMap.entries, OMap.values.
  rewrite map_map.
  assert (H : forall es acc r,
             forEach (fun acc entry =>
                        items ← ComponentSet.iterEntry s entry; Returns (acc ++ items))
                     es acc = Returns r ->
             length r
             = length acc
               + sum_list (map (fun e => Nat.max 1 (OMap.size (snd e))) es)).
  { induction es as [| e es IH]; simpl; intros acc r Hr.
    - injection Hr as <-. lia.
    - destruct (ComponentSet.iterEntry s e) as [its | |] eqn:E; try discriminate.
      simpl in Hr. apply IH in Hr. rewrite Hr, length_app.
      rewrite (iterEntry_length _ _ _ E). lia. }
  intros Hit. apply H in Hit. simpl in Hit. exact Hit.
Qed.

(** ** ComponentSet: [add] *)

Lemma has_add (c : ComponentLike) (s : ComponentSet.t) :
  ComponentSet.has c (ComponentSet.add c s) = true.
Proof.
  unfold ComponentSet.has. rewrite OMap_has_keys, keys_add.
  apply existsb_eqb_elem_of, elem_of_snocNew. now right.
Qed.

Lemma has_add_mono (c c' : ComponentLike) (s : ComponentSet.t) :
  ComponentSet.has c' s = true -> ComponentSet.has c' (ComponentSet.add c s) = true.
Proof.
  unfold ComponentSet.has. rewrite !OMap_has_keys, keys_add.
  rewrite !existsb_eqb_elem_of, elem_of_snocNew. tauto.
Qed.

Lemma has_addAll_mono (cs : list ComponentLike) (c : ComponentLike) (s : ComponentSet.t) :
  ComponentSet.has c s = true -> ComponentSet.has c (ComponentSet.addAll cs s) = true.
Proof.
  revert s. induction cs as [| c0 cs IH]; simpl; intros s H; [assumption |].
  apply IH. now apply has_add_mono.
Qed.

Lemma has_addAll (cs : list ComponentLike) (c : ComponentLike) (s : ComponentSet.t) :
  c ∈ cs -> ComponentSet.has c (ComponentSet.addAll cs s) = true.
Proof.
  revert s. induction cs as [| c0 cs IH]; intros s H.
  - inversion H.
  - apply elem_of_cons in H as [-> | H]; simpl.
    + apply has_addAll_mono, has_add.
    + now apply IH.
Qed.

Lemma OMap_set_set {V} (k : string) (v v' : V) (m : OMap.t V) :
  OMap.set k v (OMap.set k v' m) = OMap.set k v m.
Proof.
  induction m as [| [a va] m IH]; simpl.
  - now rewrite String.eqb_refl.
  - destruct (String.eqb a k) eqn:E; simpl; rewrite E; [reflexivity | now rewrite IH].
Qed.

(** X3. A second [add] of the same component changes nothing at all. *)
Lemma add_idempotent (c : ComponentLike) (s : ComponentSet.t) :
  ComponentSet.add c (ComponentSet.add c s) = ComponentSet.add c s.
Proof.
  unfold ComponentSet.add at 1 3. set (key := ComponentSet.simpleKey c).
  pose proof (has_add c s) as Hhas. unfold ComponentSet.has in Hhas. fold key in Hhas.
  rewrite Hhas.
  unfold ComponentSet.add in *. fold key in Hhas |- *.
  set (m1 := if OMap.has key (ComponentSet.components s)
             then ComponentSet.components s
             else OMap.set key OMap.empty (ComponentSet.components s)) in *.
  destruct c as [fn ty | sc].
  - reflexivity.
  - destruct (OMap.get key m1) as [inner |] eqn:G; simpl in *.
    + rewrite OMap_get_set_eq. unfold ComponentSet.withComponents. simpl.
      now rewrite !OMap_set_set.
    + rewrite G. reflexivity.
Qed.

(** An [add] leaves alone every inner entry stored under another outer
    key or another source key. *)
Lemma add_keeps_other_entries (c : SourceComponent) (s : ComponentSet.t)
      (k sk : string) :
  (k, sk) <> (ComponentSet.simpleKey (Source c), ComponentSet.sourceKey c) ->
  OMap.get sk (SetSpec.innerOf k (ComponentSet.add (Source c) s))
  = OMap.get sk (SetSpec.innerOf k s).
Proof.
  intros Hne. rewrite innerOf_add.
  destruct (String.eqb_spec (ComponentSet.simpleKey (Source c)) k) as [<- |]; [| reflexivity].
  rewrite OMap_get_set.
  destruct (String.eqb_spec (ComponentSet.sourceKey c) sk) as [<- |]; [| reflexivity].
  congruence.
Qed.

(** C10, at two components that differ in their (xml, content) paths and
    have one source key. The first has the path [p] as content and no
    descriptor, the second has [p] as descriptor and no content; the key
    is the bare concatenation of type name, full name and the two paths,
    so the second [add] overwrites the first component. *)
Lemma add_overwrites_variant_with_equal_source_key :
  let s := ComponentSet.new [Source Sample.barContentOnly] Sample.registryData in
  (sc_xml Sample.barContentOnly, sc_content Sample.barContentOnly)
  <> (sc_xml Sample.barXmlOnly, sc_content Sample.barXmlOnly)
  /\ ComponentSet.iterate s = Returns [Concrete Sample.barContentOnly]
  /\ ComponentSet.iterate (ComponentSet.add (Source Sample.barXmlOnly) s)
     = Returns [Concrete Sample.barXmlOnly].
Proof. vm_compute. repeat split; congruence. Qed.

(** ** ComponentSet: filtered resolution *)

Section ResolveFacts.
Import ComponentSet.
Variable registryData : MetadataRegistry.
Variable getChildren : SourceComponent -> list SourceComponent.

Lemma fold_addBoth (cs : list SourceComponent) (st : t * t) :
  fold_left (fun st c => addBoth c st) cs st
  = (addAll (map Source cs) (fst st), addAll (map Source cs) (snd st)).
Proof.
  revert st. induction cs as [| c cs IH]; intros [a b]; simpl; [reflexivity |].
  now rewrite IH.
Qed.

Lemma fold_left_guarded {A S} (p : A -> bool) (f : S -> A -> S) (l : list A) (s : S) :
  fold_left (fun s x => if p x then f s x else s) l s
  = fold_left f (List.filter p l) s.
Proof.
  revert s. induction l as [| x l IH]; intros s; [reflexivity |].
  simpl. rewrite IH. destruct (p x); reflexivity.
Qed.

Lemma fold_left_flat_map {A B S} (g : A -> list B) (f : S -> B -> S)
      (l : list A) (s : S) :
  fold_left (fun s x => fold_left f (g x) s) l s = fold_left f (flat_map g l) s.
Proof.
  revert s. induction l as [| x l IH]; intros s; simpl; [reflexivity |].
  now rewrite fold_left_app, IH.
Qed.

Lemma fold_left_pointwise {A S} (f g : S -> A -> S) (l : list A) (s : S) :
  (forall s x, f s x = g s x) -> fold_left f l s = fold_left g l s.
Proof.
  intros H. revert s. induction l as [| x l IH]; intros s; simpl; [reflexivity |].
  now rewrite H, IH.
Qed.

Lemma resolveStep_selected (fs : t) (st : t * t) (c : SourceComponent) :
  resolveStep getChildren (Some fs) st c
  = fold_left (fun st x => addBoth x st) (FilterSpec.selected getChildren fs c) st.
Proof.
  unfold resolveStep, FilterSpec.selected, FilterSpec.admits.
  destruct (has (Source c) fs || has (wildcardFor (sc_type c)) fs || _).
  - reflexivity.
  - apply (fold_left_guarded (fun child => has (Source child) fs)
                             (fun st x => addBoth x st)).
Qed.

(** C3 (as the code has it). With a filter, the components added, to
    this set and to the returned one, are: each resolved component that
    the filter holds, or holds a wildcard member for the type of, or
    whose parent the filter holds or holds a wildcard member for the
    type of; and, for a resolved component that meets none of the three,
    those of its children that the filter itself holds. A resolved
    component whose type has a wildcard member in the filter is always
    among them. *)
Theorem resolveSourceComponents_filtered
        (resolved : list SourceComponent) (filter : FilterOption) (this : t) :
  let fs := toFilterSet registryData filter in
  let added := FilterSpec.added getChildren fs resolved in
  let result :=
    resolveSourceComponents registryData getChildren resolved (Some filter) this in
  result = (addAll (map Source added) this, new (map Source added) registryData)
  /\ (forall c, c ∈ resolved ->
                has (wildcardFor (sc_type c)) fs = true ->
                c ∈ added
                /\ has (Source c) (fst result) = true
                /\ has (Source c) (snd result) = true).
Proof.
  intros fs added result.
  assert (E : result = (addAll (map Source added) this,
                        new (map Source added) registryData)).
  { unfold result, resolveSourceComponents. simpl. fold fs.
    rewrite (fold_left_pointwise _ (fun st c =>
               fold_left (fun st x => addBoth x st)
                         (FilterSpec.selected getChildren fs c) st)).
    - rewrite fold_left_flat_map, fold_addBoth. reflexivity.
    - intros st c. apply resolveStep_selected. }
  split; [exact E |].
  intros c Hc Hw.
  assert (Hin : c ∈ added).
  { unfold added, FilterSpec.added. apply list_elem_of_In, in_flat_map.
    exists c. split; [now apply list_elem_of_In |].
    unfold FilterSpec.selected, FilterSpec.admits. rewrite Hw.
    rewrite orb_true_r. simpl. now left. }
  split; [exact Hin |].
  assert (Hs : Source c ∈ map Source added).
  { apply list_elem_of_In, in_map, list_elem_of_In, Hin. }
  rewrite E. simpl. split; now apply has_addAll.
Qed.
End ResolveFacts.

(** A filter with a wildcard member for CustomObject lets the resolved
    object in. *)
Lemma resolveSourceComponents_filtered_witness :
  let filter := ComponentSet.FilterComponents [Member "*" (TypeName "CustomObject")] in
  let this := ComponentSet.new [] Sample.registryData in
  let result :=
    ComponentSet.resolveSourceComponents Sample.registryData Sample.getChildren
      [Sample.account] (Some filter) this in
  ComponentSet.has (Source Sample.account) (snd result) = true.
Proof.
  intros filter this result.
  apply (proj2 (resolveSourceComponents_filtered Sample.registryData Sample.getChildren
                  [Sample.account] filter this) Sample.account).
  - apply list_elem_of_here.
  - vm_compute. reflexivity.
Defined.

(** C3, refuted as stated: the filter holds a wildcard member for
    CustomField and nothing else; the object resolved meets none of the
    three conditions, and its field, which meets the second, is not
    added. *)
Lemma children_are_not_matched_by_wildcard :
  let filter := ComponentSet.FilterComponents [Member "*" (TypeName "CustomField")] in
  let fs := ComponentSet.toFilterSet Sample.registryData filter in
  let this := ComponentSet.new [] Sample.registryData in
  let result :=
    ComponentSet.resolveSourceComponents Sample.registryData Sample.getChildren
      [Sample.account] (Some filter) this in
  FilterSpec.admits fs Sample.account = false
  /\ FilterSpec.admits fs Sample.accountName = true
  /\ FilterSpec.selectedByThreeConditions Sample.getChildren fs Sample.account
     = [Sample.accountName]
  /\ ComponentSet.has (Source Sample.accountName) (fst result) = false
  /\ ComponentSet.size (snd result) = 0.
Proof. vm_compute. repeat split; reflexivity. Qed.

(** ** Paths *)

Lemma dirname_join (dir : SourcePath) (file : string) :
  Path.dirname (Path.join dir file) = dir.
Proof. unfold Path.dirname, Path.join. apply removelast_last. Qed.

Lemma findIndex_first (x : string) (pre rest : list string) :
  x ∉ pre -> Path.findIndex x (pre ++ x :: rest) = Z.of_nat (length pre).
Proof.
  induction pre as [| y pre IH]; intros Hx.
  - simpl. now rewrite String.eqb_refl.
  - apply not_elem_of_cons in Hx as [Hne Hx].
    cbn [app Path.findIndex]. rewrite (IH Hx).
    destruct (String.eqb_spec y x) as [-> | _]; [congruence |].
    destruct (Z.ltb_spec (Z.of_nat (length pre)) 0); [lia |].
    cbn [length]. lia.
Qed.

(** ** The resolver: paths that are not in the tree *)

Section Resolver.
Import RegistryAccess.
Variable utils : PathUtils.
Variable data : MetadataRegistry.
Variable fileContainer : FileContainer.
Variable findAndCreate : SourcePath -> ForceIgnore.
Variable getAdapter :
  MetadataType -> JsObject.Value -> FileContainer -> ForceIgnore ->
  Completion SourceAdapter.

Local Abbreviation getComponentsFromPath :=
  (getComponentsFromPath utils data fileContainer findAndCreate getAdapter).
Local Abbreviation getComponentsFromPathRecursive :=
  (getComponentsFromPathRecursive utils data fileContainer getAdapter).
Local Abbreviation scanFiles := (scanFiles utils data fileContainer getAdapter).
Local Abbreviation fetchComponent := (fetchComponent utils data fileContainer getAdapter).

(** When the container answers that the path does not exist, the call
    throws path-not-found. *)
Lemma missing_path_is_not_found (fuel : nat) (fsPath : SourcePath) :
  exists_ fileContainer fsPath = Returns false ->
  getComponentsFromPath fuel fsPath
  = Throws (TypeInferenceError error_path_not_found fsPath).
Proof. intros H. unfold RegistryAccess.getComponentsFromPath. now rewrite H. Qed.

(** When the container's [exists] throws, so does the call, with the
    same exception. *)
Lemma exists_failure_propagates (fuel : nat) (fsPath : SourcePath) (e : Exception) :
  exists_ fileContainer fsPath = Throws e ->
  getComponentsFromPath fuel fsPath = Throws e.
Proof. intros H. unfold RegistryAccess.getComponentsFromPath. now rewrite H. Qed.

(** ** The resolver: denied paths *)

Lemma fetchComponent_denied_descriptor (forceIgnore : ForceIgnore) (fsPath : SourcePath) :
  is_Some (parseMetadataXml utils fsPath) ->
  denies forceIgnore fsPath = true ->
  fetchComponent forceIgnore fsPath = Returns None.
Proof.
  intros Hp Hd. unfold RegistryAccess.fetchComponent.
  now rewrite (bool_decide_eq_true_2 _ Hp), Hd.
Qed.

Lemma recursive_denied_directory (fuel : nat) (forceIgnore : ForceIgnore)
      (directory : SourcePath) :
  denies forceIgnore directory = true ->
  getComponentsFromPathRecursive (S fuel) forceIgnore directory = Returns [].
Proof. intros Hd. simpl. now rewrite Hd. Qed.

(** The three conditions under which the path to fetch remains the
    directory. *)
Lemma walked_pathForFetch (fsPath : SourcePath) :
  RedirectSpec.walked utils data fileContainer fsPath ->
  pathForFetch utils data fileContainer fsPath = Returns fsPath.
Proof.
  unfold RedirectSpec.walked, RedirectSpec.segmentAtTypePosition, pathForFetch.
  intros [(typeId & Hid & Hfalsy) | (typeId & ty & Hid & Hne & Hty & Hcase)];
    rewrite Hid; cbn [mbind Completion_bind bind].
  - now rewrite Hfalsy.
  - cbn [JsObject.truthy getTypeFromId].
    destruct (String.eqb_spec typeId "") as [E | _]; [contradiction |].
    cbn [negb]. unfold getTypeFromName. rewrite Hty.
    cbn [mbind Completion_bind bind]. cbv zeta.
    case_bool_decide as Hpart; [| reflexivity].
    destruct Hcase as [Hseg | Hnone]; [contradiction |].
    now rewrite Hnone.
Qed.

Lemma redirectedTo_pathForFetch (fsPath descriptor : SourcePath) :
  RedirectSpec.redirectedTo utils data fileContainer fsPath descriptor ->
  pathForFetch utils data fileContainer fsPath = Returns descriptor.
Proof.
  unfold RedirectSpec.redirectedTo, RedirectSpec.segmentAtTypePosition, pathForFetch.
  intros (typeId & ty & Hid & Hne & Hty & Hseg & Hfound & Htext & _).
  rewrite Hid. cbn [mbind Completion_bind bind JsObject.truthy getTypeFromId].
  destruct (String.eqb_spec typeId "") as [E | _]; [contradiction |].
  cbn [negb]. unfold getTypeFromName. rewrite Hty.
  cbn [mbind Completion_bind bind]. cbv zeta.
  rewrite bool_decide_eq_true_2 by exact Hseg.
  rewrite Hfound. cbn [mbind Completion_bind bind fmap option_fmap option_map
                       JsString.truthy default].
  destruct (String.eqb_spec (pathText descriptor) "") as [E | _]; [contradiction |].
  reflexivity.
Qed.

(** C8 (as the code has it). Let the path exist and be denied by the
    ignore rules bound for it. If it is a metadata descriptor file, it
    resolves to the empty list, without an error. If it is a directory,
    given as a normalized path, for which the path to fetch remains the
    directory (no type id is inferred for it, or the segment at the
    type's position is the type's directory name, or no descriptor is
    found for it), it resolves to the empty list, without an error. If
    it is a directory, given as a normalized path, inside a component
    whose descriptor is found, it resolves as fetching that descriptor
    does, under the same ignore rules: the denial of the directory is
    not asked about. *)
Theorem denied_path_resolves_to_nothing (fuel : nat) (fsPath : SourcePath) :
  exists_ fileContainer fsPath = Returns true ->
  denies (findAndCreate fsPath) fsPath = true ->
  (isDirectory fileContainer fsPath = Returns false ->
   is_Some (parseMetadataXml utils fsPath) ->
   getComponentsFromPath fuel fsPath = Returns [])
  /\ (isDirectory fileContainer fsPath = Returns true ->
      Path.normalized fsPath = true ->
      RedirectSpec.walked utils data fileContainer fsPath ->
      getComponentsFromPath (S fuel) fsPath = Returns [])
  /\ (forall descriptor,
        isDirectory fileContainer fsPath = Returns true ->
        Path.normalized fsPath = true ->
        RedirectSpec.redirectedTo utils data fileContainer fsPath descriptor ->
        getComponentsFromPath fuel fsPath
        = (component ← fetchComponent (findAndCreate fsPath) descriptor;
           Returns (match component with Some c => [c] | None => [] end))).
Proof.
  intros He Hd. unfold RegistryAccess.getComponentsFromPath.
  rewrite He. cbn [mbind Completion_bind bind negb]. split; [| split].
  - intros Hfile Hxml. rewrite Hfile. cbn [mbind Completion_bind bind].
    fold fetchComponent.
    now rewrite (fetchComponent_denied_descriptor _ _ Hxml Hd).
  - intros Hdir _ Hwalked. rewrite Hdir. cbn [mbind Completion_bind bind].
    rewrite (walked_pathForFetch _ Hwalked). cbn [mbind Completion_bind bind].
    rewrite bool_decide_eq_true_2 by reflexivity.
    fold getComponentsFromPathRecursive.
    now apply recursive_denied_directory.
  - intros descriptor Hdir _ Hredirected. rewrite Hdir.
    cbn [mbind Completion_bind bind].
    rewrite (redirectedTo_pathForFetch _ _ Hredirected).
    cbn [mbind Completion_bind bind].
    destruct Hredirected as (_ & _ & _ & _ & _ & _ & _ & _ & Hne).
    now rewrite (bool_decide_eq_false_2 _ Hne).
Qed.

(** ** The resolver: the walk stops at a mixed-content component *)

Lemma scanFiles_app (forceIgnore : ForceIgnore) (directory : SourcePath)
      (files1 files2 : list string)
      (dirQueue : list SourcePath) (components : list MetadataComponent) :
  scanFiles forceIgnore directory (files1 ++ files2) dirQueue components
  = scanned ← scanFiles forceIgnore directory files1 dirQueue components;
    match scanned with
    | Return cs => Returns (Return cs)
    | Done dirQueue' components' =>
        scanFiles forceIgnore directory files2 dirQueue' components'
    end.
Proof.
  revert dirQueue components.
  induction files1 as [| file files1 IH]; intros dirQueue components.
  - reflexivity.
  - cbn [app RegistryAccess.scanFiles].
    destruct (isDirectory fileContainer (Path.join directory file)) as [[|] | e |];
      try reflexivity; simpl.
    + apply IH.
    + destruct (bool_decide _); [| apply IH].
      destruct (RegistryAccess.fetchComponent _ _ _ _ _ _) as [[c |] | e |];
        try reflexivity; simpl; [| apply IH].
      destruct (stopsScan data _ c); [reflexivity | apply IH].
Qed.

(** C4. In the walk of [directory], a normalized path, let [file] be a
    descriptor that resolves to a component of a mixed-content type,
    while the directory (its parent, for a folder-scoped type) does not
    bear the type's directory name. If the files listed before [file],
    plain names like [file], left the scan running, with [components]
    collected so far, the walk of the directory returns [components]
    followed by that component: neither the files listed after [file]
    nor the subdirectories queued so far add anything. *)
Theorem walk_stops_at_mixed_content_component
        (fuel : nat) (forceIgnore : ForceIgnore) (directory : SourcePath)
        (before after : list string) (file : string)
        (dirQueue : list SourcePath) (components : list MetadataComponent)
        (component : MetadataComponent) :
  Path.normalized directory = true ->
  forallb Path.plain (before ++ [file]) = true ->
  (inFolder (type component) = true -> 1 < length directory) ->
  denies forceIgnore directory = false ->
  readDir fileContainer directory = Returns (before ++ file :: after) ->
  scanFiles forceIgnore directory before [] [] = Returns (Done dirQueue components) ->
  isDirectory fileContainer (Path.join directory file) = Returns false ->
  is_Some (parseMetadataXml utils (Path.join directory file)) ->
  fetchComponent forceIgnore (Path.join directory file) = Returns (Some component) ->
  JsObject.truthy
    (mixedContentRead (mixedContent data) (directoryName (type component))) = true ->
  Path.basename (if inFolder (type component) then Path.dirname directory
                 else directory)
  <> directoryName (type component) ->
  getComponentsFromPathRecursive (S fuel) forceIgnore directory
  = Returns (components ++ [component]).
Proof.
  intros _ _ _ Hd Hread Hbefore Hfile Hxml Hfetch Hmixed Hroot.
  cbn [RegistryAccess.getComponentsFromPathRecursive].
  rewrite Hd, Hread. simpl.
  rewrite scanFiles_app, Hbefore. simpl.
  rewrite Hfile. simpl.
  rewrite (bool_decide_eq_true_2 _ Hxml), Hfetch. simpl.
  assert (Hstop : stopsScan data (Path.join directory file) component = true).
  { unfold stopsScan. rewrite Hmixed. simpl.
    apply negb_true_iff, String.eqb_neq.
    destruct (inFolder (type component)); now rewrite !dirname_join. }
  now rewrite Hstop.
Qed.
End Resolver.

(** Four denied paths of the sample tree: the descriptor of the class;
    the directory of the classes, for which no type id is inferred; the
    directory of the static resources, which bears its type's directory
    name; and, in the tree without descriptors, the content directory of
    a static resource. A fifth, the denied directory inside the static
    resource [foo], resolves as the descriptor of [foo] does. *)
Lemma denied_path_resolves_to_nothing_witness :
  RegistryAccess.getComponentsFromPath
    SampleTree.utils Sample.registryData SampleTree.container
    (fun _ => SampleTree.denying [["classes"; "Foo.cls-meta.xml"]])
    SampleTree.getAdapter 2 ["classes"; "Foo.cls-meta.xml"]
  = Returns []
  /\ RegistryAccess.getComponentsFromPath
       SampleTree.utils Sample.registryData SampleTree.container
       (fun _ => SampleTree.denying [["classes"]])
       SampleTree.getAdapter 3 ["classes"]
     = Returns []
  /\ RegistryAccess.getComponentsFromPath
       SampleTree.utils Sample.registryData SampleTree.container
       (fun _ => SampleTree.denying [["staticresources"]])
       SampleTree.getAdapter 3 ["staticresources"]
     = Returns []
  /\ RegistryAccess.getComponentsFromPath
       SampleTree.utils Sample.registryData SampleOps.bare
       (fun _ => SampleTree.denying [["staticresources"; "foo"]])
       SampleTree.getAdapter 3 ["staticresources"; "foo"]
     = Returns []
  /\ RegistryAccess.getComponentsFromPath
       SampleTree.utils Sample.registryData SampleTree.container
       (fun _ => SampleTree.denying [["staticresources"; "foo"; "sub"]])
       SampleTree.getAdapter 2 ["staticresources"; "foo"; "sub"]
     = (component ← RegistryAccess.fetchComponent
                      SampleTree.utils Sample.registryData SampleTree.container
                      SampleTree.getAdapter
                      (SampleTree.denying [["staticresources"; "foo"; "sub"]])
                      ["staticresources"; "foo.resource-meta.xml"];
        Returns (match component with Some c => [c] | None => [] end)).
Proof.
  split; [| split; [| split; [| split]]].
  - destruct (denied_path_resolves_to_nothing
                SampleTree.utils Sample.registryData SampleTree.container
                (fun _ => SampleTree.denying [["classes"; "Foo.cls-meta.xml"]])
                SampleTree.getAdapter 2 ["classes"; "Foo.cls-meta.xml"])
      as (Hfile & _ & _).
    + vm_compute. reflexivity.
    + vm_compute. reflexivity.
    + apply Hfile.
      * vm_compute. reflexivity.
      * vm_compute. eexists. reflexivity.
  - destruct (denied_path_resolves_to_nothing
                SampleTree.utils Sample.registryData SampleTree.container
                (fun _ => SampleTree.denying [["classes"]])
                SampleTree.getAdapter 2 ["classes"])
      as (_ & Hwalked & _).
    + vm_compute. reflexivity.
    + vm_compute. reflexivity.
    + apply Hwalked.
      * vm_compute. reflexivity.
      * reflexivity.
      * left. exists JsObject.undefined. split; vm_compute; reflexivity.
  - destruct (denied_path_resolves_to_nothing
                SampleTree.utils Sample.registryData SampleTree.container
                (fun _ => SampleTree.denying [["staticresources"]])
                SampleTree.getAdapter 2 ["staticresources"])
      as (_ & Hwalked & _).
    + vm_compute. reflexivity.
    + vm_compute. reflexivity.
    + apply Hwalked.
      * vm_compute. reflexivity.
      * reflexivity.
      * right. exists "staticresource", Sample.staticresource.
        split; [vm_compute; reflexivity |].
        split; [discriminate |].
        split; [vm_compute; reflexivity |].
        left. vm_compute. reflexivity.
  - destruct (denied_path_resolves_to_nothing
                SampleTree.utils Sample.registryData SampleOps.bare
                (fun _ => SampleTree.denying [["staticresources"; "foo"]])
                SampleTree.getAdapter 2 ["staticresources"; "foo"])
      as (_ & Hwalked & _).
    + vm_compute. reflexivity.
    + vm_compute. reflexivity.
    + apply Hwalked.
      * vm_compute. reflexivity.
      * reflexivity.
      * right. exists "staticresource", Sample.staticresource.
        split; [vm_compute; reflexivity |].
        split; [discriminate |].
        split; [vm_compute; reflexivity |].
        right. vm_compute. reflexivity.
  - destruct (denied_path_resolves_to_nothing
                SampleTree.utils Sample.registryData SampleTree.container
                (fun _ => SampleTree.denying [["staticresources"; "foo"; "sub"]])
                SampleTree.getAdapter 2 ["staticresources"; "foo"; "sub"])
      as (_ & _ & Hredirected).
    + vm_compute. reflexivity.
    + vm_compute. reflexivity.
    + apply (Hredirected ["staticresources"; "foo.resource-meta.xml"]).
      * vm_compute. reflexivity.
      * reflexivity.
      * exists "staticresource", Sample.staticresource.
        split; [vm_compute; reflexivity |].
        split; [discriminate |].
        split; [vm_compute; reflexivity |].
        split; [vm_compute; discriminate |].
        split; [vm_compute; reflexivity |].
        split; [vm_compute; discriminate | discriminate].
Defined.

(** C8, refuted as stated: the directory [staticresources/foo/sub] is
    denied; it lies inside the static resource [foo], so the resolver
    fetches that resource's descriptor instead of walking the directory,
    the descriptor is not denied, and with an adapter that builds the
    resource from its descriptor the resource is returned. *)
Lemma denied_directory_inside_mixed_content_resolves :
  let fsPath := ["staticresources"; "foo"; "sub"] in
  let forceIgnore := SampleTree.denying [fsPath] in
  RegistryAccess.denies forceIgnore fsPath = true
  /\ exists_ SampleTree.container fsPath = Returns true
  /\ isDirectory SampleTree.container fsPath = Returns true
  /\ RegistryAccess.getComponentsFromPath
       SampleTree.utils Sample.registryData SampleTree.container
       (fun _ => forceIgnore) SampleTree.getAdapter 5 fsPath
     = Returns
         [ {| RegistryAccess.fullName := "foo";
              RegistryAccess.type := Sample.staticresource;
              RegistryAccess.xml := ["staticresources"; "foo.resource-meta.xml"];
              RegistryAccess.sources := [] |} ].
Proof. vm_compute. repeat split; reflexivity. Qed.

(** Inside the static resource [foo], the first descriptor resolves to a
    static resource and ends the walk of the directory. *)
Lemma walk_stops_at_mixed_content_component_witness :
  RegistryAccess.getComponentsFromPathRecursive
    SampleTree.utils Sample.registryData SampleTree.container SampleTree.getAdapter
    1 (SampleTree.denying []) ["staticresources"; "foo"]
  = Returns
      [ {| RegistryAccess.fullName := "b";
           RegistryAccess.type := Sample.staticresource;
           RegistryAccess.xml := ["staticresources"; "foo"; "b.resource-meta.xml"];
           RegistryAccess.sources := [] |} ].
Proof.
  apply (walk_stops_at_mixed_content_component
           SampleTree.utils Sample.registryData SampleTree.container SampleTree.getAdapter
           0 (SampleTree.denying []) ["staticresources"; "foo"]
           [] ["c.resource-meta.xml"; "sub"] "b.resource-meta.xml" [] []).
  - reflexivity.
  - reflexivity.
  - intros _. simpl. lia.
  - vm_compute. reflexivity.
  - vm_compute. reflexivity.
  - vm_compute. reflexivity.
  - vm_compute. reflexivity.
  - vm_compute. eexists. reflexivity.
  - vm_compute. reflexivity.
  - vm_compute. reflexivity.
  - vm_compute. congruence.
Defined.

(** C9, on the remote-listing tree. The path [lib/b.cls] is not in the
    listing, and neither is its parent [lib]: [exists] reads [has] off the
    absent entry of [lib], and the resolver ends in that TypeError, not in
    path-not-found. A missing path whose parent is listed is reported as
    not found. *)
Lemma github_missing_parent_is_a_TypeError :
  let resolve :=
    RegistryAccess.getComponentsFromPath
      SampleTree.utils Sample.registryData SampleTree.container
      (fun _ => SampleTree.denying []) SampleTree.getAdapter 5 in
  (forall entry, entry ∈ SampleTree.listing -> fst entry <> ["lib"; "b.cls"])
  /\ resolve ["lib"; "b.cls"] = Throws TypeError
  /\ resolve ["classes"; "b.cls"]
     = Throws (TypeInferenceError error_path_not_found ["classes"; "b.cls"]).
Proof.
  split; [| split].
  - intros entry Hin. unfold SampleTree.listing in Hin.
    repeat (apply elem_of_cons in Hin as [-> | Hin]; [simpl; congruence |]).
    inversion Hin.
  - apply exists_failure_propagates. vm_compute. reflexivity.
  - apply missing_path_is_not_found. vm_compute. reflexivity.
Qed.

(** X29. On the local file system, [exists] always answers, so a path that
    does not exist is reported as not found. *)
Lemma local_missing_path_is_not_found
      (utils : PathUtils) (data : MetadataRegistry) (fs : FileSystem)
      (findAndCreate : SourcePath -> RegistryAccess.ForceIgnore)
      (getAdapter : MetadataType -> JsObject.Value -> FileContainer ->
                    RegistryAccess.ForceIgnore ->
                    Completion RegistryAccess.SourceAdapter)
      (fuel : nat) (fsPath : SourcePath) :
  existsSync fs fsPath = false ->
  RegistryAccess.getComponentsFromPath utils data (LocalFileContainer fs)
    findAndCreate getAdapter fuel fsPath
  = Throws (TypeInferenceError error_path_not_found fsPath).
Proof. intros H. apply missing_path_is_not_found. simpl. now rewrite H. Qed.

(** ** Tree containers: the descriptor of a content path *)

(** A path that has the segment [x] splits at its first occurrence. *)
Lemma split_at_first_occurrence (x : string) (path : list string) :
  x ∈ path -> exists pre rest, path = pre ++ x :: rest /\ x ∉ pre.
Proof.
  induction path as [| y path IH]; intros H.
  - inversion H.
  - destruct (decide (y = x)) as [-> | Hne].
    + exists [], path. split; [reflexivity | apply not_elem_of_nil].
    + apply elem_of_cons in H as [-> | H]; [congruence |].
      destruct (IH H) as (pre & rest & -> & Hpre).
      exists (y :: pre), rest. split; [reflexivity |].
      apply not_elem_of_cons. split; [congruence | assumption].
Qed.

Lemma firstn_past_prefix {A} (pre rest : list A) (n : nat) :
  firstn (length pre + n) (pre ++ rest) = pre ++ firstn n rest.
Proof. apply firstn_app_2. Qed.

Lemma find_truthy (p : string -> bool) (files : list string) (f : string) :
  "" ∉ files -> List.find p files = Some f -> JsString.truthy (Some f) = true.
Proof.
  intros Hne E. apply find_some in E as [Hin _]. simpl.
  destruct (String.eqb_spec f "") as [-> | _]; [| reflexivity].
  exfalso. apply Hne. now apply list_elem_of_In.
Qed.

Lemma plain_names_not_empty (files : list string) :
  forallb Path.plain files = true -> "" ∉ files.
Proof.
  intros H Hin. rewrite forallb_forall in H.
  apply list_elem_of_In, H in Hin. vm_compute in Hin. discriminate.
Qed.

(** C7. Let the content path be [pre], then the type's directory name
    (which does not occur in [pre]), then [rest]. The root content path is
    the content path cut after the directory name and one more segment,
    two more for a folder-scoped type; let it be a normalized path, and
    let its parent directory list plain names. The call returns, of the
    files listed in the root's parent directory, the first one whose name
    begins with the root's base name and that is a metadata descriptor,
    as a path in that directory; it returns nothing when there is no such
    file. *)
Theorem findXmlFromContentPath_locates_descriptor
        (utils : PathUtils) (this : FileContainer) (ty : MetadataType)
        (pre rest : list string) (files : list string) :
  let contentPath := pre ++ directoryName ty :: rest in
  let root :=
    pre ++ directoryName ty :: firstn (if inFolder ty then 2 else 1) rest in
  let dir := Path.dirname root in
  directoryName ty ∉ pre ->
  Path.normalized root = true ->
  readDir this dir = Returns files ->
  forallb Path.plain files = true ->
  BaseFileContainer.findXmlFromContentPath utils this contentPath ty
  = Returns
      (Path.join dir
         <$> List.find
               (fun f =>
                  JsString.startsWith f (baseName utils root)
                  && bool_decide (is_Some (parseMetadataXml utils (Path.join dir f))))
               files).
Proof.
  intros contentPath root dir Hpre _ Hread Hnames.
  apply plain_names_not_empty in Hnames.
  unfold BaseFileContainer.findXmlFromContentPath. cbv zeta.
  assert (Hidx : Path.findIndex (directoryName ty) contentPath
                 = Z.of_nat (length pre))
    by apply (findIndex_first _ _ _ Hpre).
  rewrite Hidx.
  assert (Hroot : Path.slice0 (Z.of_nat (length pre) + (if inFolder ty then 3 else 2))
                              contentPath = root).
  { unfold Path.slice0, contentPath, root.
    replace (Z.to_nat (Z.of_nat (length pre) + (if inFolder ty then 3 else 2)))
      with (length pre + S (if inFolder ty then 2 else 1))
      by (destruct (inFolder ty); lia).
    now rewrite firstn_past_prefix. }
  rewrite Hroot. fold dir.
  unfold BaseFileContainer.findMetadataXml, BaseFileContainer.find.
  rewrite Hread. simpl.
  unfold BaseFileContainer.findPredicate.
  destruct (List.find _ files) as [f |] eqn:E; [| reflexivity].
  now rewrite (find_truthy _ _ _ Hnames E).
Qed.

(** A content path three levels under the directory of the folder-scoped
    type Document: the descriptor is that of [summary], in the folder
    [reports]. *)
Lemma findXmlFromContentPath_locates_descriptor_witness :
  BaseFileContainer.findXmlFromContentPath SampleTree.utils SampleTree.container
    ["documents"; "reports"; "summary"; "one.txt"] Sample.document
  = Returns (Some ["documents"; "reports"; "summary.document-meta.xml"]).
Proof.
  apply (findXmlFromContentPath_locates_descriptor
           SampleTree.utils SampleTree.container Sample.document
           [] ["reports"; "summary"; "one.txt"]
           ["summary.document-meta.xml"; "summary"]).
  - vm_compute. inversion 1.
  - reflexivity.
  - vm_compute. reflexivity.
  - reflexivity.
Defined.

(** ** Type inference *)

Section Inference.
Import RegistryAccess InferenceSpec.
Variable utils : PathUtils.
Variable data : MetadataRegistry.
Hypothesis Hvalid : validTablesb data = true.

Lemma valid_mixedContent (entry : string * string) :
  entry ∈ mixedContent data ->
  snd entry <> ""
  /\ exists ty, Registry.getTypeFromName data (snd entry) = Returns ty.
Proof.
  intros Hin. unfold validTablesb in Hvalid.
  apply andb_true_iff in Hvalid as [H _].
  rewrite forallb_forall in H. apply list_elem_of_In, H in Hin.
  apply andb_true_iff in Hin as [Hne Hty]. split.
  - intros E. rewrite E in Hne. discriminate.
  - destruct (Registry.getTypeFromName data (snd entry)); try discriminate. eauto.
Qed.

Lemma valid_suffixes (s t : string) : suffixes data !! s = Some t -> t <> "".
Proof.
  intros Hs. unfold validTablesb in Hvalid.
  apply andb_true_iff in Hvalid as [_ H].
  rewrite forallb_forall in H.
  apply elem_of_map_to_list, list_elem_of_In, H in Hs. simpl in Hs.
  intros ->. discriminate.
Qed.

Lemma truthy_suffix (s t : string) :
  suffixes data !! s = Some t -> JsString.truthy (Some t) = true.
Proof.
  intros E. apply valid_suffixes in E. simpl.
  now destruct (String.eqb_spec t "").
Qed.

Lemma mixedContentGet_skip (skipped rest : list (string * string)) (k : string) :
  (forall e, e ∈ skipped -> fst e <> k) ->
  mixedContentGet (skipped ++ rest) k = mixedContentGet rest k.
Proof.
  induction skipped as [| [k' v'] skipped IH]; intros H; simpl; [reflexivity |].
  destruct (String.eqb_spec k' k) as [E | _].
  - exfalso. apply (H (k', v')); [left | exact E].
  - apply IH. intros e He. apply H. now right.
Qed.

Lemma find_skip {A} (p : A -> bool) (skipped rest : list A) :
  (forall e, e ∈ skipped -> p e = false) ->
  List.find p (skipped ++ rest) = List.find p rest.
Proof.
  induction skipped as [| x skipped IH]; intros H; simpl; [reflexivity |].
  rewrite (H x) by left. apply IH. intros e He. apply H. now right.
Qed.

(** The loop of attempt 1 finds what strategy 1 describes. *)
Lemma mixedContentAttempt_match (fsPath : SourcePath)
      (rest skipped : list (string * string)) :
  mixedContent data = skipped ++ rest ->
  (forall e, e ∈ skipped -> Path.setHas (fst e) fsPath = false) ->
  mixedContentAttempt utils data (map fst rest) fsPath
  = Returns (JsObject.ofOption (mixedContentMatch utils data fsPath)).
Proof.
  revert skipped. induction rest as [| [k v] rest IH]; intros skipped Htable Hskip.
  - simpl. unfold mixedContentMatch. rewrite Htable, find_skip by assumption.
    reflexivity.
  - cbn [map fst mixedContentAttempt].
    destruct (Path.setHas k fsPath) eqn:Hk.
    + assert (Hget : mixedContentGet (mixedContent data) k = Some v).
      { rewrite Htable, mixedContentGet_skip.
        - simpl. now rewrite String.eqb_refl.
        - intros e He <-. specialize (Hskip e He). congruence. }
      rewrite Hget.
      destruct (valid_mixedContent (k, v)) as [_ [ty Hty]].
      { rewrite Htable. apply elem_of_app. right. left. }
      simpl in Hty. unfold getTypeFromName. rewrite Hty. simpl.
      unfold mixedContentMatch. rewrite Htable, find_skip by assumption.
      simpl. rewrite Hk. unfold folderScoped. rewrite Hty.
      now destruct (inFolder ty && _).
    + apply (IH (skipped ++ [(k, v)])).
      * now rewrite <- app_assoc.
      * intros e He. apply elem_of_app in He as [He | He]; [now apply Hskip |].
        apply list_elem_of_singleton in He. now subst.
Qed.

Lemma mixedContentMatch_truthy (fsPath : SourcePath) (typeId : string) :
  mixedContentMatch utils data fsPath = Some typeId ->
  JsObject.truthy (JsObject.own typeId) = true.
Proof.
  unfold mixedContentMatch.
  destruct (List.find _ (mixedContent data)) as [[k v] |] eqn:E; [| discriminate].
  apply find_some in E as [Hin _].
  destruct (valid_mixedContent (k, v)) as [Hne _]; [now apply list_elem_of_In |].
  destruct (folderScoped data v && _); [discriminate |].
  intros [= <-]. simpl in *. now destruct (String.eqb_spec v "").
Qed.

Lemma get_not_inherited (table : gmap string string) (key : string) :
  JsObject.inherited key = false ->
  JsObject.get table key = JsObject.ofOption (table !! key).
Proof.
  intros H. unfold JsObject.get, JsObject.absent. rewrite H.
  now destruct (table !! key).
Qed.

(** On a registry whose tables are valid, and for a path whose descriptor
    suffix and whose extension are not property names of
    [Object.prototype], [determineTypeId] returns what the first matching
    strategy gives, in the order mixed-content directory, descriptor
    suffix, raw extension, and nothing when none matches. *)
Lemma determineTypeId_first_match (fsPath : SourcePath) :
  (forall parsed, parseMetadataXml utils fsPath = Some parsed ->
                  JsObject.inherited (mx_suffix parsed) = false) ->
  JsObject.inherited (extName utils fsPath) = false ->
  determineTypeId utils data fsPath
  = Returns (JsObject.ofOption (firstMatch utils data fsPath)).
Proof.
  intros Hsuffix Hext. unfold determineTypeId.
  rewrite (mixedContentAttempt_match fsPath (mixedContent data) [])
    by (reflexivity || (intros e He; inversion He)).
  cbn [mbind Completion_bind bind]. cbv zeta.
  unfold firstMatch, descriptorSuffixMatch, extensionMatch.
  rewrite (get_not_inherited _ _ Hext).
  destruct (mixedContentMatch utils data fsPath) as [typeId |] eqn:E1.
  - pose proof (mixedContentMatch_truthy _ _ E1) as Ht.
    cbn [JsObject.ofOption]. rewrite Ht. cbn [negb]. now rewrite Ht.
  - cbn [JsObject.ofOption JsObject.truthy negb].
    destruct (parseMetadataXml utils fsPath) as [parsed |] eqn:Hp; [| reflexivity].
    rewrite (get_not_inherited _ _ (Hsuffix parsed eq_refl)).
    destruct (suffixes data !! mx_suffix parsed) as [t |] eqn:E2; [| reflexivity].
    cbn [JsObject.ofOption].
    pose proof (truthy_suffix _ _ E2) as Ht. cbn [JsString.truthy] in Ht.
    cbn [JsObject.truthy]. now rewrite Ht.
Qed.
End Inference.

(** The first strategy on the sample registry: a file inside a static
    resource is of the type of static resources, whatever its extension. *)
Lemma determineTypeId_first_match_witness :
  RegistryAccess.determineTypeId SampleTree.utils Sample.registryData
    ["staticresources"; "foo"; "sub"; "a.js"]
  = Returns (JsObject.own "staticresource").
Proof.
  apply (determineTypeId_first_match SampleTree.utils Sample.registryData).
  - vm_compute. reflexivity.
  - intros parsed H. vm_compute in H. discriminate.
  - vm_compute. reflexivity.
Defined.

(** The other strategies: a class descriptor, a class file, a folder of
    documents and a file of unknown kind. *)
Lemma determineTypeId_examples :
  RegistryAccess.determineTypeId SampleTree.utils Sample.registryData
    ["classes"; "Foo.cls-meta.xml"] = Returns (JsObject.own "apexclass")
  /\ RegistryAccess.determineTypeId SampleTree.utils Sample.registryData
       ["classes"; "Foo.cls"] = Returns (JsObject.own "apexclass")
  /\ RegistryAccess.determineTypeId SampleTree.utils Sample.registryData
       ["documents"; "reports"] = Returns JsObject.undefined
  /\ RegistryAccess.determineTypeId SampleTree.utils Sample.registryData
       ["notes"; "readme.txt"] = Returns JsObject.undefined.
Proof. vm_compute. repeat split; reflexivity. Qed.

(** C5, at a descriptor whose embedded suffix is [constructor]. The
    suffix table has no entry for it, the file has no other extension
    that the table knows and lies in no mixed-content directory: no
    strategy matches. The second strategy reads
    [this.data.suffixes['constructor']] off a plain object, which gives
    the function that every object inherits; that value is truthy, so it
    is what [determineTypeId] returns, and [fetchComponent] ends in the
    TypeError of calling [toLowerCase] on it, not in
    could-not-infer-type. *)
Lemma determineTypeId_returns_inherited_property :
  parseMetadataXml SampleTree.utils ["classes"; "Foo.constructor-meta.xml"]
  = Some {| mx_fullName := "Foo"; mx_suffix := "constructor" |}
  /\ suffixes Sample.registryData !! "constructor" = None
  /\ InferenceSpec.firstMatch SampleTree.utils Sample.registryData
       ["classes"; "Foo.constructor-meta.xml"]
     = None
  /\ RegistryAccess.determineTypeId SampleTree.utils Sample.registryData
       ["classes"; "Foo.constructor-meta.xml"]
     = Returns (JsObject.fromPrototype "constructor")
  /\ RegistryAccess.fetchComponent
       SampleTree.utils Sample.registryData SampleTree.container
       SampleTree.getAdapter (SampleTree.denying [])
       ["classes"; "Foo.constructor-meta.xml"]
     = Throws TypeError.
Proof. vm_compute. repeat split; reflexivity. Qed.

(** ** Manifests: grouping *)

Section Grouping.
Import ManifestSpec.

Lemma OMap_get_app_absent {V} (k : string) (m m' : OMap.t V) :
  k ∉ OMap.keys m -> OMap.get k (m ++ m') = OMap.get k m'.
Proof.
  induction m as [| [a va] m IH]; simpl; intros H; [reflexivity |].
  apply not_elem_of_cons in H as [Hne H].
  destruct (String.eqb_spec a k); [congruence | now apply IH].
Qed.

Lemma OMap_set_app_absent {V} (k : string) (v : V) (m m' : OMap.t V) :
  k ∉ OMap.keys m -> OMap.set k v (m ++ m') = m ++ OMap.set k v m'.
Proof.
  induction m as [| [a va] m IH]; simpl; intros H; [reflexivity |].
  apply not_elem_of_cons in H as [Hne H].
  destruct (String.eqb_spec a k); [congruence |]. now rewrite IH.
Qed.

Lemma OMap_elem_of_set {V} (k : string) (v : V) (m : OMap.t V) (b : string * V) :
  b ∈ OMap.set k v m -> b = (k, v) \/ b ∈ m.
Proof.
  induction m as [| [a va] m IH]; simpl; intros H.
  - apply list_elem_of_singleton in H. now left.
  - destruct (String.eqb_spec a k) as [-> | Hne].
    + apply elem_of_cons in H as [-> | H]; [now left | right; now right].
    + apply elem_of_cons in H as [-> | H]; [right; left |].
      destruct (IH H) as [? | ?]; [now left | right; now right].
Qed.

Lemma NoDup_snocNew (acc : list string) (x : string) :
  NoDup acc -> NoDup (Distinct.snocNew acc x).
Proof.
  intros H. unfold Distinct.snocNew. destruct (existsb _ acc) eqn:E; [assumption |].
  apply existsb_eqb_not_elem_of in E. apply NoDup_app. repeat split; try assumption.
  - intros a Ha Hx. apply list_elem_of_singleton in Hx. now subst.
  - apply NoDup_singleton.
Qed.

Lemma wellGrouped_push (blocks : list (string * list string)) (pair : string * string) :
  wellGrouped blocks -> wellGrouped (pushMember blocks pair).
Proof.
  intros [Hnd Hne]. destruct pair as [n m]. unfold pushMember. split.
  - change (map fst (OMap.set n ?v blocks)) with (OMap.keys (OMap.set n v blocks)).
    rewrite OMap_keys_set. now apply NoDup_snocNew.
  - intros b Hb. apply OMap_elem_of_set in Hb as [-> | Hb]; [| now apply Hne].
    simpl. now destruct (default [] (OMap.get n blocks)).
Qed.

Lemma wellGrouped_fold (pairs : list (string * string))
      (blocks : list (string * list string)) :
  wellGrouped blocks -> wellGrouped (fold_left pushMember pairs blocks).
Proof.
  revert blocks. induction pairs as [| p pairs IH]; intros blocks H; simpl.
  - assumption.
  - apply IH. now apply wellGrouped_push.
Qed.

Lemma wellGrouped_groupPairs (pairs : list (string * string)) :
  wellGrouped (groupPairs pairs).
Proof.
  apply wellGrouped_fold. split; [constructor | intros b Hb; inversion Hb].
Qed.

(** Pushing the members of one block, in order, onto blocks that do not
    have its name. *)
Lemma push_block_open (blocks : list (string * list string)) (n : string)
      (acc ms : list string) :
  n ∉ map fst blocks ->
  fold_left pushMember (map (fun m => (n, m)) ms) (blocks ++ [(n, acc)])
  = blocks ++ [(n, acc ++ ms)].
Proof.
  intros Hn. revert acc. induction ms as [| m ms IH]; intros acc; simpl.
  - now rewrite app_nil_r.
  - rewrite OMap_get_app_absent by assumption. simpl. rewrite String.eqb_refl. simpl.
    rewrite OMap_set_app_absent by assumption. simpl. rewrite String.eqb_refl.
    rewrite IH. now rewrite <- app_assoc.
Qed.

Lemma push_block (blocks : list (string * list string)) (n : string) (ms : list string) :
  n ∉ map fst blocks -> ms <> [] ->
  fold_left pushMember (map (fun m => (n, m)) ms) blocks = blocks ++ [(n, ms)].
Proof.
  intros Hn Hms. destruct ms as [| m ms]; [congruence |]. simpl.
  assert (Hget : OMap.get n blocks = None) by now apply OMap_get_None_keys.
  rewrite Hget. simpl.
  replace (OMap.set n [m] blocks) with (blocks ++ [(n, [m])]).
  - now rewrite push_block_open.
  - rewrite <- (app_nil_r blocks) at 2.
    now rewrite OMap_set_app_absent.
Qed.

(** Grouping the pairs of well-grouped blocks gives the blocks back. *)
Lemma groupPairs_ungroup (blocks : list (string * list string)) :
  wellGrouped blocks -> groupPairs (ungroup blocks) = blocks.
Proof.
  induction blocks as [| [n ms] blocks IH] using rev_ind; intros [Hnd Hne].
  - reflexivity.
  - unfold groupPairs, ungroup in *. rewrite flat_map_app, fold_left_app. simpl.
    rewrite app_nil_r. rewrite map_app in Hnd. apply NoDup_app in Hnd as (Hnd & Hnot & _).
    rewrite IH.
    + apply push_block.
      * intros Hin. apply (Hnot n Hin). simpl. left.
      * apply (Hne (n, ms)). apply elem_of_app. right. left.
    + split; [assumption |]. intros b Hb. apply Hne, elem_of_app. now left.
Qed.
End Grouping.

(** ** Manifests: the round trip *)

Section RoundTrip.
Import ComponentSet ManifestSpec.

Lemma mapC_app {A B} (f : A -> Completion B) (l1 l2 : list A) :
  mapC f (l1 ++ l2)
  = ys1 ← mapC f l1; ys2 ← mapC f l2; Returns (ys1 ++ ys2).
Proof.
  induction l1 as [| x l1 IH]; simpl.
  - now destruct (mapC f l2).
  - destruct (f x); try reflexivity. simpl. rewrite IH.
    destruct (mapC f l1); try reflexivity. simpl.
    now destruct (mapC f l2).
Qed.

Lemma forEach_collect {A B} (f : A -> Completion B) (xs : list A) (acc : list B) :
  forEach (fun acc x => c ← f x; Returns (acc ++ [c])) xs acc
  = ys ← mapC f xs; Returns (acc ++ ys).
Proof.
  revert acc. induction xs as [| x xs IH]; intros acc; simpl.
  - now rewrite app_nil_r.
  - destruct (f x); try reflexivity. simpl. rewrite IH.
    destruct (mapC f xs); try reflexivity. simpl. now rewrite <- app_assoc.
Qed.

Lemma forEach_collect_nested {A B C} (f : A -> B -> Completion C)
      (g : A -> list B) (xs : list A) (acc : list C) :
  forEach (fun acc x => forEach (fun acc y => c ← f x y; Returns (acc ++ [c])) (g x) acc)
          xs acc
  = ys ← mapC (fun p => f (fst p) (snd p))
              (flat_map (fun x => map (fun y => (x, y)) (g x)) xs);
    Returns (acc ++ ys).
Proof.
  revert acc. induction xs as [| x xs IH]; intros acc; simpl.
  - now rewrite app_nil_r.
  - rewrite forEach_collect, mapC_app.
    assert (E : mapC (fun p : A * B => f (fst p) (snd p)) (map (fun y => (x, y)) (g x))
                = mapC (f x) (g x)).
    { induction (g x) as [| y l IHl]; simpl; [reflexivity |]. now rewrite IHl. }
    rewrite E. destruct (mapC (f x) (g x)); try reflexivity. simpl.
    rewrite IH. destruct (mapC _ (flat_map _ xs)); try reflexivity. simpl.
    now rewrite <- app_assoc.
Qed.

Lemma mapC_map {A B C} (f : B -> Completion C) (h : A -> B) (l : list A) :
  mapC f (map h l) = mapC (fun x => f (h x)) l.
Proof. induction l as [| x l IH]; simpl; [reflexivity |]. now rewrite IH. Qed.

Lemma ungroup_blocks (tms : list PackageTypeMembers) :
  ungroup (map (fun tm => (ptm_name tm, toArray (members tm))) tms)
  = map (fun p => (ptm_name (fst p), snd p))
        (flat_map (fun tm => map (fun y => (tm, y)) (toArray (members tm))) tms).
Proof.
  unfold ungroup. induction tms as [| tm tms IH]; simpl; [reflexivity |].
  rewrite map_app, map_map, IH. reflexivity.
Qed.

(** The components of a manifest object depend on its blocks only. *)
Lemma getComponentsFromManifestObject_blocks
      (obj : PackageManifestObject) (reg : MetadataRegistry) :
  getComponentsFromManifestObject obj reg
  = mapC (fun p => manifestMember reg (fst p) (snd p)) (ungroup (blocksOf obj)).
Proof.
  unfold getComponentsFromManifestObject.
  rewrite (forEach_collect_nested
             (fun tm fullName => manifestMember reg (ptm_name tm) fullName)
             (fun tm => toArray (members tm))).
  unfold blocksOf. rewrite ungroup_blocks, mapC_map. simpl.
  now destruct (mapC _ _).
Qed.

Lemma getObjectStep_push (s : t) (typeMap : OMap.t (list string)) (key : string) :
  getObjectStep s typeMap key
  = pair ← keyPair (registry s) key; Returns (pushMember typeMap pair).
Proof.
  unfold getObjectStep, keyPair, listedType.
  destruct (splitKey key) as [typeId fullName].
  destruct (Registry.getTypeByName (registry s) typeId) as [ty | |]; try reflexivity.
  simpl.
  destruct (if JsString.truthy (folderContentType ty) then _ else _) as [ty' | |];
    try reflexivity.
  simpl. f_equal. unfold OMap.has.
  destruct (OMap.get (name ty') typeMap) eqn:G; simpl.
  - now rewrite G.
  - now rewrite OMap_get_set_eq, OMap_set_set.
Qed.

Lemma forEach_getObjectStep (s : t) (keys : list string) (typeMap : OMap.t (list string)) :
  forEach (getObjectStep s) keys typeMap
  = pairs ← mapC (keyPair (registry s)) keys;
    Returns (fold_left pushMember pairs typeMap).
Proof.
  revert typeMap. induction keys as [| key keys IH]; intros typeMap; simpl.
  - reflexivity.
  - rewrite getObjectStep_push.
    destruct (keyPair (registry s) key); try reflexivity. simpl.
    rewrite IH. now destruct (mapC _ keys).
Qed.

Lemma blocksOf_typeMembers (typeMap : OMap.t (list string)) (v : string)
      (attrs : list (string * string)) :
  blocksOf {| pkg_types := Many (map typeMembersOf (OMap.entries typeMap));
              pkg_version := v; pkg_attributes := attrs |}
  = typeMap.
Proof.
  unfold blocksOf, OMap.entries. simpl. rewrite map_map.
  rewrite <- (map_id typeMap) at 2. apply map_ext. now intros [n ms].
Qed.

(** The blocks of [getObject] are the grouping of the keys' pairs. *)
Lemma getObject_blocks (s : t) (obj : PackageManifestObject) :
  getObject s = Returns obj ->
  exists pairs,
    mapC (keyPair (registry s)) (OMap.keys (components s)) = Returns pairs
    /\ blocksOf obj = groupPairs pairs.
Proof.
  unfold getObject. rewrite forEach_getObjectStep.
  destruct (mapC _ _) as [pairs | |]; try discriminate. simpl.
  intros [= <-]. exists pairs. split; [reflexivity |].
  apply blocksOf_typeMembers.
Qed.

Section Coherent.
Variable reg : MetadataRegistry.
Hypothesis Hcoherent : coherentb reg = true.

Lemma registered_coherent (ty : MetadataType) :
  registered reg ty -> coherentType reg ty = true.
Proof.
  intros [k Hk]. unfold coherentb in Hcoherent.
  rewrite forallb_forall in Hcoherent.
  apply elem_of_map_to_list, list_elem_of_In, Hcoherent in Hk. exact Hk.
Qed.

Lemma getTypeByName_registered (n : string) (ty : MetadataType) :
  Registry.getTypeByName reg n = Returns ty -> registered reg ty.
Proof.
  unfold Registry.getTypeByName, Registry.getTypeFromName.
  destruct (types reg !! _) as [ty' |] eqn:E; [| discriminate].
  intros [= <-]. now exists (JsString.removeSpaces (JsString.toLowerCase n)).
Qed.

Lemma returnsType_eq (c : Completion MetadataType) (ty : MetadataType) :
  returnsType c ty = true -> c = Returns ty.
Proof.
  destruct c as [ty' | |]; simpl; try discriminate.
  intros H. apply bool_decide_eq_true_1 in H. now subst.
Qed.

(** A type that [getObject] lists is registered and is not a folder
    type. *)
Lemma listedType_final (ty ty' : MetadataType) :
  registered reg ty -> listedType reg ty = Returns ty' ->
  registered reg ty' /\ JsString.truthy (folderContentType ty') = false.
Proof.
  intros Hreg. pose proof (registered_coherent ty Hreg) as Hc.
  unfold coherentType in Hc. apply andb_true_iff in Hc as [_ Hc].
  unfold listedType.
  destruct (JsString.truthy (folderContentType ty)) eqn:Hf.
  - intros Hty'. rewrite Hty' in Hc. apply negb_true_iff in Hc.
    split; [now apply (getTypeByName_registered _ _ Hty') | exact Hc].
  - intros [= <-]. now split.
Qed.

(** Reading a member back under the name of a listed type gives a
    component that is listed under that name again. *)
Lemma manifestMember_listed (ty : MetadataType) (fullName : string) :
  registered reg ty -> JsString.truthy (folderContentType ty) = false ->
  exists c, manifestMember reg (name ty) fullName = Returns c
            /\ typeNameAndMember reg c = Returns (name ty, fullName).
Proof.
  intros Hreg Hfinal. pose proof (registered_coherent ty Hreg) as Hc.
  unfold coherentType in Hc.
  apply andb_true_iff in Hc as [Hc _]. apply andb_true_iff in Hc as [Hname Hfolder].
  apply returnsType_eq in Hname.
  unfold manifestMember. rewrite Hname. simpl.
  destruct (JsString.truthy (folderType ty)) eqn:Hft; simpl.
  - destruct (Registry.getTypeByName reg (JsString.orEmpty (folderType ty)))
      as [folder | |] eqn:Hfo; try discriminate.
    apply andb_true_iff in Hfolder as [Hfc Hback].
    apply returnsType_eq in Hback.
    destruct (JsString.includes "/" fullName); simpl.
    + eexists. split; [reflexivity |]. simpl. unfold listedType.
      now rewrite Hfinal.
    + eexists. split; [reflexivity |]. simpl. unfold listedType.
      now rewrite Hfc, Hback.
  - eexists. split; [reflexivity |]. simpl. unfold listedType. now rewrite Hfinal.
Qed.

Lemma keyPair_listed (key : string) (pair : string * string) :
  keyPair reg key = Returns pair ->
  exists ty, fst pair = name ty /\ registered reg ty
             /\ JsString.truthy (folderContentType ty) = false.
Proof.
  unfold keyPair. destruct (splitKey key) as [typeId fullName].
  destruct (Registry.getTypeByName reg typeId) as [ty | |] eqn:Hty; try discriminate.
  simpl. destruct (listedType reg ty) as [ty' | |] eqn:Hl; try discriminate.
  simpl. intros [= <-]. exists ty'. split; [reflexivity |].
  apply (listedType_final ty); [| exact Hl].
  now apply (getTypeByName_registered typeId).
Qed.

Lemma mapC_keyPair_listed (keys : list string) (pairs : list (string * string)) :
  mapC (keyPair reg) keys = Returns pairs ->
  forall pair, pair ∈ pairs ->
    exists ty, fst pair = name ty /\ registered reg ty
               /\ JsString.truthy (folderContentType ty) = false.
Proof.
  revert pairs. induction keys as [| key keys IH]; simpl; intros pairs H pair Hin.
  - injection H as <-. inversion Hin.
  - destruct (keyPair reg key) as [p | |] eqn:Hp; try discriminate. simpl in H.
    destruct (mapC (keyPair reg) keys) as [ps | |]; try discriminate.
    injection H as <-. apply elem_of_cons in Hin as [-> | Hin].
    + now apply (keyPair_listed key).
    + now apply (IH ps).
Qed.

Lemma mapC_round (pairs : list (string * string)) :
  (forall pair, pair ∈ pairs ->
     exists ty, fst pair = name ty /\ registered reg ty
                /\ JsString.truthy (folderContentType ty) = false) ->
  exists cs, mapC (fun p => manifestMember reg (fst p) (snd p)) pairs = Returns cs
             /\ mapC (typeNameAndMember reg) cs = Returns pairs.
Proof.
  induction pairs as [| [n m] pairs IH]; intros H.
  - exists []. split; reflexivity.
  - destruct (H (n, m)) as (ty & Hn & Hreg & Hfinal); [left |]. simpl in Hn. subst n.
    destruct (manifestMember_listed ty m Hreg Hfinal) as (c & Hc & Hback).
    destruct IH as (cs & Hcs & Hbacks); [intros p Hp; apply H; now right |].
    exists (c :: cs). simpl. rewrite Hc, Hcs. simpl. rewrite Hback, Hbacks.
    split; reflexivity.
Qed.
End Coherent.
End RoundTrip.

Lemma names_of_pushed (pairs : list (string * string))
      (blocks : list (string * list string)) (n : string) :
  n ∈ map fst (fold_left ManifestSpec.pushMember pairs blocks) ->
  n ∈ map fst blocks \/ n ∈ map fst pairs.
Proof.
  revert blocks. induction pairs as [| [k m] pairs IH]; intros blocks H; simpl in *.
  - now left.
  - apply IH in H as [H | H]; [| right; now right].
    unfold ManifestSpec.pushMember in H.
    change (map fst (OMap.set k ?v blocks)) with (OMap.keys (OMap.set k v blocks)) in H.
    rewrite OMap_keys_set in H. apply elem_of_snocNew in H as [H | ->].
    + now left.
    + right. left.
Qed.

Lemma name_of_ungrouped (blocks : list (string * list string)) (pair : string * string) :
  pair ∈ ManifestSpec.ungroup blocks -> fst pair ∈ map fst blocks.
Proof.
  intros H. apply list_elem_of_In, in_flat_map in H as (b & Hb & Hin).
  apply in_map_iff in Hin as (m & <- & _). simpl.
  apply list_elem_of_In, in_map, Hb.
Qed.

(** Let the registry of the set be coherent, let [getObject] return
    [obj], let [getPackageXml] return [doc], and let the xml library read
    back, from what it serialized for [obj] with the namespace attribute,
    an object with the type blocks of [obj]. Then reading the components
    off the parsed document succeeds, and grouping them by type name, a
    folder type counting as the type of its content, gives the blocks of
    [obj]: the same type names in the same order, each with the same
    members in the same order. *)
Lemma manifest_round_trip
        (XML_DECL XML_NS_KEY XML_NS_URL : string)
        (j2xParse : nat -> PackageManifestObject -> string)
        (parseXml : string -> PackageManifestObject)
        (indentation : nat) (X : ComponentSet.t)
        (obj : PackageManifestObject) (doc : string) :
  ManifestSpec.coherentb (ComponentSet.registry X) = true ->
  ComponentSet.getObject X = Returns obj ->
  ComponentSet.getPackageXml XML_DECL XML_NS_KEY XML_NS_URL j2xParse indentation X
  = Returns doc ->
  ManifestSpec.blocksOf
    (parseXml
       (XML_DECL
        +:+ j2xParse indentation
              {| pkg_types := pkg_types obj;
                 pkg_version := pkg_version obj;
                 pkg_attributes := pkg_attributes obj ++ [(XML_NS_KEY, XML_NS_URL)] |}))
  = ManifestSpec.blocksOf obj ->
  exists cs,
    ComponentSet.getComponentsFromManifestObject (parseXml doc) (ComponentSet.registry X)
    = Returns cs
    /\ ManifestSpec.groupings (ComponentSet.registry X) cs
       = Returns (ManifestSpec.blocksOf obj).
Proof.
  intros Hcoherent Hobj Hdoc Hxml.
  unfold ComponentSet.getPackageXml in Hdoc. rewrite Hobj in Hdoc.
  cbn [mbind Completion_bind bind] in Hdoc. injection Hdoc as <-.
  destruct (getObject_blocks X obj Hobj) as (pairs & Hpairs & Hblocks).
  pose proof (wellGrouped_groupPairs pairs) as Hwell.
  rewrite <- Hblocks in Hwell.
  rewrite getComponentsFromManifestObject_blocks, Hxml.
  destruct (mapC_round (ComponentSet.registry X) Hcoherent
                       (ManifestSpec.ungroup (ManifestSpec.blocksOf obj)))
    as (cs & Hcs & Hback).
  - intros pair Hin. apply name_of_ungrouped in Hin.
    rewrite Hblocks in Hin. apply names_of_pushed in Hin as [Hin | Hin];
      [inversion Hin |].
    apply list_elem_of_In, in_map_iff in Hin as (pair' & Hfst & Hin').
    rewrite <- Hfst.
    apply (mapC_keyPair_listed (ComponentSet.registry X) Hcoherent _ _ Hpairs pair').
    now apply list_elem_of_In.
  - exists cs. split; [exact Hcs |].
    unfold ManifestSpec.groupings. rewrite Hback. simpl.
    now rewrite groupPairs_ungroup.
Qed.

(** A set with two classes, a document and its folder, through the
    stand-in for the xml library. *)
Lemma manifest_round_trip_witness :
  exists cs,
    ComponentSet.getComponentsFromManifestObject
      (SampleXml.parseXml "<?xml?>ApexClass:Foo,Bar;Document:reports/summary,reports")
      Sample.registryData
    = Returns cs
    /\ ManifestSpec.groupings Sample.registryData cs
       = Returns [("ApexClass", ["Foo"; "Bar"]);
                  ("Document", ["reports/summary"; "reports"])].
Proof.
  apply (manifest_round_trip SampleXml.XML_DECL "@_xmlns" "urn:metadata"
           SampleXml.j2xParse SampleXml.parseXml 4 SampleXml.manifestSet
           {| pkg_types :=
                Many [ {| members := Many ["Foo"; "Bar"]; ptm_name := "ApexClass" |};
                       {| members := Many ["reports/summary"; "reports"];
                          ptm_name := "Document" |} ];
              pkg_version := "50.0";
              pkg_attributes := [] |}).
  - vm_compute. reflexivity.
  - vm_compute. reflexivity.
  - vm_compute. reflexivity.
  - vm_compute. reflexivity.
Defined.

Lemma forEach_map {A B S} (body : S -> B -> Completion S) (g : A -> B)
      (xs : list A) (s : S) :
  forEach body (map g xs) s = forEach (fun s x => body s (g x)) xs s.
Proof.
  revert s. induction xs as [| x xs IH]; intros s; simpl; [reflexivity |].
  destruct (body s (g x)); try reflexivity. simpl. apply IH.
Qed.

(** On an object that has its [types], the components are read as from
    an object of the declared type. *)
Lemma getComponentsFromParsedManifest_typed
      (obj : PackageManifestObject) (registry : MetadataRegistry) :
  ComponentSet.getComponentsFromParsedManifest (Some (pkg_types obj)) registry
  = ComponentSet.getComponentsFromManifestObject obj registry.
Proof.
  unfold ComponentSet.getComponentsFromParsedManifest,
    ComponentSet.getComponentsFromManifestObject, ComponentSet.toArrayOrUndefined.
  now rewrite forEach_map.
Qed.

(** C6, at the empty set. [getObject] of the empty set has an empty
    array of type blocks, and that is what [getPackageXml] hands to the
    serializer, which writes no [types] element for it; the parser then
    returns a [Package] without [types].
    [getComponentsFromManifestObject] wraps that [undefined] into a
    one-element array and destructures the element in the head of its
    loop: reading the serialized manifest back ends in a TypeError, where
    the groupings to reproduce are none. *)
Lemma empty_set_manifest_is_not_read_back
      (XML_DECL XML_NS_KEY XML_NS_URL : string)
      (j2xParse : nat -> PackageManifestObject -> string) (indentation : nat) :
  ComponentSet.getPackageXml XML_DECL XML_NS_KEY XML_NS_URL j2xParse indentation
    (ComponentSet.new [] Sample.registryData)
  = Returns
      (XML_DECL
       +:+ j2xParse indentation
             {| pkg_types := Many [];
                pkg_version := "50.0";
                pkg_attributes := [(XML_NS_KEY, XML_NS_URL)] |})
  /\ ManifestSpec.blocksOf
       {| pkg_types := Many []; pkg_version := "50.0"; pkg_attributes := [] |}
     = []
  /\ ComponentSet.getComponentsFromParsedManifest None Sample.registryData
     = Throws TypeError.
Proof. split; [reflexivity | split; reflexivity]. Qed.

(* ================================================================== *)
(** * Further properties of the component set *)
(* ================================================================== *)

Lemma existsb_snocNew (acc : list string) (x y : string) :
  existsb (String.eqb y) (Distinct.snocNew acc x)
  = existsb (String.eqb y) acc || String.eqb x y.
Proof.
  apply eq_true_iff_eq. rewrite orb_true_iff, !existsb_eqb_elem_of, elem_of_snocNew.
  rewrite String.eqb_eq. split; intros [H | H]; auto.
Qed.

Lemma has_add_key (c c' : ComponentLike) (s : ComponentSet.t) :
  ComponentSet.has c' (ComponentSet.add c s)
  = ComponentSet.has c' s
    || String.eqb (ComponentSet.simpleKey c) (ComponentSet.simpleKey c').
Proof.
  unfold ComponentSet.has. rewrite !OMap_has_keys, keys_add. apply existsb_snocNew.
Qed.

Lemma has_addAll_keys (cs : list ComponentLike) (c : ComponentLike)
      (s : ComponentSet.t) :
  ComponentSet.has c (ComponentSet.addAll cs s)
  = ComponentSet.has c s
    || existsb (fun c' => String.eqb (ComponentSet.simpleKey c')
                                     (ComponentSet.simpleKey c)) cs.
Proof.
  revert s. induction cs as [| c0 cs IH]; intros s; simpl.
  - now rewrite orb_false_r.
  - rewrite IH, has_add_key. now rewrite orb_assoc.
Qed.

(** X1. After a run of [add] calls, [has] answers true for exactly the
    components it answered true for before and those whose outer key is
    the key of a component added: no call removes a member, and none adds
    one under another key. *)
Theorem has_after_adds (cs : list ComponentLike) (c : ComponentLike)
        (s : ComponentSet.t) :
  ComponentSet.has c (ComponentSet.addAll cs s)
  = ComponentSet.has c s
    || existsb (fun c' => String.eqb (ComponentSet.simpleKey c')
                                     (ComponentSet.simpleKey c)) cs.
Proof.
  revert s. induction cs as [| c0 cs IH]; intros s; simpl.
  - now rewrite orb_false_r.
  - rewrite IH, has_add_key. now rewrite orb_assoc.
Qed.

Lemma withComponents_same (s : ComponentSet.t) :
  ComponentSet.withComponents s (ComponentSet.components s) = s.
Proof. now destruct s. Qed.

(** X2. Adding a plain member whose outer key the set already has changes
    nothing: the variants stored under the key stay. *)
Theorem add_known_member_changes_nothing
        (fullName : string) (type : TypeRef) (s : ComponentSet.t) :
  ComponentSet.has (Member fullName type) s = true ->
  ComponentSet.add (Member fullName type) s = s.
Proof.
  intros H. unfold ComponentSet.add. unfold ComponentSet.has in H. rewrite H.
  apply withComponents_same.
Qed.

Lemma add_known_member_changes_nothing_witness :
  ComponentSet.add (Member "Foo" (TypeName "ApexClass"))
    (ComponentSet.new [Source Sample.fooWithContent] Sample.registryData)
  = ComponentSet.new [Source Sample.fooWithContent] Sample.registryData.
Proof.
  apply add_known_member_changes_nothing. vm_compute. reflexivity.
Defined.

Lemma iterate_length_witness :
  length [Concrete Sample.fooWithContent; Concrete Sample.fooXmlOnly;
          Abstract "Bar" Sample.apexclass]
  = ComponentSet.size
      (ComponentSet.new [Source Sample.fooWithContent; Source Sample.fooXmlOnly;
                         Member "Bar" (TypeName "ApexClass")]
                        Sample.registryData).
Proof.
  apply (iterate_length
           (ComponentSet.new [Source Sample.fooWithContent; Source Sample.fooXmlOnly;
                              Member "Bar" (TypeName "ApexClass")]
                             Sample.registryData)).
  vm_compute. reflexivity.
Defined.

Lemma size_zero (s : ComponentSet.t) :
  ComponentSet.size s = 0 <-> ComponentSet.components s = [].
Proof.
  rewrite size_sum. destruct (ComponentSet.components s) as [| [k inner] m]; simpl.
  - tauto.
  - split; [| discriminate]. destruct (OMap.size inner); simpl; lia.
Qed.

(** X5. [retrieve] refuses, with no-components-to-retrieve, exactly the
    sets that hold no outer key; for any other set it builds the operation
    on the set itself and its registry. *)
Theorem retrieve_refuses_exactly_the_empty_set
        {Options : Type} (options : Options) (s : ComponentSet.t) :
  (ComponentSet.components s = []
   /\ ComponentSet.retrieve options s
      = inl ComponentSet.error_no_components_to_retrieve)
  \/ (ComponentSet.components s <> []
      /\ ComponentSet.retrieve options s
         = inr {| ComponentSet.op_options := options;
                  ComponentSet.op_components := s;
                  ComponentSet.op_registry := ComponentSet.registry s |}).
Proof.
  unfold ComponentSet.retrieve.
  destruct (Nat.eqb_spec (ComponentSet.size s) 0) as [E | E].
  - left. split; [now apply size_zero | reflexivity].
  - right. split; [| reflexivity]. intros H. apply E. now apply size_zero.
Qed.

Section OperationFacts.
Import ComponentSet.
Variable registryData : MetadataRegistry.
Variable getChildren : SourceComponent -> list SourceComponent.
Variable getParentType : MetadataRegistry -> TypeRef -> option MetadataType.
Variable getComponentsFromPath :
  MetadataRegistry -> SourcePath -> Completion (list SourceComponent).

Local Abbreviation getSourceComponents :=
  (getSourceComponents getChildren getParentType).

(** The stored variants, outer key after outer key. *)
Local Abbreviation storedVariants s :=
  (flat_map OMap.values (OMap.values (components s))).

Lemma sourceBacked_app (a b : list MetadataComponent) :
  sourceBacked (a ++ b) = sourceBacked a ++ sourceBacked b.
Proof. unfold sourceBacked. apply flat_map_app. Qed.

Lemma sourceBacked_Concrete (l : list SourceComponent) :
  sourceBacked (map Concrete l) = l.
Proof. induction l as [| x l IH]; simpl; [reflexivity | now rewrite IH]. Qed.

Lemma sourceBacked_iterEntry (s : t) (entry : string * OMap.t SourceComponent)
      (items : list MetadataComponent) :
  iterEntry s entry = Returns items -> sourceBacked items = OMap.values (snd entry).
Proof.
  destruct entry as [key inner]. unfold iterEntry. simpl.
  destruct inner as [| v inner]; simpl.
  - destruct (splitKey key) as [typeName fullName].
    destruct (Registry.getTypeByName _ typeName); simpl; try discriminate.
    now intros [= <-].
  - intros [= <-]. apply (sourceBacked_Concrete (snd v :: OMap.values inner)).
Qed.

Lemma sourceBacked_iterate (s : t) (items : list MetadataComponent) :
  iterate s = Returns items -> sourceBacked items = storedVariants s.
Proof.
  unfold iterate, OMap.entries, OMap.values.
  assert (H : forall es acc r,
             forEach (fun acc entry => items ← iterEntry s entry; Returns (acc ++ items))
                     es acc = Returns r ->
             sourceBacked r
             = sourceBacked acc ++ flat_map (map snd) (map snd es)).
  { induction es as [| e es IH]; simpl; intros acc r Hr.
    - injection Hr as <-. now rewrite app_nil_r.
    - destruct (iterEntry s e) as [its | |] eqn:E; try discriminate.
      simpl in Hr. apply IH in Hr. rewrite Hr, sourceBacked_app, <- app_assoc.
      now rewrite (sourceBacked_iterEntry _ _ _ E). }
  intros Hit. apply H in Hit. exact Hit.
Qed.

(** X7. Without an argument, [getSourceComponents] yields the stored
    variants and nothing else, outer key after outer key in the order the
    keys were first added, whenever the iteration it runs comes to its
    end. *)
Theorem getSourceComponents_all (s : t) (items : list MetadataComponent) :
  iterate s = Returns items ->
  getSourceComponents None s = Returns (storedVariants s).
Proof.
  intros H. unfold ComponentSet.getSourceComponents. rewrite H. simpl.
  now rewrite (sourceBacked_iterate _ _ H).
Qed.

Lemma no_variants (l : list (OMap.t SourceComponent)) :
  Nat.eqb (length (flat_map OMap.values l)) 0
  = forallb (fun inner => Nat.eqb (OMap.size inner) 0) l.
Proof.
  induction l as [| inner l IH]; simpl; [reflexivity |].
  rewrite length_app, <- IH. unfold OMap.values, OMap.size. rewrite length_map.
  destruct (length inner); reflexivity.
Qed.

(** X6. [deploy] ends as the iteration of the set ends when that throws;
    otherwise it refuses, with no-source-to-deploy, exactly the sets in
    which no outer key has a source-backed variant, and builds the
    operation on the set itself for the others. *)
Theorem deploy_needs_a_source_backed_component
        {Options : Type} (options : Options) (s : t) :
  deploy getChildren getParentType options s
  = match iterate s with
    | Returns _ =>
        if forallb (fun inner => Nat.eqb (OMap.size inner) 0)
                   (OMap.values (components s))
        then Returns (inl error_no_source_to_deploy)
        else Returns (inr {| op_options := options;
                             op_components := s;
                             op_registry := registry s |})
    | Throws e => Throws e
    | OutOfFuel => OutOfFuel
    end.
Proof.
  unfold deploy, ComponentSet.getSourceComponents.
  destruct (iterate s) as [items | e |] eqn:E; try reflexivity. simpl.
  now rewrite (sourceBacked_iterate _ _ E), no_variants.
Qed.

(** X8. A source-backed component that was just added is among the
    components that [getSourceComponents] yields for it. *)
Theorem getSourceComponents_finds_added (c : SourceComponent) (s : t) :
  exists found,
    getSourceComponents (Some (Source c)) (add (Source c) s) = Returns found
    /\ c ∈ found.
Proof.
  unfold ComponentSet.getSourceComponents. eexists. split; [reflexivity |].
  apply elem_of_app. right.
  pose proof (innerOf_add (Source c) s (simpleKey (Source c))) as Hin.
  rewrite String.eqb_refl in Hin. unfold SetSpec.innerOf in Hin.
  pose proof (has_add (Source c) s) as Hhas. unfold has, OMap.has in Hhas.
  destruct (OMap.get (simpleKey (Source c)) (components (add (Source c) s)))
    as [memberCollection |] eqn:G; [| discriminate].
  simpl in Hin. subst memberCollection.
  set (inner := default OMap.empty (OMap.get (simpleKey (Source c)) (components s))).
  assert (Hc : c ∈ OMap.values (OMap.set (sourceKey c) c inner)).
  { generalize (sourceKey c). intros k. induction inner as [| [a va] inner IH]; simpl.
    - left.
    - destruct (String.eqb a k); simpl; [left | right; exact IH]. }
  destruct (OMap.set (sourceKey c) c inner) as [| e m] eqn:Eset.
  - inversion Hc.
  - exact Hc.
Qed.

(** X9. When the member's type has a parent type, and a stored component
    of that parent type, under the key of the member's name up to its
    first dot, has a child of the member's full name, such a child of
    that component is among the components yielded for the member. *)
Theorem getSourceComponents_finds_child_through_parent
        (forMember : ComponentLike) (s : t) (parentType : MetadataType)
        (parentCollection : OMap.t SourceComponent)
        (parentComponent child : SourceComponent) :
  getParentType (registry s) (likeType forMember) = Some parentType ->
  OMap.get
    (simpleKey (Member (List.hd "" (JsString.split "." (likeFullName forMember)))
                       (TypeEntry parentType)))
    (components s) = Some parentCollection ->
  parentComponent ∈ OMap.values parentCollection ->
  child ∈ getChildren parentComponent ->
  sc_fullName child = likeFullName forMember ->
  exists found childComponent,
    getSourceComponents (Some forMember) s = Returns found
    /\ childComponent ∈ found
    /\ childComponent ∈ getChildren parentComponent
    /\ sc_fullName childComponent = likeFullName forMember.
Proof.
  intros Hparent Hget Hin Hchild Hname.
  unfold ComponentSet.getSourceComponents, ComponentSet.findChildrenThroughParent.
  rewrite Hparent, Hget.
  destruct (List.find (fun c => String.eqb (sc_fullName c) (likeFullName forMember))
                      (getChildren parentComponent)) as [childComponent |] eqn:F.
  - eexists. exists childComponent. split; [reflexivity |].
    pose proof (find_some _ _ F) as [Hc Hn]. apply String.eqb_eq in Hn.
    split; [| split; [now apply list_elem_of_In | exact Hn]].
    apply elem_of_app. left. apply list_elem_of_In, in_flat_map.
    exists parentComponent. split; [now apply list_elem_of_In |].
    rewrite F. now left.
  - exfalso. apply list_elem_of_In in Hchild.
    pose proof (find_none _ _ F _ Hchild) as Hn. simpl in Hn.
    rewrite Hname, String.eqb_refl in Hn. discriminate.
Qed.
End OperationFacts.

Lemma getSourceComponents_all_witness :
  ComponentSet.getSourceComponents Sample.getChildren SampleOps.getParentType None
    (ComponentSet.new [Source Sample.fooWithContent; Member "Bar" (TypeName "ApexClass");
                       Source Sample.fooXmlOnly; Source Sample.account]
                      Sample.registryData)
  = Returns [Sample.fooWithContent; Sample.fooXmlOnly; Sample.account].
Proof.
  apply (getSourceComponents_all Sample.getChildren SampleOps.getParentType
           (ComponentSet.new [Source Sample.fooWithContent;
                              Member "Bar" (TypeName "ApexClass");
                              Source Sample.fooXmlOnly; Source Sample.account]
                             Sample.registryData)
           [Concrete Sample.fooWithContent; Concrete Sample.fooXmlOnly;
            Abstract "Bar" Sample.apexclass; Concrete Sample.account]).
  vm_compute. reflexivity.
Defined.

(** The field [Account.Name], of which the set holds only the object, is
    found through the object. *)
Lemma getSourceComponents_finds_child_through_parent_witness :
  exists found childComponent,
    ComponentSet.getSourceComponents Sample.getChildren SampleOps.getParentType
      (Some (Member "Account.Name" (TypeName "CustomField")))
      (ComponentSet.new [Source Sample.account] Sample.registryData)
    = Returns found
    /\ childComponent ∈ found
    /\ childComponent ∈ Sample.getChildren Sample.account
    /\ sc_fullName childComponent = "Account.Name".
Proof.
  apply (getSourceComponents_finds_child_through_parent
           Sample.getChildren SampleOps.getParentType
           (Member "Account.Name" (TypeName "CustomField"))
           (ComponentSet.new [Source Sample.account] Sample.registryData)
           Sample.customobject
           [(ComponentSet.sourceKey Sample.account, Sample.account)]
           Sample.account Sample.accountName).
  - vm_compute. reflexivity.
  - vm_compute. reflexivity.
  - vm_compute. left.
  - vm_compute. left.
  - vm_compute. reflexivity.
Defined.

(* ================================================================== *)
(** * Further properties of resolution into a set *)
(* ================================================================== *)

Section ResolutionFacts.
Import ComponentSet OperationSpec.
Variable registryData : MetadataRegistry.
Variable getChildren : SourceComponent -> list SourceComponent.
Variable getComponentsFromPath :
  MetadataRegistry -> SourcePath -> Completion (list SourceComponent).

Lemma resolveSourceComponents_adds
      (resolved : list SourceComponent) (filter : option FilterOption) (this : t) :
  resolveSourceComponents registryData getChildren resolved filter this
  = (addAll (map Source (addedBy registryData getChildren filter resolved)) this,
     new (map Source (addedBy registryData getChildren filter resolved)) registryData).
Proof.
  unfold resolveSourceComponents, addedBy. destruct filter as [f |]; simpl.
  - rewrite (fold_left_pointwise _ (fun st c =>
               fold_left (fun st x => addBoth x st)
                         (FilterSpec.selected getChildren (toFilterSet registryData f) c)
                         st)).
    + now rewrite fold_left_flat_map, fold_addBoth.
    + intros st c. apply resolveStep_selected.
  - apply (fold_addBoth resolved).
Qed.

Lemma registry_add (c : ComponentLike) (s : t) : registry (add c s) = registry s.
Proof.
  unfold add. destruct c as [fn ty | sc]; [reflexivity |].
  now destruct (OMap.get _ _).
Qed.

Lemma registry_addAll (cs : list ComponentLike) (s : t) :
  registry (addAll cs s) = registry s.
Proof.
  revert s. induction cs as [| c cs IH]; intros s; simpl; [reflexivity |].
  now rewrite IH, registry_add.
Qed.

Lemma apiVersion_add (c : ComponentLike) (s : t) : apiVersion (add c s) = apiVersion s.
Proof.
  unfold add. destruct c as [fn ty | sc]; [reflexivity |].
  now destruct (OMap.get _ _).
Qed.

Lemma apiVersion_addAll (cs : list ComponentLike) (s : t) :
  apiVersion (addAll cs s) = apiVersion s.
Proof.
  revert s. induction cs as [| c cs IH]; intros s; simpl; [reflexivity |].
  now rewrite IH, apiVersion_add.
Qed.

(** X10. Without a filter, resolution adds every resolved component, in
    the order the resolver returned them, to this set, and returns the
    set built from exactly these components. *)
Theorem resolution_without_filter_adds_all
        (resolved : list SourceComponent) (this : t) :
  resolveSourceComponents registryData getChildren resolved None this
  = (addAll (map Source resolved) this, new (map Source resolved) registryData).
Proof. apply (resolveSourceComponents_adds resolved None this). Qed.

(** X11. Whatever the filter, after a resolution the members of this set
    are the members it had and the members of the returned set; neither
    the registry nor the api version of this set changes. *)
Theorem members_after_resolution
        (resolved : list SourceComponent) (filter : option FilterOption)
        (this : t) (c : ComponentLike) :
  let result := resolveSourceComponents registryData getChildren resolved filter this in
  has c (fst result) = has c this || has c (snd result)
  /\ registry (fst result) = registry this
  /\ apiVersion (fst result) = apiVersion this.
Proof.
  intros result. unfold result. rewrite resolveSourceComponents_adds. simpl.
  unfold new. rewrite !has_addAll_keys, registry_addAll, apiVersion_addAll.
  split; [reflexivity | split; reflexivity].
Qed.

(** X12. [fromSource] without a filter ends as the resolver ends on the
    path, and when that returns, the set is the one the constructor
    builds from the resolved components. *)
Theorem fromSource_is_the_set_of_the_resolved
        (fsPath : SourcePath) (registry : option MetadataRegistry) :
  fromSource registryData getChildren getComponentsFromPath fsPath registry None
  = (resolved ← getComponentsFromPath (default registryData registry) fsPath;
     Returns (new (map Source resolved) (default registryData registry))).
Proof.
  unfold fromSource, resolveSourceComponentsAt. simpl.
  destruct (getComponentsFromPath _ fsPath) as [resolved | e |]; try reflexivity.
  simpl. now rewrite resolveSourceComponents_adds.
Qed.

Lemma manifestSteps_keep_all (options : FromManifestOptions)
      (cs : list MetadataComponent) (ws filterSet : t) :
  shouldResolve options = false ->
  fold_left (manifestStep options) cs (ws, filterSet)
  = (addAll (map asComponentLike cs) ws, filterSet).
Proof.
  intros H. revert ws. induction cs as [| c cs IH]; intros ws; simpl; [reflexivity |].
  rewrite H. simpl. rewrite orb_true_r. apply IH.
Qed.

Lemma manifestSteps_filter (options : FromManifestOptions)
      (cs : list MetadataComponent) (ws filterSet : t) :
  shouldResolve options = true ->
  fm_literalWildcard options = false ->
  fold_left (manifestStep options) cs (ws, filterSet)
  = (addAll (map asComponentLike (namedMembers cs)) ws,
     addAll (map asComponentLike cs) filterSet).
Proof.
  intros H Hl. revert ws filterSet.
  induction cs as [| c cs IH]; intros ws filterSet; simpl; [reflexivity |].
  rewrite H, Hl. simpl. rewrite !orb_false_r.
  destruct (negb (componentFullName c =? WILDCARD)) eqn:E; simpl; apply IH.
Qed.

Lemma add_withApiVersion (c : ComponentLike) (version : string) (s : t) :
  add c (withApiVersion version s) = withApiVersion version (add c s).
Proof.
  unfold add, withApiVersion. simpl. destruct c as [fn ty | sc]; [reflexivity |].
  now destruct (OMap.get _ _).
Qed.

Lemma addAll_withApiVersion (cs : list ComponentLike) (version : string) (s : t) :
  addAll cs (withApiVersion version s) = withApiVersion version (addAll cs s).
Proof.
  revert s. induction cs as [| c cs IH]; intros s; simpl; [reflexivity |].
  now rewrite add_withApiVersion, IH.
Qed.

(** X13. Without paths to resolve, [fromManifestFile] ends as the reading
    of the manifest's components ends, and when that returns, the set is
    the one the constructor builds from all of them, wildcard members
    included, with the manifest's version for api version. *)
Theorem fromManifestFile_without_resolve
        (manifestObj : PackageManifestObject) (options : FromManifestOptions) :
  shouldResolve options = false ->
  fromManifestFile registryData getChildren getComponentsFromPath manifestObj options
  = (cs ← getComponentsFromManifestObject manifestObj
            (default registryData (fm_registry options));
     Returns (withApiVersion (pkg_version manifestObj)
                (new (map asComponentLike cs)
                     (default registryData (fm_registry options))))).
Proof.
  intros H. unfold fromManifestFile.
  destruct (getComponentsFromManifestObject _ _) as [cs | e |]; try reflexivity.
  simpl. rewrite (manifestSteps_keep_all options cs _ _ H), H.
  f_equal. unfold new. now rewrite <- addAll_withApiVersion.
Qed.
Lemma added_app (fs : t) (l1 l2 : list SourceComponent) :
  FilterSpec.added getChildren fs (l1 ++ l2)
  = FilterSpec.added getChildren fs l1 ++ FilterSpec.added getChildren fs l2.
Proof. unfold FilterSpec.added. apply flat_map_app. Qed.

Lemma addAll_app (cs1 cs2 : list ComponentLike) (s : t) :
  addAll (cs1 ++ cs2) s = addAll cs2 (addAll cs1 s).
Proof. unfold addAll. apply fold_left_app. Qed.

Lemma resolve_paths_with_filter (fs : t) (reg : MetadataRegistry)
      (paths : list SourcePath) (lists : list (list SourceComponent)) (ws : t) :
  registry ws = reg ->
  ManifestSpec.mapC (getComponentsFromPath reg) paths = Returns lists ->
  forEach
    (fun ws fsPath =>
       r ← resolveSourceComponentsAt registryData getChildren getComponentsFromPath
             fsPath (Some (FilterSet fs)) ws;
       Returns (fst r))
    paths ws
  = Returns (addAll (map Source (FilterSpec.added getChildren fs (concat lists))) ws).
Proof.
  revert lists ws. induction paths as [| p paths IH]; intros lists ws Hreg Hmap.
  - injection Hmap as <-. reflexivity.
  - simpl in Hmap.
    destruct (getComponentsFromPath reg p) as [resolved | |] eqn:Hp; try discriminate.
    simpl in Hmap.
    destruct (ManifestSpec.mapC (getComponentsFromPath reg) paths) as [rest | |] eqn:Hrest;
      try discriminate.
    injection Hmap as <-.
    assert (Hstep :
              resolveSourceComponentsAt registryData getChildren getComponentsFromPath
                p (Some (FilterSet fs)) ws
              = Returns (resolveSourceComponents registryData getChildren resolved
                           (Some (FilterSet fs)) ws)).
    { unfold resolveSourceComponentsAt. now rewrite Hreg, Hp. }
    cbn [forEach]. rewrite Hstep. cbn [mbind Completion_bind bind].
    rewrite resolveSourceComponents_adds. cbn [fst addedBy toFilterSet].
    rewrite (IH rest); [| now rewrite registry_addAll | reflexivity].
    cbn [concat]. now rewrite added_app, map_app, addAll_app.
Qed.

(** X14. With paths to resolve and wildcards not taken literally,
    [fromManifestFile] first holds the manifest's members that are not
    wildcards, under the manifest's version, and then adds, path after
    path, what a resolution filtered by all the manifest's members,
    wildcards included, adds. *)
Theorem fromManifestFile_resolves_through_the_manifest
        (manifestObj : PackageManifestObject) (options : FromManifestOptions)
        (cs : list MetadataComponent) (resolve : OneOrMany SourcePath)
        (lists : list (list SourceComponent)) :
  shouldResolve options = true ->
  fm_literalWildcard options = false ->
  fm_resolve options = Some resolve ->
  getComponentsFromManifestObject manifestObj (default registryData (fm_registry options))
  = Returns cs ->
  ManifestSpec.mapC (getComponentsFromPath (default registryData (fm_registry options)))
                    (toArray resolve)
  = Returns lists ->
  fromManifestFile registryData getChildren getComponentsFromPath manifestObj options
  = Returns
      (addAll
         (map Source
              (FilterSpec.added getChildren
                 (new (map asComponentLike cs)
                      (default registryData (fm_registry options)))
                 (concat lists)))
         (withApiVersion (pkg_version manifestObj)
            (new (map asComponentLike (namedMembers cs))
                 (default registryData (fm_registry options))))).
Proof.
  intros H Hl Hr Hcs Hlists. unfold fromManifestFile. rewrite Hcs. simpl.
  rewrite (manifestSteps_filter options cs _ _ H Hl), H, Hr.
  rewrite (resolve_paths_with_filter _ (default registryData (fm_registry options))
             _ lists).
  - f_equal. f_equal. unfold new. now rewrite <- addAll_withApiVersion.
  - now rewrite registry_addAll.
  - exact Hlists.
Qed.
End ResolutionFacts.

Lemma fromManifestFile_without_resolve_witness :
  ComponentSet.fromManifestFile Sample.registryData Sample.getChildren
    SampleOps.getComponentsFromPath SampleOps.manifest
    {| ComponentSet.fm_registry := None;
       ComponentSet.fm_resolve := None;
       ComponentSet.fm_literalWildcard := false |}
  = Returns
      (OperationSpec.withApiVersion "49.0"
         (ComponentSet.new
            [Member "Foo" (TypeEntry Sample.apexclass);
             Member "*" (TypeEntry Sample.apexclass);
             Member "Account.Name" (TypeEntry Sample.customfield)]
            Sample.registryData)).
Proof.
  apply (fromManifestFile_without_resolve Sample.registryData Sample.getChildren
           SampleOps.getComponentsFromPath SampleOps.manifest).
  vm_compute. reflexivity.
Defined.

(** The class is let in by the manifest; the object is not, but its
    field, which the manifest lists, is. *)
Lemma fromManifestFile_resolves_through_the_manifest_witness :
  ComponentSet.fromManifestFile Sample.registryData Sample.getChildren
    SampleOps.getComponentsFromPath SampleOps.manifest
    {| ComponentSet.fm_registry := None;
       ComponentSet.fm_resolve := Some (Many [["classes"]; ["objects"]]);
       ComponentSet.fm_literalWildcard := false |}
  = Returns
      (ComponentSet.addAll
         [Source Sample.fooWithContent; Source Sample.accountName]
         (OperationSpec.withApiVersion "49.0"
            (ComponentSet.new
               [Member "Foo" (TypeEntry Sample.apexclass);
                Member "Account.Name" (TypeEntry Sample.customfield)]
               Sample.registryData))).
Proof.
  apply (fromManifestFile_resolves_through_the_manifest
           Sample.registryData Sample.getChildren SampleOps.getComponentsFromPath
           SampleOps.manifest
           {| ComponentSet.fm_registry := None;
              ComponentSet.fm_resolve := Some (Many [["classes"]; ["objects"]]);
              ComponentSet.fm_literalWildcard := false |}
           [Abstract "Foo" Sample.apexclass; Abstract "*" Sample.apexclass;
            Abstract "Account.Name" Sample.customfield]
           (Many [["classes"]; ["objects"]])
           [[Sample.fooWithContent]; [Sample.account]]).
  - vm_compute. reflexivity.
  - reflexivity.
  - reflexivity.
  - vm_compute. reflexivity.
  - vm_compute. reflexivity.
Defined.

(* ================================================================== *)
(** * Further properties of manifests *)
(* ================================================================== *)

Section ManifestFacts.
Import ComponentSet ManifestSpec OperationSpec.

Lemma mapC_length {A B} (f : A -> Completion B) (l : list A) (ys : list B) :
  mapC f l = Returns ys -> length ys = length l.
Proof.
  revert ys. induction l as [| x l IH]; simpl; intros ys H.
  - now injection H as <-.
  - destruct (f x); try discriminate. simpl in H.
    destruct (mapC f l) as [ys' | |]; try discriminate.
    injection H as <-. simpl. now rewrite (IH ys').
Qed.

Lemma members_set (k : string) (m : string) (blocks : OMap.t (list string)) :
  length (flat_map snd (OMap.set k (default [] (OMap.get k blocks) ++ [m]) blocks))
  = S (length (flat_map snd blocks)).
Proof.
  induction blocks as [| [a ms] blocks IH]; simpl.
  - reflexivity.
  - destruct (String.eqb a k); simpl.
    + rewrite !length_app. simpl. lia.
    + rewrite !length_app, IH. lia.
Qed.

Lemma members_groupPairs (pairs : list (string * string))
      (blocks : OMap.t (list string)) :
  length (flat_map snd (fold_left pushMember pairs blocks))
  = length (flat_map snd blocks) + length pairs.
Proof.
  revert blocks. induction pairs as [| [k m] pairs IH]; intros blocks; simpl.
  - lia.
  - rewrite IH. unfold pushMember. rewrite members_set. lia.
Qed.

(** X16. When [getObject] returns, its type blocks are an array in which
    no type name occurs twice and no block is without members, the
    members listed are as many as the set has outer keys, and the version
    is the set's api version. *)
Theorem getObject_is_well_grouped (s : t) (obj : PackageManifestObject) :
  getObject s = Returns obj ->
  wellGrouped (blocksOf obj)
  /\ length (memberNames obj) = length (OMap.keys (components s))
  /\ pkg_version obj = apiVersion s
  /\ exists typeMembers, pkg_types obj = Many typeMembers.
Proof.
  intros H. destruct (getObject_blocks s obj H) as (pairs & Hpairs & Hblocks).
  split; [rewrite Hblocks; apply wellGrouped_groupPairs |].
  split.
  - unfold memberNames. rewrite Hblocks. unfold groupPairs.
    rewrite members_groupPairs. simpl. apply (mapC_length _ _ _ Hpairs).
  - unfold getObject in H.
    destruct (forEach _ _ _) as [typeMap | |]; try discriminate.
    injection H as <-. simpl. eauto.
Qed.

Lemma append_inj_r (s a b : string) : s +:+ a = s +:+ b -> a = b.
Proof.
  induction s as [| c s IH]; intros H.
  - exact H.
  - change (String c (s +:+ a) = String c (s +:+ b)) in H. injection H as H. auto.
Qed.

Lemma distinct_map_inj (f : string -> string) (l : list string) :
  (forall x y, f x = f y -> x = y) ->
  Distinct.distinct (map f l) = map f (Distinct.distinct l).
Proof.
  intros Hinj. induction l as [| x l IH] using rev_ind; [reflexivity |].
  rewrite map_app. simpl. rewrite !distinct_snoc, IH. unfold Distinct.snocNew.
  assert (E : existsb (String.eqb (f x)) (map f (Distinct.distinct l))
              = existsb (String.eqb x) (Distinct.distinct l)).
  { apply eq_true_iff_eq. rewrite !existsb_eqb_elem_of. split; intros H.
    - apply list_elem_of_In, in_map_iff in H as (y & Hy & Hin).
      apply Hinj in Hy. subst. now apply list_elem_of_In.
    - apply list_elem_of_In, in_map, list_elem_of_In, H. }
  rewrite E. destruct (existsb (String.eqb x) (Distinct.distinct l));
    [reflexivity |]. now rewrite map_app.
Qed.

(** X17. A set built from plain members of one registered type that is
    not a folder type, where neither the type's id nor a member's name
    holds the key delimiter, gives one type block: the type's name, with
    the distinct member names in the order they were first added. *)
Theorem getObject_lists_one_type_in_insertion_order
        (reg : MetadataRegistry) (ty : MetadataType) (names : list string) :
  Registry.getTypeByName reg (id ty) = Returns ty ->
  JsString.truthy (folderContentType ty) = false ->
  JsString.includes "#" (id ty) = false ->
  (forall n, n ∈ names -> JsString.includes "#" n = false) ->
  names <> [] ->
  getObject (new (map (fun n => Member n (TypeEntry ty)) names) reg)
  = Returns {| pkg_types :=
                 Many [ {| members := Many (Distinct.distinct names);
                           ptm_name := name ty |} ];
               pkg_version := Registry.getApiVersion reg;
               pkg_attributes := [] |}.
Proof.
  intros Hty Hfolder Hid Hnames Hne.
  set (cs := map (fun n => Member n (TypeEntry ty)) names).
  destruct (components_new cs reg) as [Hkeys _].
  assert (Hk : OMap.keys (components (new cs reg))
               = map (fun n => id ty +:+ "#" +:+ n) (Distinct.distinct names)).
  { rewrite Hkeys. unfold SetSpec.keysAdded, cs. rewrite map_map.
    change (map (fun x => simpleKey (Member x (TypeEntry ty))) names)
      with (map (fun n => id ty +:+ "#" +:+ n) names).
    apply distinct_map_inj. intros x y E.
    apply append_inj_r in E. now apply (append_inj_r "#"). }
  assert (Hpairs : forall l, (forall n, n ∈ l -> JsString.includes "#" n = false) ->
             mapC (keyPair reg) (map (fun n => id ty +:+ "#" +:+ n) l)
             = Returns (map (fun n => (name ty, n)) l)).
  { induction l as [| n l IH]; intros Hl; [reflexivity |].
    assert (Hhead : keyPair reg (id ty +:+ "#" +:+ n) = Returns (name ty, n)).
    { unfold keyPair. rewrite (splitKey_simple _ _ Hid (Hl n ltac:(left))).
      rewrite Hty. cbn [mbind Completion_bind bind].
      unfold listedType. now rewrite Hfolder. }
    cbn [map mapC]. rewrite Hhead. cbn [mbind Completion_bind bind].
    rewrite IH; [reflexivity |]. intros m Hm. apply Hl. now right. }
  unfold getObject. rewrite forEach_getObjectStep, Hk.
  assert (Hreg : registry (new cs reg) = reg).
  { unfold new. now rewrite registry_addAll. }
  rewrite Hreg, Hpairs.
  - cbn [mbind Completion_bind bind]. unfold OMap.empty.
    rewrite (push_block [] (name ty) (Distinct.distinct names)).
    + unfold new. rewrite apiVersion_addAll. reflexivity.
    + apply not_elem_of_nil.
    + intros E. destruct names as [| n names]; [congruence |].
      assert (Hin : n ∈ Distinct.distinct (n :: names))
        by (apply elem_of_distinct; left).
      rewrite E in Hin. inversion Hin.
  - intros n Hn. apply Hnames. now apply elem_of_distinct.
Qed.

Lemma mapC_manifestMember_names (reg : MetadataRegistry)
      (pairs : list (string * string)) (cs : list MetadataComponent) :
  mapC (fun p => manifestMember reg (fst p) (snd p)) pairs = Returns cs ->
  map componentFullName cs = map snd pairs
  /\ Forall (fun c => exists fullName ty, c = Abstract fullName ty) cs.
Proof.
  revert cs. induction pairs as [| [n m] pairs IH]; simpl; intros cs H.
  - injection H as <-. split; [reflexivity | constructor].
  - destruct (manifestMember reg n m) as [c | |] eqn:Hc; try discriminate.
    simpl in H. destruct (mapC _ pairs) as [cs' | |]; try discriminate.
    injection H as <-. destruct (IH cs' eq_refl) as [Hn Ha].
    unfold manifestMember in Hc.
    destruct (Registry.getTypeByName reg n) as [ty | |]; try discriminate.
    simpl in Hc.
    destruct (if JsString.truthy (folderType ty) && _ then _ else _) as [ty' | |];
      try discriminate.
    injection Hc as <-. simpl. split; [now rewrite Hn |].
    constructor; [eauto | exact Ha].
Qed.

Lemma map_snd_ungroup (blocks : list (string * list string)) :
  map snd (ungroup blocks) = flat_map snd blocks.
Proof.
  unfold ungroup. induction blocks as [| [n ms] blocks IH]; simpl; [reflexivity |].
  rewrite map_app, IH, map_map. simpl. now rewrite map_id.
Qed.

(** X15. When the components of a manifest object are read to the end,
    they are plain members, one for each member name of the object, in
    the order of the document: block after block, and within a block in
    the order of its members. *)
Theorem manifest_components_follow_the_document
        (obj : PackageManifestObject) (reg : MetadataRegistry)
        (cs : list MetadataComponent) :
  getComponentsFromManifestObject obj reg = Returns cs ->
  map componentFullName cs = memberNames obj
  /\ Forall (fun c => exists fullName ty, c = Abstract fullName ty) cs.
Proof.
  rewrite getComponentsFromManifestObject_blocks. intros H.
  destruct (mapC_manifestMember_names reg _ cs H) as [Hn Ha].
  split; [| exact Ha]. rewrite Hn. apply map_snd_ungroup.
Qed.
End ManifestFacts.

Lemma getObject_is_well_grouped_witness :
  ManifestSpec.wellGrouped
    [("ApexClass", ["Foo"; "Bar"]); ("Document", ["reports/summary"; "reports"])]
  /\ length ["Foo"; "Bar"; "reports/summary"; "reports"]
     = length (OMap.keys (ComponentSet.components SampleXml.manifestSet))
  /\ "50.0" = ComponentSet.apiVersion SampleXml.manifestSet
  /\ exists typeMembers,
       Many [ {| members := Many ["Foo"; "Bar"]; ptm_name := "ApexClass" |};
              {| members := Many ["reports/summary"; "reports"];
                 ptm_name := "Document" |} ]
       = Many typeMembers.
Proof.
  apply (getObject_is_well_grouped SampleXml.manifestSet
           {| pkg_types :=
                Many [ {| members := Many ["Foo"; "Bar"]; ptm_name := "ApexClass" |};
                       {| members := Many ["reports/summary"; "reports"];
                          ptm_name := "Document" |} ];
              pkg_version := "50.0";
              pkg_attributes := [] |}).
  vm_compute. reflexivity.
Defined.

Lemma getObject_lists_one_type_in_insertion_order_witness :
  ComponentSet.getObject
    (ComponentSet.new
       (map (fun n => Member n (TypeEntry Sample.apexclass)) ["Foo"; "Bar"; "Foo"])
       Sample.registryData)
  = Returns {| pkg_types :=
                 Many [ {| members := Many (Distinct.distinct ["Foo"; "Bar"; "Foo"]);
                           ptm_name := "ApexClass" |} ];
               pkg_version := "50.0";
               pkg_attributes := [] |}.
Proof.
  apply (getObject_lists_one_type_in_insertion_order
           Sample.registryData Sample.apexclass ["Foo"; "Bar"; "Foo"]).
  - vm_compute. reflexivity.
  - reflexivity.
  - reflexivity.
  - intros n Hn.
    repeat (apply elem_of_cons in Hn as [-> | Hn]; [reflexivity |]). inversion Hn.
  - discriminate.
Defined.

Lemma manifest_components_follow_the_document_witness :
  map ComponentSet.componentFullName
      [Abstract "Foo" Sample.apexclass; Abstract "*" Sample.apexclass;
       Abstract "Account.Name" Sample.customfield]
  = OperationSpec.memberNames SampleOps.manifest
  /\ Forall (fun c => exists fullName ty, c = Abstract fullName ty)
            [Abstract "Foo" Sample.apexclass; Abstract "*" Sample.apexclass;
             Abstract "Account.Name" Sample.customfield].
Proof.
  apply (manifest_components_follow_the_document SampleOps.manifest Sample.registryData).
  vm_compute. reflexivity.
Defined.

(* ================================================================== *)
(** * Further properties of the tree containers *)
(* ================================================================== *)

Section FileContainerFacts.
Import BaseFileContainer.
Variable utils : PathUtils.
Variable this : FileContainer.

(** X18. What [find] returns, in either mode, is a file listed in the
    directory, as a path in that directory, whose name begins with the
    full name asked for, and which is a metadata descriptor exactly in the
    descriptor mode: [findContent] never returns a descriptor, and
    [findMetadataXml] nothing else. *)
Theorem find_returns_a_matching_file
        (dir : SourcePath) (fullName : string) (findMetadataXml : bool)
        (found : SourcePath) :
  find utils this dir fullName findMetadataXml = Returns (Some found) ->
  exists files f,
    readDir this dir = Returns files
    /\ f ∈ files
    /\ found = Path.join dir f
    /\ JsString.startsWith f fullName = true
    /\ bool_decide (is_Some (parseMetadataXml utils found)) = findMetadataXml.
Proof.
  unfold find. destruct (readDir this dir) as [files | |]; try discriminate. simpl.
  destruct (List.find _ files) as [f |] eqn:F.
  - destruct (JsString.truthy (Some f)); [| discriminate]. simpl.
    intros [= <-]. exists files, f. apply find_some in F as [Hin Hp].
    unfold findPredicate in Hp. apply andb_true_iff in Hp as [Hs Hm].
    repeat split; [now apply list_elem_of_In | exact Hs |].
    destruct findMetadataXml; [exact Hm | now apply negb_true_iff].
  - discriminate.
Qed.

(** X19. Over a listing without an empty name, [find] returns nothing
    exactly when no listed file both begins with the full name and is of
    the kind asked for. *)
Theorem find_misses_only_when_nothing_matches
        (dir : SourcePath) (fullName : string) (findMetadataXml : bool)
        (files : list string) :
  readDir this dir = Returns files ->
  "" ∉ files ->
  (find utils this dir fullName findMetadataXml = Returns None
   <-> forall f, f ∈ files ->
         JsString.startsWith f fullName = true ->
         bool_decide (is_Some (parseMetadataXml utils (Path.join dir f)))
         <> findMetadataXml).
Proof.
  intros Hread Hnames. unfold find. rewrite Hread. simpl.
  destruct (List.find _ files) as [f |] eqn:F.
  - rewrite (find_truthy _ _ _ Hnames F). simpl. split; [discriminate |].
    intros Hnone. exfalso. apply find_some in F as [Hin Hp].
    unfold findPredicate in Hp. apply andb_true_iff in Hp as [Hs Hm].
    apply (Hnone f); [now apply list_elem_of_In | exact Hs |].
    destruct findMetadataXml; [exact Hm | now apply negb_true_iff].
  - split; [| reflexivity]. intros _ f Hin Hs Hm.
    apply list_elem_of_In in Hin. pose proof (find_none _ _ F _ Hin) as Hp.
    unfold findPredicate in Hp. rewrite Hs, Hm in Hp. simpl in Hp.
    destruct findMetadataXml; simpl in Hp; discriminate.
Qed.




End FileContainerFacts.

(** ** The remote listing *)

Section GithubFacts.
Import GithubFileContainer.

Lemma elem_of_setAdd (p x : SourcePath) (s : list SourcePath) :
  x ∈ setAdd p s <-> x ∈ s \/ x = p.
Proof.
  unfold setAdd. case_bool_decide as H.
  - split; [tauto |]. intros [Hx | ->]; assumption.
  - rewrite elem_of_app, list_elem_of_singleton. reflexivity.
Qed.

Lemma indexEntry_grows (t : Tree) (entry : SourcePath * EntryType)
      (k : SourcePath) (siblings : list SourcePath) :
  t !! k = Some siblings ->
  exists siblings',
    indexEntry t entry !! k = Some siblings'
    /\ forall x, x ∈ siblings -> x ∈ siblings'.
Proof.
  intros Hk. destruct entry as [path ty]. unfold indexEntry. unfold Tree in *.
  set (parent := Path.dirname path).
  set (t1 := if bool_decide (is_Some (t !! parent)) then t else <[parent := []]> t).
  assert (H1 : t1 !! k = Some siblings).
  { unfold t1. case_bool_decide as Hp; [exact Hk |].
    rewrite lookup_insert_ne; [exact Hk |]. intros <-. apply Hp. eauto. }
  set (t2 := <[parent := setAdd path (default [] (t1 !! parent))]> t1).
  assert (H2 : exists siblings', t2 !! k = Some siblings'
                                 /\ forall x, x ∈ siblings -> x ∈ siblings').
  { unfold t2. destruct (decide (parent = k)) as [-> | Hne].
    - rewrite lookup_insert_eq, H1. simpl. eexists. split; [reflexivity |].
      intros x Hx. apply elem_of_setAdd. now left.
    - rewrite lookup_insert_ne by exact Hne. eauto. }
  destruct H2 as (siblings' & H2 & Hsub).
  exists siblings'. split; [| exact Hsub].
  destruct ty; [exact H2 |].
  case_bool_decide as Hp; [exact H2 |].
  rewrite lookup_insert_ne; [exact H2 |]. intros <-. apply Hp. eauto.
Qed.

Lemma indexEntry_keeps_keys (t : Tree) (entry : SourcePath * EntryType)
      (k : SourcePath) :
  is_Some (t !! k) -> is_Some (indexEntry t entry !! k).
Proof.
  intros [siblings Hk].
  destruct (indexEntry_grows t entry k siblings Hk) as (siblings' & H & _). eauto.
Qed.

Lemma indexEntry_lists (t : Tree) (path : SourcePath) (ty : EntryType) :
  (exists siblings,
     indexEntry t (path, ty) !! Path.dirname path = Some siblings /\ path ∈ siblings)
  /\ (ty = tree -> is_Some (indexEntry t (path, ty) !! path)).
Proof.
  unfold indexEntry. unfold Tree in *. set (parent := Path.dirname path).
  set (t1 := if bool_decide (is_Some (t !! parent)) then t else <[parent := []]> t).
  set (t2 := <[parent := setAdd path (default [] (t1 !! parent))]> t1).
  assert (H2 : exists siblings, t2 !! parent = Some siblings /\ path ∈ siblings).
  { unfold t2. rewrite lookup_insert_eq. eexists. split; [reflexivity |].
    apply elem_of_setAdd. now right. }
  destruct ty.
  - split; [exact H2 | discriminate].
  - case_bool_decide as Hp.
    + split; [exact H2 | intros _; exact Hp].
    + split.
      * destruct H2 as (siblings & H2 & Hin). exists siblings. split; [| exact Hin].
        rewrite lookup_insert_ne; [exact H2 |]. intros E. apply Hp.
        rewrite E. eauto.
      * intros _. rewrite lookup_insert_eq. eauto.
Qed.

Lemma fetch_snoc (entries : list (SourcePath * EntryType))
      (entry : SourcePath * EntryType) :
  fetch (entries ++ [entry]) = indexEntry (fetch entries) entry.
Proof. unfold fetch. now rewrite fold_left_app. Qed.

Lemma fetch_lists (entries : list (SourcePath * EntryType))
      (path : SourcePath) (ty : EntryType) :
  (path, ty) ∈ entries ->
  (exists siblings,
     fetch entries !! Path.dirname path = Some siblings /\ path ∈ siblings)
  /\ (ty = tree -> is_Some (fetch entries !! path)).
Proof.
  induction entries as [| entry entries IH] using rev_ind; intros Hin.
  - inversion Hin.
  - rewrite fetch_snoc. apply elem_of_app in Hin as [Hin | Hin].
    + destruct (IH Hin) as [(siblings & Hs & Hp) Hdir]. split.
      * destruct (indexEntry_grows _ entry _ _ Hs) as (siblings' & Hs' & Hsub).
        exists siblings'. split; [exact Hs' | now apply Hsub].
      * intros Hty. apply indexEntry_keeps_keys. now apply Hdir.
    + apply list_elem_of_singleton in Hin. subst entry. apply indexEntry_lists.
Qed.

(** X22. After [fetch] has indexed a listing, every path of the listing
    exists, the directory of its parent lists its base name, and a path
    listed as a tree is a directory. *)
Theorem fetch_indexes_every_entry (entries : list (SourcePath * EntryType))
        (path : SourcePath) (ty : EntryType) :
  (path, ty) ∈ entries ->
  exists_ (fetch entries) path = Returns true
  /\ (exists names,
        readDir (fetch entries) (Path.dirname path) = Returns names
        /\ Path.basename path ∈ names)
  /\ (ty = tree -> isDirectory (fetch entries) path = Returns true).
Proof.
  intros Hin. destruct (fetch_lists entries path ty Hin) as [(siblings & Hs & Hp) Hdir].
  assert (He : exists_ (fetch entries) path = Returns true).
  { unfold exists_. rewrite Hs. now rewrite (bool_decide_eq_true_2 _ Hp). }
  split; [exact He | split].
  - unfold readDir. rewrite Hs. eexists. split; [reflexivity |].
    apply list_elem_of_In, in_map, list_elem_of_In, Hp.
  - intros Hty. unfold isDirectory. rewrite He. simpl.
    now rewrite (bool_decide_eq_true_2 _ (Hdir Hty)).
Qed.

(** X23. [isDirectory] answers only for a path that [exists] answers true
    for, and then says whether the path is a key of the tree; it returns
    for no other path. *)
Theorem isDirectory_answers_only_for_existing_paths
        (t : Tree) (path : SourcePath) (answer : bool) :
  isDirectory t path = Returns answer ->
  exists_ t path = Returns true /\ answer = bool_decide (is_Some (t !! path)).
Proof.
  unfold isDirectory. destruct (exists_ t path) as [[|] | |]; simpl; try discriminate.
  intros [= <-]. split; reflexivity.
Qed.
End GithubFacts.

Lemma fetch_indexes_every_entry_witness :
  GithubFileContainer.exists_ (GithubFileContainer.fetch SampleTree.listing)
    ["staticresources"; "foo"]
  = Returns true
  /\ (exists names,
        GithubFileContainer.readDir (GithubFileContainer.fetch SampleTree.listing)
          (Path.dirname ["staticresources"; "foo"])
        = Returns names
        /\ Path.basename ["staticresources"; "foo"] ∈ names)
  /\ (GithubFileContainer.tree = GithubFileContainer.tree ->
      GithubFileContainer.isDirectory (GithubFileContainer.fetch SampleTree.listing)
        ["staticresources"; "foo"]
      = Returns true).
Proof.
  apply (fetch_indexes_every_entry SampleTree.listing ["staticresources"; "foo"]
           GithubFileContainer.tree).
  unfold SampleTree.listing. do 2 right. left.
Defined.

Lemma isDirectory_answers_only_for_existing_paths_witness :
  GithubFileContainer.exists_ SampleTree.tree ["classes"; "Foo.cls"] = Returns true
  /\ false = bool_decide (is_Some (SampleTree.tree !! ["classes"; "Foo.cls"])).
Proof.
  apply (isDirectory_answers_only_for_existing_paths SampleTree.tree
           ["classes"; "Foo.cls"] false).
  vm_compute. reflexivity.
Defined.

Lemma find_returns_a_matching_file_witness :
  exists files f,
    readDir SampleTree.container ["staticresources"] = Returns files
    /\ f ∈ files
    /\ ["staticresources"; "foo"] = Path.join ["staticresources"] f
    /\ JsString.startsWith f "foo" = true
    /\ bool_decide (is_Some (parseMetadataXml SampleTree.utils ["staticresources"; "foo"]))
       = false.
Proof.
  apply (find_returns_a_matching_file SampleTree.utils SampleTree.container
           ["staticresources"] "foo" false ["staticresources"; "foo"]).
  vm_compute. reflexivity.
Defined.

Lemma find_misses_only_when_nothing_matches_witness :
  BaseFileContainer.find SampleTree.utils SampleTree.container ["classes"] "Bar" true
  = Returns None
  <-> forall f, f ∈ ["Foo.cls"; "Foo.cls-meta.xml"] ->
        JsString.startsWith f "Bar" = true ->
        bool_decide (is_Some (parseMetadataXml SampleTree.utils (Path.join ["classes"] f)))
        <> true.
Proof.
  apply (find_misses_only_when_nothing_matches SampleTree.utils SampleTree.container
           ["classes"] "Bar" true ["Foo.cls"; "Foo.cls-meta.xml"]).
  - vm_compute. reflexivity.
  - intros H. repeat (apply elem_of_cons in H as [H | H]; [discriminate |]).
    inversion H.
Defined.



(* ================================================================== *)
(** * Further properties of the resolver *)
(* ================================================================== *)

Section ResolverFacts.
Import RegistryAccess.
Variable utils : PathUtils.
Variable data : MetadataRegistry.
Variable fileContainer : FileContainer.
Variable findAndCreate : SourcePath -> ForceIgnore.
Variable getAdapter :
  MetadataType -> JsObject.Value -> FileContainer -> ForceIgnore ->
  Completion SourceAdapter.

Local Abbreviation getComponentsFromPath :=
  (getComponentsFromPath utils data fileContainer findAndCreate getAdapter).
Local Abbreviation getComponentsFromPathRecursive :=
  (getComponentsFromPathRecursive utils data fileContainer getAdapter).
Local Abbreviation scanFiles := (scanFiles utils data fileContainer getAdapter).
Local Abbreviation fetchComponent := (fetchComponent utils data fileContainer getAdapter).

(** X24. For a path that is not a directory, the resolver does not walk:
    its result is that of fetching the one path, the same for every
    recursion budget, and a list of at most one component when it
    returns. *)
Theorem file_path_resolves_to_at_most_one (fuel : nat) (fsPath : SourcePath) :
  isDirectory fileContainer fsPath = Returns false ->
  getComponentsFromPath fuel fsPath = getComponentsFromPath 0 fsPath
  /\ forall components,
       getComponentsFromPath fuel fsPath = Returns components ->
       length components <= 1.
Proof.
  intros Hd. unfold RegistryAccess.getComponentsFromPath.
  destruct (exists_ fileContainer fsPath) as [[|] | |]; simpl;
    try (split; [reflexivity | discriminate]).
  rewrite Hd. simpl. split; [reflexivity |].
  intros components.
  destruct (RegistryAccess.fetchComponent _ _ _ _ _ _) as [[c |] | |]; simpl;
    try discriminate; intros [= <-]; simpl; lia.
Qed.

(** X25. For a path that exists, is not a directory and is not a denied
    descriptor, the resolver throws could-not-infer-type, with the path,
    when type inference gives no type id. *)
Theorem unknown_file_type_is_an_error (fuel : nat) (fsPath : SourcePath)
        (typeId : JsObject.Value) :
  exists_ fileContainer fsPath = Returns true ->
  isDirectory fileContainer fsPath = Returns false ->
  bool_decide (is_Some (parseMetadataXml utils fsPath))
  && denies (findAndCreate fsPath) fsPath = false ->
  determineTypeId utils data fsPath = Returns typeId ->
  JsObject.truthy typeId = false ->
  getComponentsFromPath fuel fsPath
  = Throws (TypeInferenceError error_could_not_infer_type fsPath).
Proof.
  intros He Hd Hdenied Hty Hfalsy. unfold RegistryAccess.getComponentsFromPath.
  rewrite He. simpl. rewrite Hd. simpl.
  unfold RegistryAccess.fetchComponent. rewrite Hdenied, Hty. simpl.
  now rewrite Hfalsy.
Qed.

(** The subdirectories among the files of a listing, as the container
    answers. *)
Lemma scanFiles_queue (forceIgnore : ForceIgnore) (directory : SourcePath)
      (files : list string) (dirQueue0 : list SourcePath)
      (components0 : list MetadataComponent)
      (dirQueue : list SourcePath) (components : list MetadataComponent) :
  scanFiles forceIgnore directory files dirQueue0 components0
  = Returns (Done dirQueue components) ->
  dirQueue
  = dirQueue0
    ++ List.filter
         (fun path => match isDirectory fileContainer path with
                      | Returns true => true
                      | _ => false
                      end)
         (map (Path.join directory) files).
Proof.
  revert dirQueue0 components0.
  induction files as [| file files IH]; intros dirQueue0 components0 H.
  - injection H as <- _. now rewrite app_nil_r.
  - cbn [RegistryAccess.scanFiles] in H. cbv zeta in H. cbn [map List.filter].
    destruct (isDirectory fileContainer (Path.join directory file)) as [[|] | |];
      try discriminate; cbn [mbind Completion_bind bind] in H.
    + apply IH in H. now rewrite <- app_assoc in H.
    + destruct (bool_decide _); [| now apply IH in H].
      destruct (RegistryAccess.fetchComponent _ _ _ _ _ _) as [[c |] | |];
        try discriminate; cbn [mbind Completion_bind bind] in H.
      * destruct (stopsScan data _ c); [discriminate | now apply IH in H].
      * now apply IH in H.
Qed.

Lemma forEach_subdirectories (fuel : nat) (forceIgnore : ForceIgnore)
      (dirQueue : list SourcePath) (subs : list (list MetadataComponent))
      (components : list MetadataComponent) :
  Forall2 (fun dir sub => getComponentsFromPathRecursive fuel forceIgnore dir = Returns sub)
          dirQueue subs ->
  forEach
    (fun components dir =>
       sub ← getComponentsFromPathRecursive fuel forceIgnore dir;
       Returns (components ++ sub))
    dirQueue components
  = Returns (components ++ concat subs).
Proof.
  intros H. revert components.
  induction H as [| dir sub dirQueue subs Hsub _ IH]; intros components.
  - simpl. now rewrite app_nil_r.
  - cbn [forEach]. rewrite Hsub. cbn [mbind Completion_bind bind concat].
    rewrite IH. now rewrite <- app_assoc.
Qed.

(** X26. In the walk of a directory that is not denied and whose scan
    runs through all its files, the components resolved from the
    directory's own files come first; after them come the components of
    its subdirectories, subdirectory after subdirectory in the order the
    directory lists them. *)
Theorem walk_lists_files_before_subdirectories
        (fuel : nat) (forceIgnore : ForceIgnore) (directory : SourcePath)
        (files : list string) (dirQueue : list SourcePath)
        (components : list MetadataComponent)
        (subs : list (list MetadataComponent)) :
  denies forceIgnore directory = false ->
  readDir fileContainer directory = Returns files ->
  scanFiles forceIgnore directory files [] [] = Returns (Done dirQueue components) ->
  Forall2 (fun dir sub => getComponentsFromPathRecursive fuel forceIgnore dir = Returns sub)
          dirQueue subs ->
  getComponentsFromPathRecursive (S fuel) forceIgnore directory
  = Returns (components ++ concat subs)
  /\ dirQueue
     = List.filter
         (fun path => match isDirectory fileContainer path with
                      | Returns true => true
                      | _ => false
                      end)
         (map (Path.join directory) files).
Proof.
  intros Hd Hread Hscan Hsubs. split.
  - cbn [RegistryAccess.getComponentsFromPathRecursive].
    rewrite Hd, Hread. cbn [mbind Completion_bind bind].
    rewrite Hscan. cbn [mbind Completion_bind bind].
    now apply forEach_subdirectories.
  - apply (scanFiles_queue _ _ _ [] [] _ _ Hscan).
Qed.

Lemma scanFiles_content_only (forceIgnore : ForceIgnore) (directory : SourcePath)
      (files : list string) (dirQueue : list SourcePath)
      (components : list MetadataComponent) :
  (forall f, f ∈ files ->
     isDirectory fileContainer (Path.join directory f) = Returns false
     /\ parseMetadataXml utils (Path.join directory f) = None) ->
  scanFiles forceIgnore directory files dirQueue components
  = Returns (Done dirQueue components).
Proof.
  induction files as [| f files IH]; intros H; [reflexivity |].
  cbn [RegistryAccess.scanFiles]. cbv zeta.
  destruct (H f ltac:(left)) as [Hd Hx]. rewrite Hd, Hx.
  cbn [mbind Completion_bind bind].
  rewrite bool_decide_eq_false_2 by (now intros [? ?]).
  apply IH. intros f' Hf'. apply H. now right.
Qed.

(** X27. The walk of a directory that holds no subdirectory and no
    metadata descriptor returns no component and fetches nothing: files
    that are not descriptors are never resolved on their own. *)
Theorem walk_of_content_only_directory_is_empty
        (fuel : nat) (forceIgnore : ForceIgnore) (directory : SourcePath)
        (files : list string) :
  readDir fileContainer directory = Returns files ->
  (forall f, f ∈ files ->
     isDirectory fileContainer (Path.join directory f) = Returns false
     /\ parseMetadataXml utils (Path.join directory f) = None) ->
  getComponentsFromPathRecursive (S fuel) forceIgnore directory = Returns [].
Proof.
  intros Hread Hfiles. cbn [RegistryAccess.getComponentsFromPathRecursive].
  destruct (denies forceIgnore directory); [reflexivity |].
  rewrite Hread. cbn [mbind Completion_bind bind].
  now rewrite (scanFiles_content_only _ _ _ [] [] Hfiles).
Qed.

Lemma forEach_more_fuel (f g : SourcePath -> Completion (list MetadataComponent))
      (dirQueue : list SourcePath) (components : list MetadataComponent)
      (r : Completion (list MetadataComponent)) :
  (forall dir r', f dir = r' -> r' <> OutOfFuel -> g dir = r') ->
  forEach (fun components dir => sub ← f dir; Returns (components ++ sub))
          dirQueue components = r ->
  r <> OutOfFuel ->
  forEach (fun components dir => sub ← g dir; Returns (components ++ sub))
          dirQueue components = r.
Proof.
  intros Hfg. revert components.
  induction dirQueue as [| dir dirQueue IH]; intros components H Hr.
  - exact H.
  - cbn [forEach] in *.
    destruct (f dir) as [sub | e |] eqn:Hf; cbn [mbind Completion_bind bind] in H.
    + rewrite (Hfg dir _ Hf) by discriminate. cbn [mbind Completion_bind bind].
      now apply IH.
    + rewrite (Hfg dir _ Hf) by discriminate. exact H.
    + congruence.
Qed.

(** A walk that ends within a recursion budget, by returning or by
    throwing, ends the same way within any larger budget. *)
Theorem walk_result_is_stable_under_more_fuel
        (fuel more : nat) (forceIgnore : ForceIgnore) (directory : SourcePath)
        (r : Completion (list MetadataComponent)) :
  getComponentsFromPathRecursive fuel forceIgnore directory = r ->
  r <> OutOfFuel ->
  getComponentsFromPathRecursive (fuel + more) forceIgnore directory = r.
Proof.
  revert directory r. induction fuel as [| fuel IH]; intros directory r H Hr.
  - simpl in H. congruence.
  - cbn [Nat.add RegistryAccess.getComponentsFromPathRecursive] in *.
    destruct (denies forceIgnore directory); [exact H |].
    destruct (readDir fileContainer directory) as [files | |]; try exact H.
    cbn [mbind Completion_bind bind] in *.
    destruct (RegistryAccess.scanFiles _ _ _ _ _ _ _ _ _) as [[cs | q cs] | |];
      cbn [mbind Completion_bind bind] in *; try exact H.
    apply (forEach_more_fuel
             (getComponentsFromPathRecursive fuel forceIgnore)
             (getComponentsFromPathRecursive (fuel + more) forceIgnore));
      [| exact H | exact Hr].
    intros dir r' Hdir Hr'. now apply IH.
Qed.

(** X28. On the remote listing, a normalized path that is not listed,
    while its parent directory is, is reported as not found. *)
Theorem github_missing_file_of_listed_directory
        (t : GithubFileContainer.Tree) (fuel : nat) (fsPath : SourcePath)
        (siblings : list SourcePath) :
  Path.normalized fsPath = true ->
  t !! Path.dirname fsPath = Some siblings ->
  fsPath ∉ siblings ->
  t !! fsPath = None ->
  RegistryAccess.getComponentsFromPath utils data (GithubFileContainer.container t)
    findAndCreate getAdapter fuel fsPath
  = Throws (TypeInferenceError error_path_not_found fsPath).
Proof.
  intros _ Hparent Hnot Hkey. unfold RegistryAccess.getComponentsFromPath. simpl.
  unfold GithubFileContainer.exists_. rewrite Hparent, Hkey.
  rewrite (bool_decide_eq_false_2 _ Hnot).
  rewrite bool_decide_eq_false_2 by (now intros [? ?]). reflexivity.
Qed.
End ResolverFacts.

Lemma file_path_resolves_to_at_most_one_witness :
  RegistryAccess.getComponentsFromPath SampleTree.utils Sample.registryData
    SampleTree.container (fun _ => SampleTree.denying []) SampleTree.getAdapter
    5 ["classes"; "Foo.cls"]
  = RegistryAccess.getComponentsFromPath SampleTree.utils Sample.registryData
      SampleTree.container (fun _ => SampleTree.denying []) SampleTree.getAdapter
      0 ["classes"; "Foo.cls"]
  /\ forall components,
       RegistryAccess.getComponentsFromPath SampleTree.utils Sample.registryData
         SampleTree.container (fun _ => SampleTree.denying []) SampleTree.getAdapter
         5 ["classes"; "Foo.cls"]
       = Returns components ->
       length components <= 1.
Proof.
  apply (file_path_resolves_to_at_most_one SampleTree.utils Sample.registryData
           SampleTree.container (fun _ => SampleTree.denying [])
           SampleTree.getAdapter 5 ["classes"; "Foo.cls"]).
  vm_compute. reflexivity.
Defined.

Lemma unknown_file_type_is_an_error_witness :
  RegistryAccess.getComponentsFromPath SampleTree.utils Sample.registryData
    SampleOps.misc (fun _ => SampleTree.denying []) SampleTree.getAdapter
    3 ["misc"; "notes.txt"]
  = Throws (TypeInferenceError error_could_not_infer_type ["misc"; "notes.txt"]).
Proof.
  apply (unknown_file_type_is_an_error SampleTree.utils Sample.registryData
           SampleOps.misc (fun _ => SampleTree.denying []) SampleTree.getAdapter
           3 ["misc"; "notes.txt"] JsObject.undefined);
    vm_compute; reflexivity.
Defined.

Lemma walk_lists_files_before_subdirectories_witness :
  RegistryAccess.getComponentsFromPathRecursive SampleTree.utils Sample.registryData
    SampleTree.container SampleTree.getAdapter 2 (SampleTree.denying [])
    ["staticresources"]
  = Returns
      ([SampleOps.resource "foo" ["staticresources"; "foo.resource-meta.xml"]]
       ++ concat [[SampleOps.resource "b"
                     ["staticresources"; "foo"; "b.resource-meta.xml"]]])
  /\ [["staticresources"; "foo"]]
     = List.filter
         (fun path => match isDirectory SampleTree.container path with
                      | Returns true => true
                      | _ => false
                      end)
         (map (Path.join ["staticresources"]) ["foo.resource-meta.xml"; "foo"]).
Proof.
  apply (walk_lists_files_before_subdirectories SampleTree.utils Sample.registryData
           SampleTree.container SampleTree.getAdapter 1 (SampleTree.denying [])
           ["staticresources"] ["foo.resource-meta.xml"; "foo"]
           [["staticresources"; "foo"]]).
  - vm_compute. reflexivity.
  - vm_compute. reflexivity.
  - vm_compute. reflexivity.
  - constructor; [vm_compute; reflexivity | constructor].
Defined.

Lemma walk_of_content_only_directory_is_empty_witness :
  RegistryAccess.getComponentsFromPathRecursive SampleTree.utils Sample.registryData
    SampleTree.container SampleTree.getAdapter 1 (SampleTree.denying [])
    ["documents"; "reports"; "summary"]
  = Returns [].
Proof.
  apply (walk_of_content_only_directory_is_empty SampleTree.utils Sample.registryData
           SampleTree.container SampleTree.getAdapter 0 (SampleTree.denying [])
           ["documents"; "reports"; "summary"] ["one.txt"]).
  - vm_compute. reflexivity.
  - intros f Hf.
    repeat (apply elem_of_cons in Hf as [-> | Hf];
            [split; vm_compute; reflexivity |]).
    inversion Hf.
Defined.

Lemma walk_result_is_stable_under_more_fuel_witness :
  RegistryAccess.getComponentsFromPathRecursive SampleTree.utils Sample.registryData
    SampleTree.container SampleTree.getAdapter (2 + 3) (SampleTree.denying [])
    ["staticresources"]
  = Returns
      [SampleOps.resource "foo" ["staticresources"; "foo.resource-meta.xml"];
       SampleOps.resource "b" ["staticresources"; "foo"; "b.resource-meta.xml"]].
Proof.
  apply (walk_result_is_stable_under_more_fuel SampleTree.utils Sample.registryData
           SampleTree.container SampleTree.getAdapter 2 3 (SampleTree.denying [])
           ["staticresources"]).
  - vm_compute. reflexivity.
  - discriminate.
Defined.

Lemma github_missing_file_of_listed_directory_witness :
  RegistryAccess.getComponentsFromPath SampleTree.utils Sample.registryData
    (GithubFileContainer.container SampleTree.tree)
    (fun _ => SampleTree.denying []) SampleTree.getAdapter 3 ["classes"; "Bar.cls"]
  = Throws (TypeInferenceError error_path_not_found ["classes"; "Bar.cls"]).
Proof.
  apply (github_missing_file_of_listed_directory SampleTree.utils Sample.registryData
           (fun _ => SampleTree.denying []) SampleTree.getAdapter SampleTree.tree 3
           ["classes"; "Bar.cls"]
           [["classes"; "Foo.cls"]; ["classes"; "Foo.cls-meta.xml"]]).
  - reflexivity.
  - vm_compute. reflexivity.
  - intros H. repeat (apply elem_of_cons in H as [H | H]; [discriminate |]).
    inversion H.
  - vm_compute. reflexivity.
Defined.

Lemma local_missing_path_is_not_found_witness :
  RegistryAccess.getComponentsFromPath SampleTree.utils Sample.registryData
    (LocalFileContainer SampleOps.fileSystem)
    (fun _ => SampleTree.denying []) SampleTree.getAdapter 3 ["classes"; "Bar.cls"]
  = Throws (TypeInferenceError error_path_not_found ["classes"; "Bar.cls"]).
Proof.
  apply (local_missing_path_is_not_found SampleTree.utils Sample.registryData
           SampleOps.fileSystem (fun _ => SampleTree.denying [])
           SampleTree.getAdapter 3 ["classes"; "Bar.cls"]).
  vm_compute. reflexivity.
Defined.

(* ================================================================== *)
(** * Type inference on a registry that is not coherent *)
(* ================================================================== *)

Section BrokenRegistry.
Import RegistryAccess.
Variable utils : PathUtils.
Variable data : MetadataRegistry.

Lemma mixedContentAttempt_skip (fsPath : SourcePath)
      (skipped rest : list (string * string)) :
  (forall e, e ∈ skipped -> Path.setHas (fst e) fsPath = false) ->
  mixedContentAttempt utils data (map fst (skipped ++ rest)) fsPath
  = mixedContentAttempt utils data (map fst rest) fsPath.
Proof.
  induction skipped as [| [k v] skipped IH]; intros H; [reflexivity |].
  cbn [app map fst mixedContentAttempt].
  pose proof (H (k, v) ltac:(left)) as Hk. simpl in Hk. rewrite Hk.
  apply IH. intros e He. apply H. now right.
Qed.

(** X30. Type inference needs the type of the first mixed-content
    directory on the path to be defined: when the registry's
    mixed-content table names, for that directory, a type that the
    registry does not define, and whose normalised id is not a property
    name of [Object.prototype], inference throws missing-type-definition
    with the normalised type id, whatever suffix the path has. *)
Theorem mixed_content_type_must_be_defined
        (fsPath : SourcePath) (skipped rest : list (string * string))
        (directoryName typeId : string) :
  mixedContent data = skipped ++ (directoryName, typeId) :: rest ->
  (forall e, e ∈ skipped -> Path.setHas (fst e) fsPath = false) ->
  Path.setHas directoryName fsPath = true ->
  types data !! JsString.removeSpaces (JsString.toLowerCase typeId) = None ->
  JsObject.inherited (JsString.removeSpaces (JsString.toLowerCase typeId)) = false ->
  determineTypeId utils data fsPath
  = Throws (TypeInferenceError error_missing_type_definition
              [JsString.removeSpaces (JsString.toLowerCase typeId)]).
Proof.
  intros Htable Hskip Hk Hty _. unfold determineTypeId.
  assert (Hget : mixedContentGet (mixedContent data) directoryName = Some typeId).
  { rewrite Htable, mixedContentGet_skip.
    - simpl. now rewrite String.eqb_refl.
    - intros e He <-. specialize (Hskip e He). congruence. }
  pattern (mixedContent data) at 1. rewrite Htable.
  rewrite (mixedContentAttempt_skip fsPath skipped _ Hskip).
  cbn [map fst mixedContentAttempt]. rewrite Hk, Hget.
  unfold getTypeFromName, Registry.getTypeFromName. rewrite Hty. reflexivity.
Qed.
End BrokenRegistry.

Lemma mixed_content_type_must_be_defined_witness :
  RegistryAccess.determineTypeId SampleTree.utils SampleOps.brokenRegistry
    ["staticresources"; "foo.resource-meta.xml"]
  = Throws (TypeInferenceError error_missing_type_definition ["staticresource"]).
Proof.
  apply (mixed_content_type_must_be_defined SampleTree.utils SampleOps.brokenRegistry
           ["staticresources"; "foo.resource-meta.xml"]
           [("documents", "document")] [] "staticresources" "staticresource").
  - reflexivity.
  - intros e He. apply list_elem_of_singleton in He. subst. vm_compute. reflexivity.
  - vm_compute. reflexivity.
  - vm_compute. reflexivity.
  - reflexivity.
Defined.
